(** * nova-solaris: the Solaris Zones compute driver

    A shallow embedding of the parts of [nova_solaris/solariszones] that
    carry the driver's invariants: the [ZoneConfig] edit/commit/cancel
    context manager ([zone_config.py]), the property lookups of
    [utils.py], and the lifecycle, statistics, storage-URI and
    resize/migration methods of [SolarisZonesDriver] ([driver.py]).

    The Python code is effectful: it talks to zonemgr(3RAD), kstat(3RAD),
    Cinder and a handful of command line tools, mutates the Nova
    [Instance] object it was handed, and raises exceptions.  It is
    embedded in a state-and-exception monad [M] over a [World] holding
    - the trace of the calls issued to those collaborators, in order,
    - the zonemgr store (zones, their committed configuration and the
      configuration under edit),
    - the [Instance] object and the driver's cached fields,
    - an environment [Env] that fixes, for the n-th call, whether it
      fails and what it answers. *)

From stdpp Require Import base option list gmap strings pretty.
From Stdlib Require Import ZArith Ascii.

Local Open Scope string_scope.
Local Open Scope list_scope.

(** ** Exceptions *)

(** [zonemgr.ErrorCode], the codes the driver tests for or prints. *)
Inductive ErrorCode :=
| EC_NONE
| EC_RESOURCE_ALREADY_EXISTS
| EC_RESOURCE_NOT_FOUND
| EC_ALREADY_EDITING
| EC_NOT_EDITING
| EC_OTHER (name : string).

(** The payload of a [rad.client.ObjectError] raised by zonemgr. *)
Record Payload := mkPayload {
  pl_code : ErrorCode;
  pl_str : option string;
  pl_stderr : option string
}.

(** The exception classes that occur in the embedded code.  All of them
    derive from Python's [Exception], so [except Exception] and a bare
    [except:] catch every one of them. *)
Inductive Exn :=
| ObjectError (text : string) (payload : Payload)   (* rad.client.ObjectError *)
| NotFoundError (text : string)                     (* rad.client.NotFoundError *)
| ProcessExecutionError (stderr : string)           (* oslo processutils *)
| OSError (text : string)
| KeyError (key : string)
| TypeError (text : string)
| AttributeError (text : string)
| IndexError (text : string)
| UnboundLocalError (name : string)
| NotImplementedError (text : string)
| NovaException (text : string)
| InstanceNotFound (instance_id : string)
| InstanceExists (name : string)
| InvalidVolume (reason : string)
| VolumeDriverNotFound (driver_type : string)
| MemoryAlignmentIncorrect (flavor memsize align : string)
| MigrationPreCheckError (reason : string)
| ResizeError (reason : string)
| InstancePowerOnFailure (reason : string)
| InstancePowerOffFailure (reason : string)
| InstanceSuspendFailure (reason : string)
| ImageUnacceptable (image_id reason : string)
| OtherError (cls text : string).   (* any other Exception of a collaborator *)

(** ** zonemgr data: properties and resources *)

(** [zonemgr.Property(name, value=None, listvalue=None)]. *)
Record Property := mkProperty {
  prop_name : string;
  prop_value : option string;
  prop_listvalue : option (list string)
}.

Definition Property_ (name value : string) : Property :=
  mkProperty name (Some value) None.

(** [zonemgr.Resource(type, props)]; a resource built without
    properties, or with [None], has the empty list. *)
Record Resource := mkResource {
  res_type : string;
  res_props : list Property
}.

Definition Resource_ (type : string) : Resource := mkResource type [].

#[global] Instance ErrorCode_eq_dec : EqDecision ErrorCode.
Proof. solve_decision. Defined.
#[global] Instance Payload_eq_dec : EqDecision Payload.
Proof. solve_decision. Defined.
#[global] Instance Exn_eq_dec : EqDecision Exn.
Proof. solve_decision. Defined.
#[global] Instance Property_eq_dec : EqDecision Property.
Proof. solve_decision. Defined.
#[global] Instance Resource_eq_dec : EqDecision Resource.
Proof. solve_decision. Defined.

(** ** Zones *)

(** The strings of [zone.state] ([ZONE_STATE_*]). *)
Inductive ZoneState :=
| ZONE_STATE_CONFIGURED
| ZONE_STATE_INCOMPLETE
| ZONE_STATE_UNAVAILABLE
| ZONE_STATE_INSTALLED
| ZONE_STATE_READY
| ZONE_STATE_RUNNING
| ZONE_STATE_SHUTTING_DOWN
| ZONE_STATE_DOWN
| ZONE_STATE_MOUNTED.

(** The values of [nova.compute.power_state] the driver uses. *)
Inductive power_state := NOSTATE | RUNNING | SHUTDOWN | CRASHED.

#[global] Instance ZoneState_eq_dec : EqDecision ZoneState.
Proof. solve_decision. Defined.
#[global] Instance power_state_eq_dec : EqDecision power_state.
Proof. solve_decision. Defined.

(** [SOLARISZONES_POWER_STATE]. *)
Definition SOLARISZONES_POWER_STATE (s : ZoneState) : power_state :=
  match s with
  | ZONE_STATE_CONFIGURED => NOSTATE
  | ZONE_STATE_INCOMPLETE => NOSTATE
  | ZONE_STATE_UNAVAILABLE => NOSTATE
  | ZONE_STATE_INSTALLED => SHUTDOWN
  | ZONE_STATE_READY => RUNNING
  | ZONE_STATE_RUNNING => RUNNING
  | ZONE_STATE_SHUTTING_DOWN => RUNNING
  | ZONE_STATE_DOWN => RUNNING
  | ZONE_STATE_MOUNTED => NOSTATE
  end.

Definition ZONE_BRAND_SOLARIS : string := "solaris".
Definition ZONE_BRAND_SOLARIS_KZ : string := "solaris-kz".
Definition ROOTZPOOL_RESOURCE : string := "rootzpool".

(** [ZONE_BRAND_TEMPLATE.get(brand)]. *)
Definition ZONE_BRAND_TEMPLATE (brand : string) : option string :=
  if decide (brand = ZONE_BRAND_SOLARIS) then Some "SYSdefault"
  else if decide (brand = ZONE_BRAND_SOLARIS_KZ) then Some "SYSsolaris-kz"
  else None.

(** Modelled from the spec: the zonemgr(3RAD) backend is an external
    collaborator whose code is not part of the repository.  A zone has a
    brand, a state, its committed configuration ("an ordered collection
    of named resources, each a set of key/value properties") and, while
    an edit session is open, the configuration under edit. *)
Record Zone := mkZone {
  z_brand : string;
  z_state : ZoneState;
  z_config : list Resource;
  z_edit : option (list Resource)
}.

(** ** The Nova objects handed to the driver *)

(** [nova.objects.Flavor]; [extra_specs] is kept in the order in which
    the dictionary is iterated. *)
Record Flavor := mkFlavor {
  fl_name : string;
  fl_extra_specs : list (string * string);
  fl_root_gb : Z
}.

(** [nova.objects.Instance]: the fields the embedded methods read or
    write.  [config_drive] is the answer of [configdrive.required_by]. *)
Record Instance := mkInstance {
  i_name : string;
  i_uuid : string;
  i_display_name : string;
  i_hostname : string;
  i_task_state : option string;
  i_system_metadata : gmap string string;
  i_metadata : gmap string string;
  i_flavor : Flavor;
  i_memory_mb : Z;
  i_vcpus : Z;
  i_root_gb : Z;
  i_root_device_name : string;
  i_host : string;
  i_node : string;
  i_launched_on : string;
  i_image_ref : option string;
  i_config_drive : bool
}.

(** [nova.compute.task_states] and [vm_states]. *)
Definition RESIZE_REVERTING : string := "resize_reverting".
Definition RESIZE_FINISH : string := "resize_finish".
Definition RESIZE_MIGRATING : string := "resize_migrating".
Definition REBUILD_SPAWNING : string := "rebuild_spawning".
Definition RESIZED : string := "resized".

(** ** Cinder, connection descriptors, kstat *)

(** A volume as [SolarisVolumeAPI.get] / [create] return it. *)
Record Volume := mkVolume {
  vol_id : string;
  vol_status : string;
  vol_display_name : string;
  vol_display_description : string
}.

(** [data['target_wwn']] is one WWN or a list of them. *)
Inductive TargetWwn := WwnOne (wwn : string) | WwnList (wwns : list string).

(** [connection_info['data']]; an absent key is [None] and reading it
    with [data[key]] raises [KeyError]. *)
Record ConnData := mkConnData {
  cd_target_iqns : option (list string);
  cd_target_luns : option (list string);
  cd_target_portal : option string;
  cd_target_iqn : option string;
  cd_target_lun : option Z;
  cd_volume_id : option string;
  cd_export : option string;
  cd_name : option string;
  cd_target_wwn : option TargetWwn
}.

(** The [connection_info] dictionary (the spec's Connection Descriptor). *)
Record ConnInfo := mkConnInfo {
  ci_driver_volume_type : string;
  ci_volume_path : option string;
  ci_serial : option string;
  ci_data : option ConnData
}.

(** One entry of [block_device_info['block_device_mapping']]; [None] is
    Python's [None]. *)
Record BdmEntry := mkBdmEntry {
  bdm_mount_device : option string;
  bdm_connection_info : option ConnInfo
}.

(** The [block_device_info] dictionary; an absent key is [None], which is
    what [block_device_info.get(key)] answers. *)
Record BlockDeviceInfo := mkBlockDeviceInfo {
  bdi_root_device_name : option string;
  bdi_block_device_mapping : option (list BdmEntry)
}.


(** A kstat value by its [KSTAT_TYPE]: integer, integers, string,
    strings, or a nested kstat with its own map. *)
#[warnings="-register-all"]
Inductive KsValue :=
| KsInt (n : Z)
| KsInts (l : list Z)
| KsStr (s : string)
| KsStrs (l : list string)
| KsKstat (m : list (string * KsValue)).

(** The dictionary [_kstat_data] returns, in iteration order. *)
Definition KsData : Type := list (string * KsValue).

(** One entry of [self._fc_hbas]: a dict that gains the keys
    ['port_name'], ['port_state'] and ['node_name'] as the lines of
    [fcinfo hba-port] are read. *)
Record Hba := mkHba {
  hba_port_name : option string;
  hba_port_state : option string;
  hba_node_name : option string
}.

(** The connector dictionary of [get_volume_connector]; the keys
    ['initiator'], ['wwnns'] and ['wwpns'] are optional. *)
Record Connector := mkConnector {
  connector_ip : string;
  connector_host : string;
  connector_initiator : option string;
  connector_wwnns : option (list string);
  connector_wwpns : option (list string)
}.

(** ** Calls to the collaborators *)

Inductive Event :=
(* rad_connection / zonemgr.ZoneManager *)
| RadGetZone (name : string)
| ZmCreate (name template : string)
| ZmDelete (name : string)
(* zonemgr.Zone *)
| ZEditConfig (zone : string)
| ZCommitConfig (zone : string)
| ZCancelConfig (zone : string)
| ZAddResource (zone : string) (r : Resource)
| ZSetResourceProperties (zone : string) (q : Resource) (props : list Property)
| ZRemoveResources (zone : string) (q : Resource)
| ZClearResourceProperties (zone : string) (q : Resource) (names : list string)
| ZGetResourceProperties (zone : string) (q : Resource) (names : list string)
| ZGetResources (zone : string) (q : Resource)
| ZExportConfig (zone : string)
| ZBoot (zone : string) (args : list string)
| ZShutdown (zone : string)
| ZHalt (zone : string)
| ZSuspend (zone : string)
| ZInstall (zone : string) (options : list string)
| ZUninstall (zone : string) (options : list string)
| ZAttach (zone : string) (options : list string)
| ZDetach (zone : string)
| ZApply (zone : string)
(* SolarisVolumeAPI (Cinder) and the block device mapping objects *)
| VolGet (volume_id : string)
| VolCreate (size : Z) (name description : string) (source_volid : option string)
| VolAttach (volume_id instance_uuid mountpoint : string)
| VolDetach (volume_id : string)
| VolDelete (volume_id : string)
| VolExtend (volume_id : string) (newsize : Z)
| VolInitializeConnection (volume_id : string) (connector : Connector)
| BdmGetByVolumeId (volume_id : string)
| BdmSave (connection_info : ConnInfo) (volume_id : string)
(* the Instance object *)
| InstanceSave
(* processutils.execute, kstat(3RAD), eventlet, the file system *)
| Exec (argv : list string)
| KstatRead (uri : string)
| KstatGetMap (uri : string)
| Sleep (seconds : nat)
| PathExists (path : string)
| ListDir (path : string)
| OsRemove (path : string)
| Rmtree (path : string)
(* the two hooks whose whole body is a log line *)
| PlugVifs
| UnplugVifs
(* collaborators the spec leaves out of scope (image cache, config
   drive builder, sysconfig profiles, Neutron) *)
| External (what : string).

#[global] Instance TargetWwn_eq_dec : EqDecision TargetWwn.
Proof. solve_decision. Defined.
#[global] Instance ConnData_eq_dec : EqDecision ConnData.
Proof. solve_decision. Defined.
#[global] Instance ConnInfo_eq_dec : EqDecision ConnInfo.
Proof. solve_decision. Defined.
#[global] Instance Connector_eq_dec : EqDecision Connector.
Proof. solve_decision. Defined.
#[global] Instance Event_eq_dec : EqDecision Event.
Proof. solve_decision. Defined.

(** ** The environment and the world *)

(** [CONF]: the options the embedded code reads. *)
Record Conf := mkConf {
  conf_my_ip : string;
  conf_host : string;
  conf_instances_path : string;
  conf_zones_suspend_path : string;
  conf_nfs_username : option string;
  conf_nfs_groupname : option string;
  conf_solariszones_boot_options : bool;
  conf_uid : string;
  conf_gid : string
}.

(** What the collaborators do, indexed by the position of the call in
    the trace: the exception the n-th call raises, if any, and the data
    it answers with otherwise. *)
Record Env := mkEnv {
  faults : nat → Event → option Exn;
  exec_out : nat → list string;
  kstat : nat → string → option KsData;
  volume_at : nat → Volume;
  conn_at : nat → ConnInfo;
  exists_at : nat → bool;
  text_at : nat → string;
  CONF : Conf
}.

(** The driver's cached fields ([self._fc_hbas] and friends). *)
Record Driver := mkDriver {
  _fc_hbas : option (list Hba);
  _fc_wwnns : option (list string);
  _fc_wwpns : option (list string);
  _initiator : option string
}.

Record World := mkWorld {
  env : Env;
  trace : list Event;
  zones : gmap string Zone;
  inst : Instance;
  drv : Driver
}.

Definition set_trace (t : list Event) (w : World) : World :=
  mkWorld (env w) t (zones w) (inst w) (drv w).
Definition set_zones (zs : gmap string Zone) (w : World) : World :=
  mkWorld (env w) (trace w) zs (inst w) (drv w).
Definition set_inst (i : Instance) (w : World) : World :=
  mkWorld (env w) (trace w) (zones w) i (drv w).
Definition set_drv (d : Driver) (w : World) : World :=
  mkWorld (env w) (trace w) (zones w) (inst w) d.

(** The instant of the next call. *)
Definition now (w : World) : nat := length (trace w).

(** ** The monad *)

(** A computation returns, raises, or (for the polling loops, which are
    run on fuel) has not finished when the fuel is used up. *)
Inductive Res (A : Type) :=
| Ok (a : A)
| Raise (e : Exn)
| Diverge.
Arguments Ok {A} a.
Arguments Raise {A} e.
Arguments Diverge {A}.

Definition M (A : Type) : Type := World → Res A * World.

#[global] Instance M_ret : MRet M := λ A a w, (Ok a, w).
#[global] Instance M_bind : MBind M := λ A B k m w,
  match m w with
  | (Ok a, w') => k a w'
  | (Raise e, w') => (Raise e, w')
  | (Diverge, w') => (Diverge, w')
  end.

Definition raise {A} (e : Exn) : M A := λ w, (Raise e, w).

(** A polling loop whose fuel is used up. *)
Definition out_of_fuel {A} : M A := λ w, (Diverge, w).

(** [try: m except Exception as ex: h ex]. *)
Definition try_except {A} (m : M A) (h : Exn → M A) : M A := λ w,
  match m w with
  | (Raise e, w') => h e w'
  | r => r
  end.

(** [try: m finally: f]. *)
Definition try_finally {A} (m : M A) (f : M unit) : M A := λ w,
  match m w with
  | (Diverge, w') => (Diverge, w')
  | (r, w') =>
      match f w' with
      | (Ok _, w'') => (r, w'')
      | (Raise e, w'') => (Raise e, w'')
      | (Diverge, w'') => (Diverge, w'')
      end
  end.

(** The [with] statement once [__enter__] has returned: the body runs,
    then [exit] is called with the exception that left the body, if any.
    The [__exit__] methods embedded here return [None], so an exception
    of the body is re-raised after [exit] returns; an exception raised
    by [exit] itself replaces it. *)
Definition with_statement {A} (body : M A) (exit : option Exn → M unit) : M A :=
  λ w,
  match body w with
  | (Ok a, w1) =>
      match exit None w1 with
      | (Ok _, w2) => (Ok a, w2)
      | (Raise e, w2) => (Raise e, w2)
      | (Diverge, w2) => (Diverge, w2)
      end
  | (Raise e, w1) =>
      match exit (Some e) w1 with
      | (Ok _, w2) => (Raise e, w2)
      | (Raise e', w2) => (Raise e', w2)
      | (Diverge, w2) => (Diverge, w2)
      end
  | (Diverge, w1) => (Diverge, w1)
  end.

Definition get_world : M World := λ w, (Ok w, w).
Definition get_instance : M Instance := λ w, (Ok (inst w), w).
Definition put_instance (i : Instance) : M unit := λ w, (Ok tt, set_inst i w).
Definition get_driver : M Driver := λ w, (Ok (drv w), w).
Definition put_driver (d : Driver) : M unit := λ w, (Ok tt, set_drv d w).
Definition get_conf : M Conf := λ w, (Ok (CONF (env w)), w).

(** Issue a call: it is appended to the trace, and fails if the
    environment says so. *)
Definition call (ev : Event) : M unit := λ w,
  let w' := set_trace (trace w ++ [ev]) w in
  match faults (env w) (now w) ev with
  | Some e => (Raise e, w')
  | None => (Ok tt, w')
  end.

(** A call that answers with data of the environment. *)
Definition ask {A} (ev : Event) (answer : Env → nat → A) : M A := λ w,
  match call ev w with
  | (Ok _, w') => (Ok (answer (env w) (now w)), w')
  | (Raise e, w') => (Raise e, w')
  | (Diverge, w') => (Diverge, w')
  end.

(** [d[key]] on a dictionary: [KeyError] when the key is absent. *)
Definition subscript {A} (key : string) (o : option A) : M A :=
  match o with
  | Some a => mret a
  | None => raise (KeyError key)
  end.

(** What Python does with [None] where an object is needed. *)
Definition none_attribute {A} (attr : string) (o : option A) : M A :=
  match o with
  | Some a => mret a
  | None =>
      raise (AttributeError
               ("'NoneType' object has no attribute '" +:+ attr +:+ "'"))
  end.
Definition none_subscript {A} (o : option A) : M A :=
  match o with
  | Some a => mret a
  | None => raise (TypeError "'NoneType' object is not subscriptable")
  end.
Definition none_iter {A} (o : option A) : M A :=
  match o with
  | Some a => mret a
  | None => raise (TypeError "'NoneType' object is not iterable")
  end.


(** Python truth of a string: non-empty. *)
Definition truthy (s : string) : bool := negb (bool_decide (s = "")).

(** A read that cannot fail ([os.path.exists] and the like): it is
    recorded and answered. *)
Definition probe {A} (ev : Event) (answer : Env → nat → A) : M A := λ w,
  (Ok (answer (env w) (now w)), set_trace (trace w ++ [ev]) w).

(** ** The zonemgr backend *)

(** Modelled from the spec: zonemgr(3RAD) is an external collaborator;
    its methods are modelled from the spec's data model and Config
    Transaction contract ("a configuration is either edited-and-committed
    in full or cancelled and left unchanged") and from the lifecycle state
    machine of the spec's section 4.4.  Every method is first a [call],
    so the environment can make it fail; a failed call leaves the store
    as it was. *)
Module zonemgr.

Definition error (code : ErrorCode) (text : string) : Exn :=
  ObjectError text (mkPayload code (Some text) None).

(** A filter property selects resources that carry the same name and value. *)
Definition prop_matches (f p : Property) : bool :=
  bool_decide (prop_name f = prop_name p ∧ prop_value f = prop_value p
               ∧ prop_listvalue f = prop_listvalue p).

Definition res_matches (q r : Resource) : bool :=
  bool_decide (res_type q = res_type r)
  && forallb (λ f, existsb (prop_matches f) (res_props r)) (res_props q).

(** What readers see: the configuration under edit while a session is
    open, the committed one otherwise. *)
Definition view (z : Zone) : list Resource :=
  default (z_config z) (z_edit z).

Definition set_state (s : ZoneState) (z : Zone) : Zone :=
  mkZone (z_brand z) s (z_config z) (z_edit z).
Definition set_edit (e : option (list Resource)) (z : Zone) : Zone :=
  mkZone (z_brand z) (z_state z) (z_config z) e.
Definition set_config (c : list Resource) (z : Zone) : Zone :=
  mkZone (z_brand z) (z_state z) c (z_edit z).

(** Reading through a handle whose zone is gone raises [NotFoundError]. *)
Definition the_zone (zone : string) : M Zone := λ w,
  match zones w !! zone with
  | Some z => (Ok z, w)
  | None => (Raise (NotFoundError zone), w)
  end.

Definition find_zone (zone : string) : M (option Zone) := λ w,
  (Ok (zones w !! zone), w).

Definition put_zone (zone : string) (z : Zone) : M unit := λ w,
  (Ok tt, set_zones (<[zone := z]> (zones w)) w).

Definition drop_zone (zone : string) : M unit := λ w,
  (Ok tt, set_zones (base.delete zone (zones w)) w).

(** [zone.name], [zone.state], [zone.brand]: attribute reads on a
    resolved handle.  zonemgr reports a name for every zone. *)
Definition name (zone : string) : M (option string) :=
  _ ← the_zone zone; mret (Some zone).
Definition state (zone : string) : M ZoneState :=
  z ← the_zone zone; mret (z_state z).
Definition brand (zone : string) : M string :=
  z ← the_zone zone; mret (z_brand z).

(** *** The edit session *)

Definition editConfig (zone : string) : M unit :=
  call (ZEditConfig zone);;
  z ← the_zone zone;
  match z_edit z with
  | Some _ => raise (error EC_ALREADY_EDITING "already editing")
  | None => put_zone zone (set_edit (Some (z_config z)) z)
  end.

Definition commitConfig (zone : string) : M unit :=
  call (ZCommitConfig zone);;
  z ← the_zone zone;
  match z_edit z with
  | None => raise (error EC_NOT_EDITING "not editing")
  | Some cfg => put_zone zone (set_edit None (set_config cfg z))
  end.

Definition cancelConfig (zone : string) : M unit :=
  call (ZCancelConfig zone);;
  z ← the_zone zone;
  match z_edit z with
  | None => raise (error EC_NOT_EDITING "not editing")
  | Some _ => put_zone zone (set_edit None z)
  end.

(** A mutation acts on the configuration under edit. *)
Definition edit (zone : string) (f : list Resource → Exn + list Resource) : M unit :=
  z ← the_zone zone;
  match z_edit z with
  | None => raise (error EC_NOT_EDITING "not editing")
  | Some cfg =>
      match f cfg with
      | inl e => raise e
      | inr cfg' => put_zone zone (set_edit (Some cfg') z)
      end
  end.

(** Apply [f] to the first resource that matches [q]. *)
Fixpoint update_first (q : Resource) (f : Resource → Resource)
    (cfg : list Resource) : option (list Resource) :=
  match cfg with
  | [] => None
  | r :: cfg' =>
      if res_matches q r then Some (f r :: cfg')
      else cons r <$> update_first q f cfg'
  end.

(** Set one property: replace the value if the name is there, add it
    otherwise. *)
Fixpoint set_property (p : Property) (props : list Property) : list Property :=
  match props with
  | [] => [p]
  | p' :: props' =>
      if bool_decide (prop_name p' = prop_name p) then p :: props'
      else p' :: set_property p props'
  end.

Definition set_properties (new : list Property) (r : Resource) : Resource :=
  mkResource (res_type r) (foldl (λ ps p, set_property p ps) (res_props r) new).

Definition clear_properties (names : list string) (r : Resource) : Resource :=
  mkResource (res_type r)
    (map (λ p, if bool_decide (prop_name p ∈ names)
               then mkProperty (prop_name p) None None else p) (res_props r)).

Definition not_found (q : Resource) : Exn :=
  error EC_RESOURCE_NOT_FOUND (res_type q).

Definition addResource (zone : string) (r : Resource) : M unit :=
  call (ZAddResource zone r);;
  edit zone (λ cfg, inr (cfg ++ [r])).

Definition setResourceProperties (zone : string) (q : Resource)
    (props : list Property) : M unit :=
  call (ZSetResourceProperties zone q props);;
  edit zone (λ cfg, from_option inr (inl (not_found q))
                      (update_first q (set_properties props) cfg)).

Definition removeResources (zone : string) (q : Resource) : M unit :=
  call (ZRemoveResources zone q);;
  edit zone (λ cfg, inr (filter (λ r, res_matches q r = false) cfg)).

Definition clearResourceProperties (zone : string) (q : Resource)
    (names : list string) : M unit :=
  call (ZClearResourceProperties zone q names);;
  edit zone (λ cfg, from_option inr (inl (not_found q))
                      (update_first q (clear_properties names) cfg)).

(** *** Reads *)

Definition getResourceProperties (zone : string) (q : Resource)
    (names : list string) : M (list Property) :=
  call (ZGetResourceProperties zone q names);;
  z ← the_zone zone;
  match List.find (res_matches q) (view z) with
  | None => raise (not_found q)
  | Some r =>
      mret (filter (λ p, prop_name p ∈ names) (res_props r))
  end.

Definition getResources (zone : string) (q : Resource) : M (list Resource) :=
  call (ZGetResources zone q);;
  z ← the_zone zone;
  mret (filter (λ r, res_matches q r = true) (view z)).

Definition exportConfig (zone : string) : M unit :=
  call (ZExportConfig zone);; _ ← the_zone zone; mret tt.

(** *** Lifecycle verbs (the spec's state machine) *)

Definition verb (ev : Event) (zone : string) (s : ZoneState) : M unit :=
  call ev;; z ← the_zone zone; put_zone zone (set_state s z).

Definition boot (zone : string) (args : list string) : M unit :=
  verb (ZBoot zone args) zone ZONE_STATE_RUNNING.
Definition shutdown (zone : string) : M unit :=
  verb (ZShutdown zone) zone ZONE_STATE_INSTALLED.
Definition halt (zone : string) : M unit :=
  verb (ZHalt zone) zone ZONE_STATE_INSTALLED.
Definition suspend (zone : string) : M unit :=
  verb (ZSuspend zone) zone ZONE_STATE_INSTALLED.
Definition install (zone : string) (options : list string) : M unit :=
  verb (ZInstall zone options) zone ZONE_STATE_INSTALLED.
Definition uninstall (zone : string) (options : list string) : M unit :=
  verb (ZUninstall zone options) zone ZONE_STATE_CONFIGURED.
Definition attach (zone : string) (options : list string) : M unit :=
  verb (ZAttach zone options) zone ZONE_STATE_INSTALLED.
Definition detach (zone : string) : M unit :=
  verb (ZDetach zone) zone ZONE_STATE_CONFIGURED.
Definition apply (zone : string) : M unit :=
  call (ZApply zone);; _ ← the_zone zone; mret tt.

(** *** ZoneManager and the RAD connection *)

Definition template_brand (template : string) : string :=
  if decide (template = "SYSsolaris-kz") then ZONE_BRAND_SOLARIS_KZ
  else ZONE_BRAND_SOLARIS.

Definition create (name template : string) : M unit :=
  call (ZmCreate name template);;
  z ← find_zone name;
  match z with
  | Some _ => raise (error (EC_OTHER "ZONE_EXISTS") name)
  | None =>
      put_zone name
        (mkZone (template_brand template) ZONE_STATE_CONFIGURED [] None)
  end.

Definition delete (name : string) : M unit :=
  call (ZmDelete name);;
  _ ← the_zone name;
  drop_zone name.

(** [rad_connection.get_object(zonemgr.Zone(), ADRGlobPattern({'name':
    name}))]: the handle of the zone, or [NotFoundError]. *)
Definition get_object (name : string) : M string :=
  call (RadGetZone name);;
  _ ← the_zone name; mret name.

End zonemgr.

(** ** Python strings *)

Module py.

(** The ASCII characters [str.isspace] accepts. *)
Definition is_space (c : ascii) : bool :=
  let n := nat_of_ascii c in
  (n =? 32)%nat || ((9 <=? n)%nat && (n <=? 13)%nat)
  || ((28 <=? n)%nat && (n <=? 31)%nat).

Fixpoint lstrip (s : string) : string :=
  match s with
  | String c s' => if is_space c then lstrip s' else s
  | EmptyString => EmptyString
  end.

Definition rstrip (s : string) : string :=
  String.rev (lstrip (String.rev s)).

Definition strip (s : string) : string := lstrip (rstrip s).

(** [s.split()]: the maximal runs of non-space characters. *)
Fixpoint split_from (cur : string) (s : string) : list string :=
  match s with
  | EmptyString => if bool_decide (cur = "") then [] else [String.rev cur]
  | String c s' =>
      if is_space c
      then (if bool_decide (cur = "") then [] else [String.rev cur])
           ++ split_from "" s'
      else split_from (String c cur) s'
  end.
Definition split (s : string) : list string := split_from "" s.

Definition startswith (s pre : string) : bool := String.prefix pre s.

(** [needle in s]. *)
Definition contains (needle s : string) : bool :=
  match String.index 0 needle s with Some _ => true | None => false end.

(** [s.replace('\n', ': ')]. *)
Fixpoint replace_newline (s : string) : string :=
  match s with
  | EmptyString => EmptyString
  | String c s' =>
      if bool_decide (c = "010"%char) then ": " +:+ replace_newline s'
      else String c (replace_newline s')
  end.

(** [sep.join(l)]. *)
Fixpoint join (sep : string) (l : list string) : string :=
  match l with
  | [] => ""
  | [x] => x
  | x :: l' => x +:+ sep +:+ join sep l'
  end.

(** [s.replace(c, '')]. *)
Fixpoint remove_char (c : ascii) (s : string) : string :=
  match s with
  | EmptyString => EmptyString
  | String c' s' =>
      if bool_decide (c' = c) then remove_char c s'
      else String c' (remove_char c s')
  end.

(** [s.rsplit(' ', 1)]: around the last blank, when there is one. *)
Fixpoint rsplit_blank_from (acc : string) (s : string)
    : option (string * string) :=
  match s with
  | EmptyString => None
  | String c s' =>
      match rsplit_blank_from (String c acc) s' with
      | Some r => Some r
      | None =>
          if bool_decide (c = " "%char) then Some (String.rev acc, s')
          else None
      end
  end.
Definition rsplit_blank (s : string) : list string :=
  match rsplit_blank_from "" s with
  | Some (a, b) => [a; b]
  | None => [s]
  end.

(** [s.lower()] on ASCII. *)
Definition lower_char (c : ascii) : ascii :=
  let n := nat_of_ascii c in
  if (65 <=? n)%nat && (n <=? 90)%nat then ascii_of_nat (n + 32) else c.
Fixpoint lower (s : string) : string :=
  match s with
  | EmptyString => EmptyString
  | String c s' => String (lower_char c) (lower s')
  end.

(** [s[len(pre):]] when [s] starts with [pre], and [s] otherwise. *)
Definition removeprefix (pre s : string) : string :=
  if String.prefix pre s
  then String.substring (String.length pre)
         (String.length s - String.length pre) s
  else s.

(** [re.sub(r'\d+', '', s)]. *)
Definition is_digit (c : ascii) : bool :=
  let n := nat_of_ascii c in (48 <=? n)%nat && (n <=? 57)%nat.
Fixpoint remove_digits (s : string) : string :=
  match s with
  | EmptyString => EmptyString
  | String c s' =>
      if is_digit c then remove_digits s' else String c (remove_digits s')
  end.

(** [os.path.join(a, b)]. *)
Definition path_join (a b : string) : string :=
  if startswith b "/" then b
  else if bool_decide (a = "") then b
  else if String.prefix "/" (String.rev a) then a +:+ b
  else a +:+ "/" +:+ b.

(** [s.rpartition('/')[2]]: what follows the last slash. *)
Fixpoint after_last_slash_from (acc : string) (s : string) : string :=
  match s with
  | EmptyString => String.rev acc
  | String c s' =>
      if bool_decide (c = "/"%char) then after_last_slash_from "" s'
      else after_last_slash_from (String c acc) s'
  end.
Definition after_last_slash (s : string) : string :=
  after_last_slash_from "" s.

End py.

(** [str(ex)]: the text an exception prints. *)
Definition str_exn (ex : Exn) : string :=
  match ex with
  | ObjectError text _ => text
  | NotFoundError text => text
  | ProcessExecutionError stderr => stderr
  | OSError text | TypeError text | AttributeError text | IndexError text
  | NotImplementedError text | NovaException text => text
  | KeyError key => "'" +:+ key +:+ "'"
  | UnboundLocalError name =>
      "local variable '" +:+ name +:+ "' referenced before assignment"
  | InstanceNotFound id => "Instance " +:+ id +:+ " could not be found."
  | InstanceExists name => "Instance " +:+ name +:+ " already exists."
  | InvalidVolume reason => "Invalid volume: " +:+ reason
  | VolumeDriverNotFound ty => "Could not find a handler for " +:+ ty +:+ " volume."
  | MemoryAlignmentIncorrect flavor memsize align =>
      "Requested flavor, " +:+ flavor +:+ ", memory size " +:+ memsize
      +:+ " does not align on " +:+ align +:+ " boundary."
  | MigrationPreCheckError reason => "Migration pre-check error: " +:+ reason
  | ResizeError reason => "Resize error: " +:+ reason
  | InstancePowerOnFailure reason => "Failed to power on instance: " +:+ reason
  | InstancePowerOffFailure reason => "Failed to power off instance: " +:+ reason
  | InstanceSuspendFailure reason => "Failed to suspend instance: " +:+ reason
  | ImageUnacceptable id reason => "Image " +:+ id +:+ " is unacceptable: " +:+ reason
  | OtherError _ text => text
  end.

Definition str_ErrorCode (c : ErrorCode) : string :=
  match c with
  | EC_NONE => "NONE"
  | EC_RESOURCE_ALREADY_EXISTS => "RESOURCE_ALREADY_EXISTS"
  | EC_RESOURCE_NOT_FOUND => "RESOURCE_NOT_FOUND"
  | EC_ALREADY_EDITING => "ALREADY_EDITING"
  | EC_NOT_EDITING => "NOT_EDITING"
  | EC_OTHER name => name
  end.

(** ** utils.py *)

Module utils.

(** [lookup_resource(zone, resource)]. *)
Definition lookup_resource (zone resource : string) : M (option Resource) :=
  try_except
    (val ← zonemgr.getResources zone (Resource_ resource);
     mret (head val))
    (λ ex, match ex with
           | ObjectError _ _ => mret None
           | _ => raise ex
           end).

(** [lookup_resource_property(zone, resource, prop, filter=None)]:
    [val[0].value if val else None]. *)
Definition lookup_resource_property (zone resource prop : string)
    (filter : list Property) : M (option string) :=
  try_except
    (val ← zonemgr.getResourceProperties zone (mkResource resource filter) [prop];
     mret (match val with
           | p :: _ => prop_value p
           | [] => None
           end))
    (λ ex, match ex with
           | ObjectError _ _ => mret None
           | _ => raise ex
           end).

(** [lookup_resource_property_value(zone, resource, prop, value)]: the
    first resource that has the property with that value. *)
Definition lookup_resource_property_value (zone resource prop value : string)
    : M (option Resource) :=
  try_except
    (resources ← zonemgr.getResources zone (Resource_ resource);
     mret (List.find
             (λ r, existsb (λ p, bool_decide (prop_name p = prop
                                             ∧ prop_value p = Some value))
                     (res_props r))
             resources))
    (λ ex, match ex with
           | ObjectError _ _ => mret None
           | _ => raise ex
           end).

(** [zonemgr_strerror(ex)]. *)
Definition zonemgr_strerror (ex : Exn) : string :=
  match ex with
  | ObjectError _ payload =>
      if bool_decide (pl_code payload = EC_NONE) then str_exn ex
      else
        let error := [str_ErrorCode (pl_code payload)] in
        let error :=
          match pl_str payload with
          | Some s => if truthy s then error ++ [s] else error
          | None => error
          end in
        let error :=
          match pl_stderr payload with
          | Some s =>
              if truthy s
              then error ++ [py.replace_newline (py.rstrip s)]
              else error
          | None => error
          end in
        py.join ": " error
  | _ => str_exn ex
  end.

End utils.

(** ** zone_config.py: class ZoneConfig *)

Module ZoneConfig.

(** The object: the zone handle and the [editing] flag. *)
Record t := mk { zone : string; editing : bool }.

Definition __init__ (zone : string) : t := mk zone false.

(** [__enter__]: when [editConfig] fails the handler evaluates
    [utils.utils.zonemgr_strerror], and the module [utils] has no
    attribute [utils]: what leaves is that [AttributeError]. *)
Definition __enter__ (self : t) : M t :=
  try_except
    (zonemgr.editConfig (zone self);;
     mret (mk (zone self) true))
    (λ ex, raise (AttributeError
                    "module 'nova_solaris.solariszones.utils' has no attribute 'utils'")).

(** [__exit__(exc_type, exc_val, exc_tb)]; [exc] is the exception that
    left the body, if any.  A bare [raise] re-raises the exception
    being handled. *)
Definition __exit__ (self : t) (exc : option Exn) : M unit :=
  let commit :=
    try_except
      (zonemgr.commitConfig (zone self))
      (λ ex,
         (* Last ditch effort to cleanup. *)
         zonemgr.cancelConfig (zone self);;
         raise ex) in
  match exc with
  | Some e =>
      if editing self then
        (* We received some kind of exception.  Cancel the config and raise. *)
        zonemgr.cancelConfig (zone self);;
        raise e
      else commit
  | None => commit
  end.

(** [with ZoneConfig(zone) as zc: body]: [__enter__], the body, then
    [__exit__] with the body's exception, if any. *)
Definition with_ {A} (zone : string) (body : t → M A) : M A :=
  zc ← __enter__ (__init__ zone);
  with_statement (body zc) (__exit__ zc).

(** [setprop(resource, prop, value)]. *)
Definition setprop (self : t) (resource prop value : string) : M unit :=
  current ← utils.lookup_resource_property (zone self) resource prop [];
  if bool_decide (current = Some value) then
    (* the value is already set *)
    mret tt
  else
    match current with
    | None =>
        zonemgr.addResource (zone self)
          (mkResource resource [Property_ prop value])
    | Some _ =>
        zonemgr.setResourceProperties (zone self)
          (Resource_ resource) [Property_ prop value]
    end.

(** [addresource(resource, props=None, ignore_exists=False)]. *)
Definition addresource (self : t) (resource : string) (props : list Property)
    (ignore_exists : bool) : M unit :=
  try_except
    (zonemgr.addResource (zone self) (mkResource resource props))
    (λ ex,
       match ex with
       | ObjectError _ payload =>
           if ignore_exists
              && bool_decide (pl_code payload = EC_RESOURCE_ALREADY_EXISTS)
           then zonemgr.setResourceProperties (zone self)
                  (Resource_ resource) props
           else raise ex
       | _ => raise ex
       end).

(** [removeresources(resource, props=None)]. *)
Definition removeresources (self : t) (resource : string)
    (props : list Property) : M unit :=
  zonemgr.removeResources (zone self) (mkResource resource props).

(** [clear_resource_props(resource, props)]. *)
Definition clear_resource_props (self : t) (resource : string)
    (props : list string) : M unit :=
  zonemgr.clearResourceProperties (zone self) (Resource_ resource) props.

End ZoneConfig.


(** ** Python dictionaries kept in iteration order *)

(** [d.get(key)]. *)
Fixpoint dict_get {V} (key : string) (d : list (string * V)) : option V :=
  match d with
  | [] => None
  | (k, v) :: d' => if bool_decide (k = key) then Some v else dict_get key d'
  end.

Definition dict_without {V} (key : string) (d : list (string * V))
    : list (string * V) :=
  filter (λ kv, kv.1 ≠ key) d.

(** [d.pop(key)]: the dictionary without the key; [KeyError] when the key
    is absent. *)
Definition dict_pop {V} (key : string) (d : list (string * V))
    : M (list (string * V)) :=
  match dict_get key d with
  | Some _ => mret (dict_without key d)
  | None => raise (KeyError key)
  end.

(** [a == b] on kstat values. *)
Fixpoint ks_eqb (a b : KsValue) {struct a} : bool :=
  match a, b with
  | KsInt x, KsInt y => bool_decide (x = y)
  | KsInts x, KsInts y => bool_decide (x = y)
  | KsStr x, KsStr y => bool_decide (x = y)
  | KsStrs x, KsStrs y => bool_decide (x = y)
  | KsKstat x, KsKstat y =>
      (fix go (x y : list (string * KsValue)) {struct x} : bool :=
         match x, y with
         | [], [] => true
         | (k, v) :: x', (k', v') :: y' =>
             bool_decide (k = k') && ks_eqb v v' && go x' y'
         | _, _ => false
         end) x y
  | _, _ => false
  end.

(** [a + b] on kstat values where both are integers; Python raises
    [TypeError] on every other pair that can reach [total]. *)
Definition ks_int (what : string) (v : KsValue) : M Z :=
  match v with
  | KsInt n => mret n
  | _ => raise (TypeError ("unsupported operand type(s) for +: " +:+ what))
  end.

(** ** nova.block_device *)

(** [get_device_letter] of Nova's [block_device] module, which
    [_get_device_index] calls: the device name without its leading
    [/dev/], without a leading [xvd], [vd], [sd] or [hd], and without
    its digits. *)
Module block_device.

Definition strip_dev (device_name : string) : string :=
  py.removeprefix "/dev/" device_name.

Definition strip_prefix (device_name : string) : string :=
  let device_name := strip_dev device_name in
  if py.startswith device_name "xvd" then py.removeprefix "xvd" device_name
  else if py.startswith device_name "vd" then py.removeprefix "vd" device_name
  else if py.startswith device_name "sd" then py.removeprefix "sd" device_name
  else if py.startswith device_name "hd" then py.removeprefix "hd" device_name
  else device_name.

Definition get_device_letter (device_name : string) : string :=
  py.remove_digits (strip_prefix device_name).

End block_device.

(** * driver.py: class SolarisZonesDriver *)

Module driver.

(** [processutils.execute(cmd, ...)]: the lines of the standard output
    ([out.splitlines()]); a command that fails raises, as the
    environment has it ([ProcessExecutionError] for a non-zero exit). *)
Definition execute (argv : list string) : M (list string) :=
  ask (Exec argv) exec_out.

(** [l[i]] on a list. *)
Definition index {A} (l : list A) (i : nat) : M A :=
  match l !! i with
  | Some a => mret a
  | None => raise (IndexError "list index out of range")
  end.

(** [line.split()[-1]]. *)
Definition last_word (line : string) : M string :=
  match last (py.split line) with
  | Some w => mret w
  | None => raise (IndexError "list index out of range")
  end.

(** *** Fibre Channel and iSCSI initiators *)

(** [len(hba)]. *)
Definition len_hba (hba : Hba) : nat :=
  (if hba_port_name hba is Some _ then 1 else 0)
  + (if hba_port_state hba is Some _ then 1 else 0)
  + (if hba_node_name hba is Some _ then 1 else 0).

Definition empty_hba : Hba := mkHba None None None.

(** The loop of [_get_fc_hbas] over the lines of [fcinfo hba-port]. *)
Fixpoint parse_hba_ports (lines : list string) (hbas : list Hba) (hba : Hba)
    : M (list Hba) :=
  match lines with
  | [] => mret hbas
  | line :: lines' =>
      let line := py.strip line in
      let check_len :=
        if bool_decide (len_hba hba = 3)
        then parse_hba_ports lines' (hbas ++ [hba]) empty_hba
        else parse_hba_ports lines' hbas hba in
      if py.startswith line "HBA Port WWN:" then
        (* New HBA port entry *)
        wwpn ← last_word line;
        parse_hba_ports lines' hbas (mkHba (Some wwpn) None None)
      else if py.startswith line "Port Mode:" then
        mode ← last_word line;
        (* Skip Target mode ports *)
        if bool_decide (mode ≠ "Initiator") then mret hbas
        else check_len
      else if py.startswith line "State:" then
        state ← last_word line;
        parse_hba_ports lines' hbas
          (mkHba (hba_port_name hba) (Some state) (hba_node_name hba))
      else if py.startswith line "Node WWN:" then
        wwnn ← last_word line;
        parse_hba_ports lines' hbas
          (mkHba (hba_port_name hba) (hba_port_state hba) (Some wwnn))
      else check_len
  end.

Definition set_fc_hbas (hbas : list Hba) : M unit :=
  d ← get_driver;
  put_driver (mkDriver (Some hbas) (_fc_wwnns d) (_fc_wwpns d) (_initiator d)).

(** [_get_fc_hbas()].  [execute] returns a pair of strings, so [out]
    is never [None] once it has returned. *)
Definition _get_fc_hbas : M (list Hba) :=
  d ← get_driver;
  match _fc_hbas d with
  | Some (hba :: hbas) => mret (hba :: hbas)
  | _ =>
      out ← try_except
              (out ← execute ["/usr/sbin/fcinfo"; "hba-port"]; mret (Some out))
              (λ ex, match ex with
                     | ProcessExecutionError _ => mret None
                     | _ => raise ex
                     end);
      match out with
      | None => mret []
      | Some out =>
          hbas ← parse_hba_ports out [] empty_hba;
          set_fc_hbas hbas;;
          mret hbas
      end
  end.

(** The loops of [_get_fc_wwnns] and [_get_fc_wwpns]. *)
Fixpoint online (field : string) (get : Hba → option string)
    (hbas : list Hba) : M (list string) :=
  match hbas with
  | [] => mret []
  | hba :: hbas' =>
      state ← subscript "port_state" (hba_port_state hba);
      if bool_decide (state = "online") then
        v ← subscript field (get hba);
        rest ← online field get hbas';
        mret (v :: rest)
      else online field get hbas'
  end.

(** [_get_fc_wwnns()]. *)
Definition _get_fc_wwnns : M (list string) :=
  hbas ← _get_fc_hbas;
  online "node_name" hba_node_name hbas.

(** [_get_fc_wwpns()]. *)
Definition _get_fc_wwpns : M (list string) :=
  hbas ← _get_fc_hbas;
  online "port_name" hba_port_name hbas.

(** [_get_iscsi_initiator()]. *)
Definition _get_iscsi_initiator : M (option string) :=
  try_except
    (out ← execute ["/usr/sbin/iscsiadm"; "list"; "initiator-node"];
     initiator_name_line ← index out 0;
     initiator_iqn ← index (py.rsplit_blank initiator_name_line) 1;
     mret (Some initiator_iqn))
    (λ ex, match ex with
           | ProcessExecutionError _ => mret None
           | _ => raise ex
           end).

(** *** Storage URIs *)

(** [_lookup_fc_volume_suri]: the first line that is a LU name. *)
Definition find_luname (out : list string) : option string :=
  List.find (λ line, py.startswith line "lu:luname.naa.") (map py.strip out).

(** [for wwn in wwns: ...]: the URI found, if any. *)
Fixpoint lookup_fc_wwns (wwns : list string) (target_lun : string)
    : M (option string) :=
  match wwns with
  | [] => mret None
  | wwn :: wwns' =>
      found ← try_except
                (out ← execute ["/usr/sbin/suriadm"; "lookup-uri";
                                "-p"; "target=naa." +:+ wwn;
                                "-p"; "lun=" +:+ target_lun];
                 mret (find_luname out))
                (λ ex, match ex with
                       | ProcessExecutionError _ => mret None
                       | _ => raise ex
                       end);
      match found with
      | Some line => mret (Some line)
      | None => lookup_fc_wwns wwns' target_lun
      end
  end.

(** [for _none in range(n): ... else: raise]. *)
Fixpoint lookup_fc_rounds (n : nat) (wwns : list string) (target_lun : string)
    : M string :=
  match n with
  | O =>
      raise (InvalidVolume
               ("Unable to lookup URI of Fibre Channel volume with lun '"
                +:+ target_lun +:+ "'."))
  | S n' =>
      found ← lookup_fc_wwns wwns target_lun;
      match found with
      | Some line => mret line
      | None => call (Sleep 2);; lookup_fc_rounds n' wwns target_lun
      end
  end.

(** [_lookup_fc_volume_suri(target_wwn, target_lun)]. *)
Definition _lookup_fc_volume_suri (target_wwn : TargetWwn) (target_lun : Z)
    : M string :=
  let wwns := match target_wwn with
              | WwnList wwns => wwns
              | WwnOne wwn => [wwn]
              end in
  lookup_fc_rounds 3 wwns (pretty target_lun).

(** [for wwpn in self._get_fc_wwpns(): execute(fcinfo remote-port -p wwpn)]. *)
Fixpoint rescan_remote_ports (wwpns : list string) : M unit :=
  match wwpns with
  | [] => mret tt
  | wwpn :: wwpns' =>
      execute ["/usr/sbin/fcinfo"; "remote-port"; "-p"; wwpn];;
      rescan_remote_ports wwpns'
  end.

(** The iSCSI lookup of a luname-only URI: the last line of the
    output that mentions one. *)
Definition last_luname (out : list string) : option string :=
  last (filter (λ line, py.contains "luname.naa." line = true)
          (map py.strip out)).

(** [x or y] on an option that may be [None] or empty. *)
Definition or_else (x : option string) (y : string) : string :=
  match x with
  | Some s => if truthy s then s else y
  | None => y
  end.

(** [_suri_from_volume_info(connection_info)]. *)
Definition _suri_from_volume_info (connection_info : ConnInfo) : M string :=
  let driver_type := ci_driver_volume_type connection_info in
  if bool_decide (driver_type ∉ ["iscsi"; "fibre_channel"; "local"; "nfs"; "file"])
  then raise (VolumeDriverNotFound driver_type)
  else if bool_decide (driver_type = "local") then
    volume_path ← subscript "volume_path" (ci_volume_path connection_info);
    mret ("dev:/dev/zvol/dsk/" +:+ volume_path)
  else if bool_decide (driver_type = "file") then
    volume_path ← subscript "volume_path" (ci_volume_path connection_info);
    mret ("file://root:root@" +:+ volume_path)
  else if bool_decide (driver_type = "iscsi") then
    data ← subscript "data" (ci_data connection_info);
    suri ← match cd_target_iqns data with
           | Some target_iqns =>
               target ← index target_iqns 0;
               target_luns ← subscript "target_luns" (cd_target_luns data);
               target_lun ← index target_luns 0;
               try_except
                 (execute ["/usr/sbin/iscsiadm"; "list"; "target"; "-vS"; target];;
                  out ← execute ["/usr/sbin/suriadm"; "lookup-uri";
                                 "-t"; "iscsi";
                                 "-p"; "target=" +:+ target;
                                 "-p"; "lun=" +:+ target_lun];
                  mret (last_luname out))
                 (λ ex, match ex with
                        | ProcessExecutionError _ => mret None
                        | _ => raise ex
                        end)
           | None => mret None
           end;
    match suri with
    | Some suri => mret suri
    | None =>
        target_portal ← subscript "target_portal" (cd_target_portal data);
        target_iqn ← subscript "target_iqn" (cd_target_iqn data);
        target_lun ← subscript "target_lun" (cd_target_lun data);
        mret ("iscsi://" +:+ target_portal +:+ "/target." +:+ target_iqn
              +:+ ",lun." +:+ pretty target_lun)
    end
  else if bool_decide (driver_type = "nfs") then
    conf ← get_conf;
    let nfs_username := or_else (conf_nfs_username conf) (conf_uid conf) in
    let nfs_groupname := or_else (conf_nfs_groupname conf) (conf_gid conf) in
    data ← subscript "data" (ci_data connection_info);
    export ← subscript "export" (cd_export data);
    name ← subscript "name" (cd_name data);
    mret ("nfs://" +:+ nfs_username +:+ ":" +:+ nfs_groupname +:+ "@"
          +:+ py.remove_char ":"%char export +:+ "/" +:+ name)
  else
    (* driver_type == 'fibre_channel' *)
    data ← subscript "data" (ci_data connection_info);
    target_wwn ← subscript "target_wwn" (cd_target_wwn data);
    (* Ensure there's a fibre channel HBA. *)
    hbas ← _get_fc_hbas;
    match hbas with
    | [] => raise (InvalidVolume "No host Fibre Channel initiator found")
    | _ =>
        target_lun ← subscript "target_lun" (cd_target_lun data);
        (* If the volume was exported just a few seconds previously then
           it will probably not be visible to the local adapter yet.
           Invoke 'fcinfo remote-port' on all local HBA ports to trigger
           a refresh. *)
        wwpns ← _get_fc_wwpns;
        rescan_remote_ports wwpns;;
        _lookup_fc_volume_suri target_wwn target_lun
    end.

(** *** Statistics *)

(** [_kstat_data(uri)]: the snapshot of a kstat as a dictionary, [None]
    when the kstat cannot be retrieved.  [update()] and [get_object()]
    are the [KstatRead] call, inside the [try]; [getMap()] is outside
    of it. *)
Definition _kstat_data (uri : string) : M (option KsData) :=
  let uri := if py.startswith uri "kstat:/" then uri else "kstat:/" +:+ uri in
  kstat_obj ← try_except
                (ask (KstatRead uri) (λ e t, kstat e t uri))
                (λ reason, mret None);
  match kstat_obj with
  | None => mret None
  | Some ks_data => call (KstatGetMap uri);; mret (Some ks_data)
  end.

(** The loop of [_sum_kstat_statistic]: a value that is not a kstat has
    no [getMap]; a statistic that cannot be added makes the whole sum 0. *)
Fixpoint sum_kstat_values (values : list KsValue) (statistic : string)
    (total : Z) : M Z :=
  match values with
  | [] => mret total
  | ks :: values' =>
      match ks with
      | KsKstat m =>
          data ← subscript statistic (dict_get statistic m);
          match data with
          | KsInt value => sum_kstat_values values' statistic (total + value)
          | _ => mret 0%Z
          end
      | _ => raise (AttributeError "getMap")
      end
  end.

(** [_sum_kstat_statistic(kstat_data, statistic)]. *)
Definition _sum_kstat_statistic (kstat_data : KsData) (statistic : string)
    : M Z :=
  sum_kstat_values (map snd kstat_data) statistic 0.

(** The kstat URIs of a zone: ["kstat:/zones/%s/cpu"], its accumulator
    ["kstat:/zones/%s/cpu/accum/sys"], and [uri + "/%s" % n]. *)
Definition cpu_uri (name : string) : string :=
  "kstat:/zones/" +:+ name +:+ "/cpu".
Definition accum_uri (name : string) : string :=
  "kstat:/zones/" +:+ name +:+ "/cpu/accum/sys".
Definition shard_uri (uri n : string) : string := uri +:+ "/" +:+ n.

(** How the body of a loop is left. *)
Inductive Step := Continue | Break | Return (v : Z).

(** How the loop over the CPUs of [_get_cpu_time] ends: it returns 0
    from the method, or it is done with [total] and with [cpu] being
    [None] or not. *)
Inductive Shards := ShardsReturn0 | ShardsDone (total : Z) (cpu_is_none : bool).

(** [for n in cpus: ...]. *)
Fixpoint read_shards (zone uri : string) (cpus : list string) (total : Z)
    (cpu_is_none : bool) : M Shards :=
  match cpus with
  | [] => mret (ShardsDone total cpu_is_none)
  | n :: cpus' =>
      cpu ← _kstat_data (shard_uri uri n);
      match cpu with
      | None =>
          state ← zonemgr.state zone;
          if bool_decide (state ≠ ZONE_STATE_RUNNING)
          then mret ShardsReturn0
          else mret (ShardsDone total true)
      | Some cpu =>
          k ← _sum_kstat_statistic cpu "cpu_nsec_kernel_cur";
          u ← _sum_kstat_statistic cpu "cpu_nsec_user_cur";
          read_shards zone uri cpus' (total + k + u) false
      end
  end.

(** [initial[key]] where [initial] may be [None]. *)
Definition subscript_snapshot (key : string) (snapshot : option KsData)
    : M KsValue :=
  match snapshot with
  | None => raise (TypeError "'NoneType' object is not subscriptable")
  | Some d => subscript key (dict_get key d)
  end.

(** One pass of [for _attempt in range(3)]. *)
Definition cpu_time_attempt (zone uri accum_uri : string) : M Step :=
  initial ← _kstat_data accum_uri;
  cpus ← _kstat_data uri;
  match cpus with
  | None =>
      (* If the zone state is not running then give up but if it is
         running try again. *)
      state ← zonemgr.state zone;
      if bool_decide (state ≠ ZONE_STATE_RUNNING) then mret Break
      else mret Continue
  | Some cpus =>
      cpus ← dict_pop "pset_accum" cpus;
      cpus ← dict_pop "accum" cpus;
      shards ← read_shards zone uri (map fst cpus) 0 true;
      match shards with
      | ShardsReturn0 => mret (Return 0)
      | ShardsDone _ true => mret Continue
      | ShardsDone total false =>
          final ← _kstat_data accum_uri;
          match final with
          | None => mret Continue
          | Some final =>
              gen0 ← subscript_snapshot "gen_num" initial;
              gen1 ← subscript "gen_num" (dict_get "gen_num" final);
              if ks_eqb gen0 gen1 then
                user ← subscript_snapshot "cpu_nsec_user" initial;
                kernel ← subscript_snapshot "cpu_nsec_kernel" initial;
                user ← ks_int "cpu_nsec_user" user;
                kernel ← ks_int "cpu_nsec_kernel" kernel;
                mret (Return (total + (user + kernel)))
              else mret Continue
          end
      end
  end.

(** [for _attempt in range(n): ...], then the [return 0] after the loop. *)
Fixpoint cpu_time_attempts (n : nat) (zone uri accum_uri : string) : M Z :=
  match n with
  | O => mret 0%Z
  | S n' =>
      step ← cpu_time_attempt zone uri accum_uri;
      match step with
      | Continue => cpu_time_attempts n' zone uri accum_uri
      | Break => mret 0%Z
      | Return v => mret v
      end
  end.

(** [_get_cpu_time(zone)]. *)
Definition _get_cpu_time (zone : string) : M Z :=
  name ← zonemgr.name zone;
  match name with
  | None => mret 0%Z
  | Some name =>
      state ← zonemgr.state zone;
      if bool_decide (state ≠ ZONE_STATE_RUNNING) then mret 0%Z
      else
        (* Loop over the kstats for each cpu. If the cpu list changes, the
           gen_num for the accumulated kstat will change invalidating the
           result, so retry if this happens. *)
        let uri := cpu_uri name in
        let accum_uri := accum_uri name in
        cpu_time_attempts 3 zone uri accum_uri
  end.


(** *** The Instance object *)

Definition with_system_metadata (m : gmap string string) (i : Instance)
    : Instance :=
  mkInstance (i_name i) (i_uuid i) (i_display_name i) (i_hostname i)
    (i_task_state i) m (i_metadata i) (i_flavor i) (i_memory_mb i)
    (i_vcpus i) (i_root_gb i) (i_root_device_name i) (i_host i) (i_node i)
    (i_launched_on i) (i_image_ref i) (i_config_drive i).

Definition with_metadata (m : gmap string string) (i : Instance) : Instance :=
  mkInstance (i_name i) (i_uuid i) (i_display_name i) (i_hostname i)
    (i_task_state i) (i_system_metadata i) m (i_flavor i) (i_memory_mb i)
    (i_vcpus i) (i_root_gb i) (i_root_device_name i) (i_host i) (i_node i)
    (i_launched_on i) (i_image_ref i) (i_config_drive i).

Definition with_host_node (host node : string) (i : Instance) : Instance :=
  mkInstance (i_name i) (i_uuid i) (i_display_name i) (i_hostname i)
    (i_task_state i) (i_system_metadata i) (i_metadata i) (i_flavor i)
    (i_memory_mb i) (i_vcpus i) (i_root_gb i) (i_root_device_name i)
    host node (i_launched_on i) (i_image_ref i) (i_config_drive i).

(** [instance.system_metadata[key] = value]. *)
Definition set_system_metadata (key value : string) : M unit :=
  i ← get_instance;
  put_instance (with_system_metadata (<[key := value]> (i_system_metadata i)) i).

(** [del instance.system_metadata[key]]: [KeyError] when absent. *)
Definition del_system_metadata (key : string) : M unit :=
  i ← get_instance;
  _ ← subscript key (i_system_metadata i !! key);
  put_instance (with_system_metadata (base.delete key (i_system_metadata i)) i).

(** [instance.save()]. *)
Definition instance_save : M unit := call InstanceSave.

(** [_get_flavor(instance)]. *)
Definition _get_flavor : M Flavor :=
  i ← get_instance; mret (i_flavor i).

(** [extra_specs.get('zonecfg:brand', ZONE_BRAND_SOLARIS)]. *)
Definition flavor_brand (flavor : Flavor) : string :=
  default ZONE_BRAND_SOLARIS (dict_get "zonecfg:brand" (fl_extra_specs flavor)).

(** [_validate_flavor(instance)]: the brand, once the memory of a kernel
    zone is known to be 256 MB aligned. *)
Definition _validate_flavor : M string :=
  flavor ← _get_flavor;
  instance ← get_instance;
  let brand := flavor_brand flavor in
  if bool_decide (brand = ZONE_BRAND_SOLARIS_KZ) then
    (* verify the memory is 256mb aligned *)
    let MEMORY_ALIGNMENT_IN_MB := 256%Z in
    if bool_decide ((i_memory_mb instance `mod` MEMORY_ALIGNMENT_IN_MB)%Z ≠ 0%Z)
    then
      (* non-zero result so it doesn't align *)
      raise (MemoryAlignmentIncorrect (fl_name flavor)
               (pretty (i_memory_mb instance)) "256")
    else mret brand
  else mret brand.

(** *** Zones *)

(** [_get_zone_by_name(name)]. *)
Definition _get_zone_by_name (name : string) : M (option string) :=
  try_except
    (zone ← zonemgr.get_object name; mret (Some zone))
    (λ ex, match ex with
           | NotFoundError _ => mret None
           | _ => raise ex
           end).

(** [_get_state(zone)]. *)
Definition _get_state (zone : string) : M power_state :=
  state ← zonemgr.state zone;
  mret (SOLARISZONES_POWER_STATE state).

(** [_plug_vifs] and [_unplug_vifs] only write a log line; the points
    where they are called are kept in the trace. *)
Definition _plug_vifs : M unit := probe PlugVifs (λ _ _, tt).
Definition _unplug_vifs : M unit := probe UnplugVifs (λ _ _, tt).

(** [_set_instance_metahostid(instance)]. *)
Definition _set_instance_metahostid : M (option string) :=
  instance ← get_instance;
  match i_system_metadata instance !! "hostid" with
  | Some hostid => mret (Some hostid)
  | None =>
      zone ← _get_zone_by_name (i_name instance);
      match zone with
      | None => mret None
      | Some zone =>
          hostid ← utils.lookup_resource_property zone "global" "hostid" [];
          match hostid with
          | Some h =>
              (if truthy h then set_system_metadata "hostid" h else mret tt);;
              mret hostid
          | None => mret None
          end
      end
  end.

(** *** The VNC console service *)

Definition VNC_CONSOLE_BASE_FMRI : string :=
  "svc:/application/openstack/nova/zone-vnc-console".

Definition console_fmri (name : string) : string :=
  VNC_CONSOLE_BASE_FMRI +:+ ":" +:+ name.

(** [_has_vnc_console_service(instance)]. *)
Definition _has_vnc_console_service : M bool :=
  instance ← get_instance;
  try_except
    (execute ["/usr/bin/svcs"; "-H"; "-o"; "state";
              console_fmri (i_name instance)];;
     mret true)
    (λ _, mret false).

(** [try: m except ProcessExecutionError: log]. *)
Definition log_process_error (m : M unit) : M unit :=
  try_except m
    (λ ex, match ex with
           | ProcessExecutionError _ => mret tt
           | _ => raise ex
           end).

(** [_disable_vnc_console_service(instance)]. *)
Definition _disable_vnc_console_service : M unit :=
  instance ← get_instance;
  has ← _has_vnc_console_service;
  if negb has then mret tt
  else
    let fmri := console_fmri (i_name instance) in
    log_process_error
      (execute ["/usr/sbin/svcadm"; "disable"; "-s"; fmri];; mret tt);;
    log_process_error
      (execute ["/usr/sbin/svccfg"; "-s"; fmri; "refresh"];; mret tt).

(** [_delete_vnc_console_service(instance)]. *)
Definition _delete_vnc_console_service : M unit :=
  instance ← get_instance;
  _disable_vnc_console_service;;
  try_except
    (execute ["/usr/sbin/svccfg"; "-s"; VNC_CONSOLE_BASE_FMRI; "delete";
              i_name instance];;
     mret tt)
    (λ ex, match ex with
           | ProcessExecutionError _ =>
               has ← _has_vnc_console_service;
               if negb has then mret tt else raise ex
           | _ => raise ex
           end).

(** *** Power off, uninstall, unconfigure *)

(** [_power_off(instance, halt_type)]. *)
Definition _power_off (halt_type : string) : M unit :=
  instance ← get_instance;
  let name := i_name instance in
  zone ← _get_zone_by_name name;
  match zone with
  | None => raise (InstanceNotFound name)
  | Some zone =>
      (* Attempt to update the zones hostid in the instance data *)
      _set_instance_metahostid;;
      try_except
        (_unplug_vifs;;
         if bool_decide (halt_type = "SOFT") then zonemgr.shutdown zone
         else (* 'HARD' *) zonemgr.halt zone)
        (λ ex,
           let reason := utils.zonemgr_strerror ex in
           (* A shutdown state could still be reached if the error was
              informational and ignorable. *)
           state ← _get_state zone;
           if bool_decide (state = SHUTDOWN) then mret tt
           else raise (InstancePowerOffFailure reason))
  end.

(** [power_off(instance, timeout, retry_interval)]. *)
Definition power_off : M unit := _power_off "SOFT".

(** [_uninstall(instance)]. *)
Definition _uninstall : M unit :=
  instance ← get_instance;
  let name := i_name instance in
  zone ← _get_zone_by_name name;
  match zone with
  | None => raise (InstanceNotFound name)
  | Some zone =>
      state ← zonemgr.state zone;
      if bool_decide (state = ZONE_STATE_CONFIGURED) then mret tt
      else zonemgr.uninstall zone ["-F"]
  end.

(** [_delete_config(instance)]. *)
Definition _delete_config : M unit :=
  instance ← get_instance;
  let name := i_name instance in
  zone ← _get_zone_by_name name;
  match zone with
  | None => raise (InstanceNotFound name)
  | Some _ => zonemgr.delete name
  end.

(** [_get_configdrive_path(instance)]. *)
Definition _get_configdrive_path (instance : Instance) : string :=
  py.path_join "/var/share/nova/configdrives"
    ("config_drive-" +:+ i_name instance).

(** [try: m except OSError: pass]. *)
Definition ignore_oserror (m : M unit) : M unit :=
  try_except m
    (λ ex, match ex with
           | OSError _ => mret tt
           | _ => raise ex
           end).

(** [utils.delete_instance_dir(instance)]. *)
Definition delete_instance_dir : M unit :=
  instance ← get_instance;
  conf ← get_conf;
  let target_del := py.path_join (conf_instances_path conf) (i_uuid instance) in
  there ← probe (PathExists target_del) exists_at;
  if (there : bool) then ignore_oserror (call (Rmtree target_del))
  else mret tt.

(** [try: m except Exception: pass]. *)
Definition ignore_errors (m : M unit) : M unit :=
  try_except m (λ _, mret tt).

(** The loop of [destroy] over the volumes a resize left behind. *)
Fixpoint delete_leftover_volumes (tags : list string) : M unit :=
  match tags with
  | [] => mret tt
  | tag :: tags' =>
      instance ← get_instance;
      match i_system_metadata instance !! tag with
      | Some volid =>
          if truthy volid then
            ignore_errors (call (VolDelete volid);; del_system_metadata tag)
          else mret tt
      | None => mret tt
      end;;
      delete_leftover_volumes tags'
  end.

(** [when c: m]. *)
Definition when (c : bool) (m : M unit) : M unit :=
  if c then m else mret tt.

(** [destroy(context, instance, network_info, ...)]. *)
Definition destroy : M unit :=
  instance ← get_instance;
  reverting ←
    (if bool_decide (i_task_state instance = Some RESIZE_REVERTING) then
       old_vm_state ← subscript "old_vm_state"
                        (i_system_metadata instance !! "old_vm_state");
       mret (bool_decide (old_vm_state = RESIZED))
     else mret false);
  if (reverting : bool) then mret tt
  else
    (* A destroy is issued for the original zone for an evac case.  If
       the evac fails we need to protect the zone from deletion when
       power comes back on. *)
    match i_system_metadata instance !! "evac_from", i_task_state instance with
    | Some evac_from, None =>
        put_instance (with_host_node evac_from evac_from instance);;
        del_system_metadata "evac_from";;
        instance_save
    | _, _ =>
        (* These methods log if problems occur so no need to double log
           here. Just catch any stray exceptions and allow destroy to
           proceed. *)
        ignore_errors
          (has ← _has_vnc_console_service;
           when has (_disable_vnc_console_service;;
                     _delete_vnc_console_service));;
        let name := i_name instance in
        zone ← _get_zone_by_name name;
        match zone with
        | None =>
            (* If instance cannot be found, just return. *)
            mret tt
        | Some zone =>
            ignore_errors
              (state ← _get_state zone;
               when (bool_decide (state = RUNNING)) (_power_off "HARD");;
               state ← _get_state zone;
               when (bool_decide (state = SHUTDOWN)) _uninstall;;
               state ← _get_state zone;
               when (bool_decide (state = NOSTATE)) _delete_config;;
               when (i_config_drive instance)
                 (* Make sure that we don't leave any dirt around. *)
                 (ignore_oserror
                    (call (OsRemove (_get_configdrive_path instance))));;
               delete_instance_dir);;
            (* If the task state is RESIZE_REVERTING do not process these
               because the cinder volume cleanup is taken care of in
               finish_revert_migration. *)
            instance ← get_instance;
            if bool_decide (i_task_state instance = Some RESIZE_REVERTING)
            then mret tt
            else delete_leftover_volumes
                   ["old_instance_volid"; "new_instance_volid"]
        end
    end.

(** *** Suspend *)

(** [_set_suspend(instance)]. *)
Definition _set_suspend : M unit :=
  instance ← get_instance;
  let name := i_name instance in
  zone ← _get_zone_by_name name;
  match zone with
  | None => raise (InstanceNotFound name)
  | Some zone =>
      conf ← get_conf;
      let path := py.path_join (conf_zones_suspend_path conf) "%{zonename}" in
      ZoneConfig.with_ zone
        (λ zc, ZoneConfig.addresource zc "suspend" [Property_ "path" path] false)
  end.

(** The first statement of the [try] block of [suspend]: the suspend
    resource is added when there is none and replaced when its path is
    not the configured one. *)
Definition ensure_suspend_resource (zone : string) : M unit :=
  conf ← get_conf;
  let new_path := py.path_join (conf_zones_suspend_path conf) "%{zonename}" in
  suspend_res ← utils.lookup_resource zone "suspend";
  match suspend_res with
  | None =>
      (* add suspend if not configured *)
      _set_suspend
  | Some _ =>
      path ← utils.lookup_resource_property zone "suspend" "path" [];
      if bool_decide (path ≠ Some new_path) then
        (* replace the old suspend resource with the new one *)
        ZoneConfig.with_ zone
          (λ zc, ZoneConfig.removeresources zc "suspend" []);;
        _set_suspend
      else mret tt
  end.

(** The [try] block of [suspend]. *)
Definition suspend_zone (zone : string) : M unit :=
  ensure_suspend_resource zone;;
  zonemgr.suspend zone;;
  _unplug_vifs.

(** [suspend(context, instance)]. *)
Definition suspend : M unit :=
  instance ← get_instance;
  let name := i_name instance in
  zone ← _get_zone_by_name name;
  match zone with
  | None => raise (InstanceNotFound name)
  | Some zone =>
      brand ← zonemgr.brand zone;
      if bool_decide (brand ≠ ZONE_BRAND_SOLARIS_KZ) then
        (* Only Solaris kernel zones are currently supported. *)
        raise (InstanceSuspendFailure
                 ("'" +:+ brand +:+ "' branded zones do not currently support "
                  +:+ "suspend. Use 'nova reset-state --active "
                  +:+ i_display_name instance
                  +:+ "' to reset instance state back to 'active'."))
      else
        state ← _get_state zone;
        if bool_decide (state ≠ RUNNING) then
          raise (InstanceSuspendFailure
                   ("Instance '" +:+ name +:+ "' is not running."))
        else
          try_except (suspend_zone zone)
            (λ ex, raise (InstanceSuspendFailure (utils.zonemgr_strerror ex)))
  end.

(** *** Volume connections *)

(** [get_host_ip_addr()]. *)
Definition get_host_ip_addr : M string :=
  conf ← get_conf; mret (conf_my_ip conf).

(** Python truth of [self._initiator] and of the cached WWN lists. *)
Definition truthy_opt (s : option string) : bool :=
  match s with
  | Some s => truthy s
  | None => false
  end.
Definition nonempty {A} (l : option (list A)) : bool :=
  match l with
  | Some (_ :: _) => true
  | _ => false
  end.

Definition set_initiator (initiator : option string) : M unit :=
  d ← get_driver;
  put_driver (mkDriver (_fc_hbas d) (_fc_wwnns d) (_fc_wwpns d) initiator).
Definition set_fc_wwnns (wwnns : list string) : M unit :=
  d ← get_driver;
  put_driver (mkDriver (_fc_hbas d) (Some wwnns) (_fc_wwpns d) (_initiator d)).
Definition set_fc_wwpns (wwpns : list string) : M unit :=
  d ← get_driver;
  put_driver (mkDriver (_fc_hbas d) (_fc_wwnns d) (Some wwpns) (_initiator d)).

(** [get_volume_connector(instance)]. *)
Definition get_volume_connector : M Connector :=
  ip ← get_host_ip_addr;
  conf ← get_conf;
  d ← get_driver;
  when (negb (truthy_opt (_initiator d)))
    (initiator ← _get_iscsi_initiator; set_initiator initiator);;
  d ← get_driver;
  when (negb (nonempty (_fc_wwnns d)))
    (wwnns ← _get_fc_wwnns; set_fc_wwnns wwnns);;
  d ← get_driver;
  when (negb (nonempty (_fc_wwpns d)))
    (wwpns ← _get_fc_wwpns; set_fc_wwpns wwpns);;
  d ← get_driver;
  let fc := nonempty (_fc_wwnns d) && nonempty (_fc_wwpns d) in
  mret (mkConnector ip (conf_host conf)
          (if truthy_opt (_initiator d) then _initiator d else None)
          (if fc then _fc_wwnns d else None)
          (if fc then _fc_wwpns d else None)).

(** [connection_info['serial'] = volume_id]. *)
Definition with_serial (volume_id : string) (ci : ConnInfo) : ConnInfo :=
  mkConnInfo (ci_driver_volume_type ci) (ci_volume_path ci) (Some volume_id)
    (ci_data ci).

(** [_initialize_volume_connection(context, volume_id, connection)]. *)
Definition _initialize_volume_connection (volume_id : string)
    (connection : Connector) : M ConnInfo :=
  connection_info ← ask (VolInitializeConnection volume_id connection) conn_at;
  mret (with_serial volume_id connection_info).

(** [_get_device_index(dev_name)]: [val] and the loop over the reversed
    letters. *)
Definition val (c : ascii) : Z :=
  (Z.of_nat (nat_of_ascii c) - Z.of_nat (nat_of_ascii "a"))%Z.

Fixpoint device_index (i : nat) (letters : list ascii) (index : Z) : Z :=
  match letters with
  | [] => index
  | l :: letters' =>
      let base := (val "z" + 1)%Z in
      device_index (S i) letters'
        (match i with
         | 0 => val l
         | _ => (index + base ^ Z.of_nat i * (val l + 1))%Z
         end)
  end.

Definition _get_device_index (dev_name : string) : Z :=
  let letters := block_device.get_device_letter dev_name in
  device_index 0 (reverse (String.list_ascii_of_string letters)) 0.

(** [_set_boot_device(name, connection_info, brand, mountpoint=None)]. *)
Definition _set_boot_device (name : string) (connection_info : ConnInfo)
    (brand : string) (mountpoint : option string) : M unit :=
  zone ← _get_zone_by_name name;
  match zone with
  | None => raise (InstanceNotFound name)
  | Some zone =>
      suri ← _suri_from_volume_info connection_info;
      ZoneConfig.with_ zone
        (λ zc,
           (* ZOSS device configuration is different for the solaris-kz
              brand *)
           if bool_decide (brand = ZONE_BRAND_SOLARIS_KZ) then
             match mountpoint with
             | None => raise (NotImplementedError "must set mountpoint")
             | Some mountpoint =>
                 let id := pretty (_get_device_index mountpoint) in
                 zonemgr.setResourceProperties (ZoneConfig.zone zc)
                   (mkResource "device"
                      [Property_ "bootpri" "0"; Property_ "id" id])
                   [Property_ "storage" suri]
             end
           else
             ZoneConfig.addresource zc ROOTZPOOL_RESOURCE
               [mkProperty "storage" None (Some [suri])] true)
  end.

(** [_set_num_cpu(name, vcpus, brand)]. *)
Definition _set_num_cpu (name : string) (vcpus : Z) (brand : string) : M unit :=
  zone ← _get_zone_by_name name;
  match zone with
  | None => raise (InstanceNotFound name)
  | Some zone =>
      (* The Solaris Zone brand type is used to specify the type of 'cpu'
         resource set in the Solaris Zone configuration. *)
      let vcpu_resource :=
        if bool_decide (brand = ZONE_BRAND_SOLARIS) then "capped-cpu"
        else "virtual-cpu" in
      ZoneConfig.with_ zone
        (λ zc, ZoneConfig.setprop zc vcpu_resource "ncpus" (pretty vcpus))
  end.

(** [_set_memory_cap(name, memory_mb, brand)]. *)
Definition _set_memory_cap (name : string) (memory_mb : Z) (brand : string)
    : M unit :=
  zone ← _get_zone_by_name name;
  match zone with
  | None => raise (InstanceNotFound name)
  | Some zone =>
      (* The Solaris Zone brand type is used to specify the type of
         'memory' cap set in the Solaris Zone configuration. *)
      let mem_resource :=
        if bool_decide (brand = ZONE_BRAND_SOLARIS) then "swap"
        else "physical" in
      ZoneConfig.with_ zone
        (λ zc, ZoneConfig.setprop zc "capped-memory" mem_resource
                 (pretty memory_mb +:+ "M"))
  end.

(** [attach_volume(context, connection_info, instance, mountpoint)]. *)
Definition attach_volume (connection_info : option ConnInfo)
    (mountpoint : option string) : M unit :=
  instance ← get_instance;
  let name := i_name instance in
  zone ← _get_zone_by_name name;
  match zone with
  | None => raise (InstanceNotFound name)
  | Some zone =>
      flavor ← _get_flavor;
      let brand := flavor_brand flavor in
      if bool_decide (brand ≠ ZONE_BRAND_SOLARIS_KZ) then
        (* Only Solaris kernel zones are currently supported. *)
        raise (NotImplementedError
                 ("'" +:+ brand +:+ "' branded zones are not currently supported"))
      else
        connection_info ← none_subscript connection_info;
        suri ← _suri_from_volume_info connection_info;
        mountpoint ← none_iter mountpoint;
        let id := pretty (_get_device_index mountpoint) in
        let resource_scope := [Property_ "storage" suri; Property_ "id" id] in
        ignore_errors
          (ZoneConfig.with_ zone
             (λ zc, ZoneConfig.addresource zc "device" resource_scope false));;
        (* apply the configuration to the running zone *)
        state ← zonemgr.state zone;
        if bool_decide (state = ZONE_STATE_RUNNING) then
          try_except (zonemgr.apply zone)
            (λ ex,
               ZoneConfig.with_ zone
                 (λ zc, ZoneConfig.removeresources zc "device" resource_scope);;
               raise ex)
        else mret tt
  end.

(** *** Resize: the source side *)

(** [_cleanup_migrate_disk(context, instance, volume)]. *)
Definition _cleanup_migrate_disk (volume : Volume) : M unit :=
  ignore_errors (call (VolDelete (vol_id volume))).

(** The [for ... else] of [migrate_disk_and_power_off] over the block
    device mapping: the connection of the first entry mounted at the root
    device, [None] when the loop ends without a [break]. *)
Fixpoint find_root_entry (bmap : list BdmEntry) (rootmp : string)
    : M (option (option ConnInfo)) :=
  match bmap with
  | [] => mret None
  | entry :: bmap' =>
      mount_device ← none_attribute "rpartition" (bdm_mount_device entry);
      let mountdev := py.after_last_slash mount_device in
      if bool_decide (mountdev = rootmp)
      then mret (Some (bdm_connection_info entry))
      else find_root_entry bmap' rootmp
  end.

(** The volume id of the root connection. *)
Definition root_volume_id (root_ci : option ConnInfo) : M (option string) :=
  root_ci ← none_subscript root_ci;
  if bool_decide (ci_driver_volume_type root_ci = "iscsi") then
    try_except
      (data ← subscript "data" (ci_data root_ci);
       volume_id ← subscript "volume_id" (cd_volume_id data);
       mret (Some volume_id))
      (λ ex, match ex with
             | KeyError _ => mret (ci_serial root_ci)
             | _ => raise ex
             end)
  else
    volume_id ← subscript "serial" (ci_serial root_ci);
    mret (Some volume_id).

(** The polling loop [while True: ... greenthread.sleep(1)], on fuel. *)
Fixpoint wait_while_creating (fuel : nat) (volume_id : string) : M unit :=
  match fuel with
  | 0 => out_of_fuel
  | S fuel' =>
      volume ← ask (VolGet volume_id) volume_at;
      if bool_decide (vol_status volume ≠ "creating") then mret tt
      else call (Sleep 1);; wait_while_creating fuel' volume_id
  end.

(** [migrate_disk_and_power_off(context, instance, dest, flavor,
    network_info, block_device_info)]; [fuel] bounds the polling loop. *)
Definition migrate_disk_and_power_off (fuel : nat) (dest : string)
    (flavor : Flavor) (block_device_info : option BlockDeviceInfo)
    : M (option Volume) :=
  host_ip ← get_host_ip_addr;
  let samehost := bool_decide (dest = host_ip) in
  when samehost (set_system_metadata "resize_samehost" "True");;
  current ← _get_flavor;
  let brand := flavor_brand current in
  if bool_decide (brand ≠ ZONE_BRAND_SOLARIS_KZ) && negb samehost then
    raise (MigrationPreCheckError
             ("'" +:+ brand +:+ "' branded zones do not currently support "
              +:+ "resize to a different host."))
  else if bool_decide
            (Some brand ≠ dict_get "zonecfg:brand" (fl_extra_specs flavor))
  then
    raise (MigrationPreCheckError
             "Unable to change brand of zone during resize.")
  else
    instance ← get_instance;
    let orgb := i_root_gb instance in
    let nrgb := fl_root_gb flavor in
    if bool_decide (orgb > nrgb)%Z then
      raise (ResizeError "Unable to resize to a smaller boot volume.")
    else
      power_off;;
      if bool_decide (nrgb > orgb)%Z || negb samehost then
        block_device_info ← none_attribute "get" block_device_info;
        instance ← get_instance;
        let rootmp := i_root_device_name instance in
        bmap ← none_iter (bdi_block_device_mapping block_device_info);
        found ← find_root_entry bmap rootmp;
        match found with
        | None =>
            (* If this is a non-global zone that is on the same host and
               is simply using a dataset, the disk size is purely an
               OpenStack quota.  We can continue without doing any disk
               work. *)
            if samehost && bool_decide (brand = ZONE_BRAND_SOLARIS)
            then mret None
            else raise (ResizeError "Cannot find an attached root device.")
        | Some root_ci =>
            volume_id ← root_volume_id root_ci;
            match volume_id with
            | None => raise (ResizeError "Cannot find an attached root device.")
            | Some volume_id =>
                vinfo ← ask (VolGet volume_id) volume_at;
                newvolume ←
                  ask (VolCreate orgb (vol_display_name vinfo +:+ "-resized")
                         (vol_display_description vinfo) (Some (vol_id vinfo)))
                    volume_at;
                set_system_metadata "old_instance_volid" volume_id;;
                set_system_metadata "new_instance_volid" (vol_id newvolume);;
                wait_while_creating fuel (vol_id newvolume);;
                when (bool_decide (nrgb > orgb)%Z)
                  (try_except (call (VolExtend (vol_id newvolume) nrgb))
                     (λ ex, _cleanup_migrate_disk newvolume;; raise ex));;
                mret (Some newvolume)
            end
        end
      else mret None.

(** *** Creating a zone *)

(** The test on the task state that [_create_config] and [_set_network]
    share: system configuration profiles are written unless this is part
    of a resize or of an evacuation. *)
Definition needs_sysconfig : M bool :=
  instance ← get_instance;
  let tstate := i_task_state instance in
  if bool_decide (tstate ∉ [Some RESIZE_FINISH; Some RESIZE_REVERTING;
                            Some RESIZE_MIGRATING; Some REBUILD_SPAWNING])
  then mret true
  else if bool_decide (tstate = Some REBUILD_SPAWNING) then
    rebuilding ← subscript "rebuilding"
                   (i_system_metadata instance !! "rebuilding");
    mret (bool_decide (rebuilding = "true"))
  else mret false.

(** The loop of [_set_global_properties] over [extra_specs.items()]. *)
Fixpoint set_global_items (zc : ZoneConfig.t) (zonecfg_items : list string)
    (items : list (string * string)) : M unit :=
  match items with
  | [] => mret tt
  | (key, value) :: items' =>
      (* Ignore not-zonecfg-scoped brand properties. *)
      (if negb (py.startswith key "zonecfg:") then mret tt
       else
         let prop := py.removeprefix "zonecfg:" key in
         (* Ignore the 'brand' property if present. *)
         if bool_decide (prop = "brand") then mret tt
         (* Ignore but warn about unsupported zonecfg-scoped properties. *)
         else if bool_decide (prop ∉ zonecfg_items) then mret tt
         else ZoneConfig.setprop zc "global" prop value);;
      set_global_items zc zonecfg_items items'
  end.

(** [_set_global_properties(name, extra_specs, brand)]. *)
Definition _set_global_properties (name : string)
    (extra_specs : list (string * string)) (brand : string) : M unit :=
  zone ← _get_zone_by_name name;
  match zone with
  | None => raise (InstanceNotFound name)
  | Some zone =>
      let zonecfg_items :=
        ["bootargs"; "brand"; "hostid"]
        ++ (if bool_decide (brand = ZONE_BRAND_SOLARIS)
            then ["file-mac-profile"; "fs-allowed"; "limitpriv"]
            else ["cpu-arch"]) in
      ZoneConfig.with_ zone (λ zc, set_global_items zc zonecfg_items extra_specs)
  end.

(** [os.path.join(sc_dir, name)]. *)
Definition sc_path (sc_dir : option string) (name : string) : M string :=
  match sc_dir with
  | Some sc_dir => mret (py.path_join sc_dir name)
  | None => raise (TypeError "expected str, bytes or os.PathLike object, not NoneType")
  end.

(** [_set_configdrive(name, instance, sc_dir)]. *)
Definition _set_configdrive (name : string) (sc_dir : option string) : M unit :=
  zone ← _get_zone_by_name name;
  match zone with
  | None => raise (InstanceNotFound name)
  | Some zone =>
      instance ← get_instance;
      let cd_path := _get_configdrive_path instance in
      ZoneConfig.with_ zone
        (λ zc,
           let storagepath := "file://root:root@" +:+ cd_path in
           ZoneConfig.addresource zc "device"
             [Property_ "storage" storagepath] false);;
      fp ← sc_path sc_dir "config_drive.xml";
      call (External ("sysconfig.create_sc_profile " +:+ fp))
  end.

(** [_unset_configdrive(name, instance)]. *)
Definition _unset_configdrive (name : string) : M unit :=
  zone ← _get_zone_by_name name;
  match zone with
  | None => raise (InstanceNotFound name)
  | Some zone =>
      instance ← get_instance;
      let cd_path := _get_configdrive_path instance in
      ZoneConfig.with_ zone
        (λ zc,
           let storagepath := "file://root:root@" +:+ cd_path in
           ZoneConfig.removeresources zc "device"
             [Property_ "storage" storagepath]);;
      state ← zonemgr.state zone;
      when (bool_decide (state = ZONE_STATE_RUNNING)) (zonemgr.apply zone);;
      call (OsRemove cd_path)
  end.

(** The loop of [_set_network] over the interfaces.  Neutron and the
    system configuration profiles are collaborators out of the spec's
    scope: [_set_net_info] is one opaque call for each interface, and so
    is the profile written for it. *)
Fixpoint set_network_vifs (vifid : nat) (network_info : list string)
    (sc_dir : option string) : M unit :=
  match network_info with
  | [] => mret tt
  | vif :: network_info' =>
      call (External ("_set_net_info " +:+ vif));;
      (* create the required sysconfig file (or skip if this is part of
         a resize or evacuate process) *)
      fresh ← needs_sysconfig;
      when fresh
        (fp ← sc_path sc_dir ("zone-network-" +:+ pretty vifid +:+ ".xml");
         call (External ("sysconfig.create_sc_profile " +:+ fp)));;
      set_network_vifs (S vifid) network_info' sc_dir
  end.

(** [_set_network(context, name, instance, network_info, brand, sc_dir)];
    an interface is named by its id. *)
Definition _set_network (name : string) (network_info : list string)
    (brand : string) (sc_dir : option string) : M unit :=
  zone ← _get_zone_by_name name;
  match zone with
  | None => raise (InstanceNotFound name)
  | Some zone =>
      match network_info with
      | [] =>
          ZoneConfig.with_ zone
            (λ zc,
               if bool_decide (brand = ZONE_BRAND_SOLARIS) then
                 ZoneConfig.removeresources zc "anet"
                   [Property_ "linkname" "net0"]
               else
                 ZoneConfig.removeresources zc "anet" [Property_ "id" "0"])
      | _ => set_network_vifs 0 network_info sc_dir
      end
  end.

(** The loop of [_create_config] over the block device mapping. *)
Fixpoint set_block_devices (name brand : string)
    (root_device_name : option string) (bmap : list BdmEntry) : M unit :=
  match bmap with
  | [] => mret tt
  | entry :: bmap' =>
      match bdm_connection_info entry with
      | Some connection_info =>
          if bool_decide (bdm_mount_device entry = root_device_name) then
            _set_boot_device name connection_info brand root_device_name
          else
            attach_volume (Some connection_info) (bdm_mount_device entry)
      | None => mret tt
      end;;
      set_block_devices name brand root_device_name bmap'
  end.

(** [_create_config(context, instance, network_info, block_device_info,
    sc_dir, admin_password=None)].  The copy of the flavor's profile and
    [_verify_sysconfig] are calls to the sysconfig collaborator; the
    handler of the [try] logs and re-raises. *)
Definition _create_config (network_info : list string)
    (block_device_info : option BlockDeviceInfo) (sc_dir : option string)
    : M unit :=
  instance ← get_instance;
  let name := i_name instance in
  existing ← _get_zone_by_name name;
  if existing is Some _ then raise (InstanceExists name)
  else
    flavor ← _get_flavor;
    let extra_specs := fl_extra_specs flavor in
    (* If unspecified, default zone brand is ZONE_BRAND_SOLARIS *)
    let brand := flavor_brand flavor in
    match ZONE_BRAND_TEMPLATE brand with
    | None =>
        raise (NovaException ("Invalid brand '" +:+ brand
                              +:+ "' specified for instance '" +:+ name +:+ "'"))
    | Some template =>
        fresh ← needs_sysconfig;
        when fresh
          (match dict_get "install:sc_profile" extra_specs with
           | Some sc_profile => call (External ("copy sc_profile " +:+ sc_profile))
           | None => mret tt
           end;;
           call (External "_verify_sysconfig"));;
        zonemgr.create name template;;
        _set_global_properties name extra_specs brand;;
        instance ← get_instance;
        match i_system_metadata instance !! "hostid" with
        | Some hostid =>
            when (truthy hostid)
              (zone ← _get_zone_by_name name;
               match zone with
               | Some zone =>
                   ZoneConfig.with_ zone
                     (λ zc, ZoneConfig.setprop zc "global" "hostid" hostid)
               | None =>
                   (* ZoneConfig(None): [__enter__] fails the way it does
                      when [editConfig] fails *)
                   raise (AttributeError
                            "module 'nova_solaris.solariszones.utils' has no attribute 'utils'")
               end)
        | None => mret tt
        end;;
        block_device_info ← none_attribute "get" block_device_info;
        let root_device_name := bdi_root_device_name block_device_info in
        bmap ← none_iter (bdi_block_device_mapping block_device_info);
        set_block_devices name brand root_device_name bmap;;
        instance ← get_instance;
        _set_num_cpu name (i_vcpus instance) brand;;
        _set_memory_cap name (i_memory_mb instance) brand;;
        _set_network name network_info brand sc_dir;;
        when (i_config_drive instance) (_set_configdrive name sc_dir)
    end.

(** [with ZoneConfig(zone) as zc: LOG.debug(zc.zone.exportConfig(True))]. *)
Definition log_config (zone : string) : M unit :=
  ZoneConfig.with_ zone (λ zc, zonemgr.exportConfig (ZoneConfig.zone zc)).

(** [_install(instance, image, sc_dir)]. *)
Definition _install (image sc_dir : string) : M unit :=
  instance ← get_instance;
  let name := i_name instance in
  zone ← _get_zone_by_name name;
  match zone with
  | None => raise (InstanceNotFound name)
  | Some zone =>
      (* log the zone's configuration *)
      log_config zone;;
      listing ← ask (ListDir sc_dir) exists_at;
      let options :=
        ["-a"; image]
        (* the directory isn't empty so pass it along to install *)
        ++ (if (listing : bool) then ["-c"; sc_dir] else []) in
      zonemgr.install zone options;;
      _set_instance_metahostid;;
      mret tt
  end.

(** [_attach(instance)]. *)
Definition _attach : M unit :=
  instance ← get_instance;
  let name := i_name instance in
  zone ← _get_zone_by_name name;
  match zone with
  | None => raise (InstanceNotFound name)
  | Some zone =>
      (* log the zone's configuration *)
      log_config zone;;
      let options := ["-x"; "initialize-hostdata"] in
      zonemgr.attach zone options;;
      _set_instance_metahostid;;
      mret tt
  end.

(** What [_power_on] knows about the boot arguments when it boots. *)
Record BootArgs := mkBootArgs {
  bootargs : list string;
  cur_bootargs : option string;
  meta_bootargs : option string;
  persistent : string;
  reset_bootargs : bool
}.

(** [instance.metadata.pop(key, None)]. *)
Definition pop_metadata (key : string) : M unit :=
  instance ← get_instance;
  put_instance (with_metadata (base.delete key (i_metadata instance)) instance).

(** [_power_on(instance, network_info)]. *)
Definition _power_on : M unit :=
  instance ← get_instance;
  let name := i_name instance in
  zone ← _get_zone_by_name name;
  match zone with
  | None => raise (InstanceNotFound name)
  | Some zone =>
      (* Attempt to update the zones hostid in the instance data, to
         catch those instances that might have been created without a
         hostid stored. *)
      _set_instance_metahostid;;
      conf ← get_conf;
      let boot_options := conf_solariszones_boot_options conf in
      args ←
        (if boot_options then
           (* Get any bootargs already set in the zone *)
           cur_bootargs ←
             utils.lookup_resource_property zone "global" "bootargs" [];
           (* Get any bootargs set in the instance metadata by the user *)
           instance ← get_instance;
           let meta_bootargs := i_metadata instance !! "bootargs" in
           if truthy_opt meta_bootargs then
             let bootargs := ["--"; default "" meta_bootargs] in
             let persistent :=
               default "False" (i_metadata instance !! "bootargs_persist") in
             if bool_decide (cur_bootargs ≠ None)
                && bool_decide (meta_bootargs ≠ cur_bootargs)
             then
               ZoneConfig.with_ zone
                 (λ zc,
                    (* Temporarily clear bootargs in zone config *)
                    ZoneConfig.clear_resource_props zc "global" ["bootargs"]);;
               mret (mkBootArgs bootargs cur_bootargs meta_bootargs
                       persistent true)
             else
               mret (mkBootArgs bootargs cur_bootargs meta_bootargs
                       persistent false)
           else mret (mkBootArgs [] cur_bootargs meta_bootargs "False" false)
         else mret (mkBootArgs [] None None "False" false));
      try_finally
        (try_except
           (zonemgr.boot zone (bootargs args);;
            _plug_vifs)
           (λ ex,
              let reason := utils.zonemgr_strerror ex in
              raise (InstancePowerOnFailure reason)))
        (when boot_options
           (when (truthy_opt (meta_bootargs args)
                  && bool_decide (py.lower (persistent args) = "false"))
              (* We have consumed the metadata bootargs and the user
                 asked for them not to be persistent so clear them out
                 now. *)
              (pop_metadata "bootargs";;
               pop_metadata "bootargs_persist");;
            when (reset_bootargs args)
              (ZoneConfig.with_ zone
                 (λ zc,
                    (* restore original boot args in zone config *)
                    ZoneConfig.setprop zc "global" "bootargs"
                      (default "" (cur_bootargs args))))))
  end.

(** [processutils.execute(cmd, ...)[0].strip()]. *)
Definition execute_stripped (argv : list string) : M string :=
  out ← execute argv;
  mret (py.strip (py.join (String "010" "") out)).

Definition cbi_service : string := "svc:/application/cloudbase-init:default".

(** The loop of [_waitfor_copydone], on fuel. *)
Fixpoint waitfor_copydone_loop (fuel : nat) (name : string) (failcount : nat)
    (end_states : list string) (cbi_state : option string) : M bool :=
  match fuel with
  | 0 => out_of_fuel
  | S fuel' =>
      if bool_decide (cbi_state ∈ (Some <$> end_states)) then mret true
      else
        answer ←
          try_except
            (state ← execute_stripped
                       ["/usr/sbin/zlogin"; "-S"; name; "/usr/bin/svcs"; "-H";
                        "-o"; "state"; cbi_service];
             mret (Some state))
            (λ ex, match ex with
                   | ProcessExecutionError _ => mret None
                   | _ => raise ex
                   end);
        match answer with
        | None =>
            (* If it has been two minutes and the zone is still not able
               to return any kind of state, and the zlogin is failing,
               then simply get out of the process of protecting the
               config-drive but leave it attached to the zone. *)
            if bool_decide (120 < failcount) then mret false
            else
              call (Sleep 1);;
              waitfor_copydone_loop fuel' name (S failcount) end_states
                cbi_state
        | Some state =>
            end_states ←
              (if bool_decide (state = "disabled")
                  && bool_decide (state ∈ end_states)
               then
                 out ← execute_stripped
                         ["/usr/sbin/zlogin"; "-S"; name; "/usr/bin/svcprop";
                          "-p"; "general/enabled"; cbi_service];
                 if bool_decide (out = "true")
                 then mret (filter (λ s, s ≠ "disabled") end_states)
                 else mret end_states
               else mret end_states);
            copydone ←
              (if bool_decide (state = "offline*") then
                 out ← execute_stripped
                         ["/usr/sbin/zlogin"; "-S"; name; "/usr/bin/svcprop";
                          "-C"; "-p"; "configdrive/copydone"; cbi_service];
                 mret (bool_decide (out = "true"))
               else mret false);
            if (copydone : bool) then mret true
            else waitfor_copydone_loop fuel' name failcount end_states
                   (Some state)
        end
  end.

(** [_waitfor_copydone(name)]. *)
Definition _waitfor_copydone (fuel : nat) (name : string) : M bool :=
  let failcount := 0 in
  let end_states := ["online"; "degraded"; "maintenance"; "disabled"] in
  waitfor_copydone_loop fuel name failcount end_states None.

(** [utils.create_instance_dir(instance)]. *)
Definition create_instance_dir : M string :=
  instance ← get_instance;
  conf ← get_conf;
  let instance_dir := py.path_join (conf_instances_path conf) (i_uuid instance) in
  there ← probe (PathExists instance_dir) exists_at;
  (if (there : bool) then mret tt
   else call (External ("fileutils.ensure_tree " +:+ instance_dir)));;
  mret instance_dir.

(** [utils.copy_file(src, dest)]. *)
Definition copy_file (src dest : string) : M unit :=
  execute ["/usr/bin/cp"; "-z"; src; dest];; mret tt.

(** The image of [spawn]: the path to install from, if any, and the
    block device information, which gains the raw disk of a kernel zone.
    Glance ([_fetch_image], [_validate_image]) is a collaborator out of
    the spec's scope. *)
Definition prepare_image (brand container_format : string)
    (block_device_info : option BlockDeviceInfo)
    : M (option string * option BlockDeviceInfo) :=
  instance ← get_instance;
  if truthy_opt (i_image_ref instance) then
    let image_ref := default "" (i_image_ref instance) in
    image_path ← ask (External "_fetch_image") text_at;
    if bool_decide (container_format = "ovf") then
      call (External "_validate_image");;
      mret (Some image_path, block_device_info)
    else if bool_decide (brand ≠ ZONE_BRAND_SOLARIS_KZ) then
      raise (ImageUnacceptable image_ref
               "Raw devices are compatible only with kernel zones")
    else
      instance_dir ← create_instance_dir;
      let volume_path := instance_dir +:+ "/disk" in
      try_except (copy_file image_path volume_path)
        (λ _,
           raise (ImageUnacceptable image_ref
                    ("Could not copy image " +:+ image_path
                     +:+ " to instance path " +:+ volume_path)));;
      bdi ← none_attribute "get" block_device_info;
      let mapping :=
        mkBdmEntry (bdi_root_device_name bdi)
          (Some (mkConnInfo "file" (Some volume_path) None None)) in
      mret (None,
            Some (mkBlockDeviceInfo (bdi_root_device_name bdi)
                    (Some (default [] (bdi_block_device_mapping bdi)
                           ++ [mapping]))))
  else mret (None, block_device_info).

(** [spawn(context, instance, image_meta, injected_files, admin_password,
    allocations, network_info, block_device_info, power_on)]; [fuel]
    bounds the wait for the config drive to be copied.  The temporary
    directory and the config drive builder are collaborators out of the
    spec's scope. *)
Definition spawn (fuel : nat) (container_format : string)
    (network_info : list string) (block_device_info : option BlockDeviceInfo)
    (power_on : bool) : M unit :=
  instance ← get_instance;
  let name := i_name instance in
  brand ← _validate_flavor;
  '(install_image_path, block_device_info) ←
    prepare_image brand container_format block_device_info;
  (* create a new directory for SC profiles *)
  sc_dir ← ask (External "tempfile.mkdtemp") text_at;
  call (External ("os.chmod " +:+ sc_dir));;
  (* Create the configdrive if required. *)
  when (i_config_drive instance)
    (call (External "configdrive.ConfigDriveBuilder");;
     let cd_path := _get_configdrive_path instance in
     ignore_errors (call (External ("make_drive " +:+ cd_path))));;
  try_finally
    (try_except
       (_create_config network_info block_device_info (Some sc_dir);;
        match install_image_path with
        | Some image => _install image sc_dir
        | None => _attach
        end;;
        when power_on _power_on;;
        when (i_config_drive instance)
          (unset ← _waitfor_copydone fuel name;
           when unset (_unset_configdrive name)))
       (λ ex,
          (* At least attempt to uninstall the instance, depending on
             where the installation got to there could be things left
             behind that need to be cleaned up, e.g a root zpool etc. *)
          ignore_errors _uninstall;;
          ignore_errors _delete_config;;
          raise ex))
    (* remove the sc_profile temp directory *)
    (call (Rmtree sc_dir)).

(** *** Resize: the destination side *)

(** [_resize_disk_migration(context, instance, configured, replacement,
    newvolumesz, mountdev, samehost=True)]. *)
Definition _resize_disk_migration (configured replacement : string)
    (newvolumesz : Z) (mountdev : string) (samehost : bool)
    : M (option ConnInfo) :=
  connector ← get_volume_connector;
  connection_info ← _initialize_volume_connection replacement connector;
  instance ← get_instance;
  let rootmp := i_root_device_name instance in
  when samehost
    (let name := i_name instance in
     zone ← _get_zone_by_name name;
     match zone with
     | None => raise (InstanceNotFound name)
     | Some zone =>
         (* Need to detach the zone and re-attach the zone if this is a
            non-global zone so that the update of the rootzpool resource
            does not fail. *)
         brand ← zonemgr.brand zone;
         when (bool_decide (brand = ZONE_BRAND_SOLARIS)) (zonemgr.detach zone);;
         try_finally
           (brand ← zonemgr.brand zone;
            _set_boot_device name connection_info brand None)
           (brand ← zonemgr.brand zone;
            when (bool_decide (brand = ZONE_BRAND_SOLARIS))
              (zonemgr.attach zone []))
     end);;
  call (VolDetach configured);;
  instance ← get_instance;
  call (VolAttach replacement (i_uuid instance) rootmp);;
  call (BdmGetByVolumeId configured);;
  call (BdmSave connection_info replacement);;
  mret (if samehost then None else Some connection_info).










(** *** Reverting a resize *)

(** A volume id that may be [None], as it is handed to Cinder and to the
    block device mapping: the text Python prints for it. *)
Definition volid_text (volume_id : option string) : string :=
  default "None" volume_id.

(** [_samehost_revert_resize(context, instance, network_info,
    block_device_info)]. *)
Definition _samehost_revert_resize : M unit :=
  power_off;;
  flavor ← _get_flavor;
  let brand := flavor_brand flavor in
  instance ← get_instance;
  let name := i_name instance in
  _set_num_cpu name (i_vcpus instance) brand;;
  instance ← get_instance;
  _set_memory_cap name (i_memory_mb instance) brand;;
  instance ← get_instance;
  let rgb := i_root_gb instance in
  let old_rvid := i_system_metadata instance !! "old_instance_volid" in
  match old_rvid with
  | Some old_rvid =>
      when (truthy old_rvid)
        (let new_rvid := i_system_metadata instance !! "new_instance_volid" in
         let mount_dev := i_root_device_name instance in
         del_system_metadata "old_instance_volid";;
         _resize_disk_migration (volid_text new_rvid) old_rvid rgb mount_dev
           true;;
         mret tt)
  | None => mret tt
  end.

(** [finish_revert_migration(context, instance, network_info,
    block_device_info=None, power_on=True)]: [power_on] is not read. *)
Definition finish_revert_migration : M unit :=
  (* If this is not a samehost migration then we need to re-attach the
     original volume to the instance. Otherwise we need to update the
     original zone configuration. *)
  instance ← get_instance;
  let samehost := i_system_metadata instance !! "resize_samehost" in
  when (truthy_opt samehost)
    (_samehost_revert_resize;;
     del_system_metadata "resize_samehost");;
  instance ← get_instance;
  let old_rvid := i_system_metadata instance !! "old_instance_volid" in
  (if truthy_opt old_rvid then
     (* a true [old_rvid] is a volume id *)
     let old_rvid := default "" old_rvid in
     connector ← get_volume_connector;
     connection_info ← _initialize_volume_connection old_rvid connector;
     instance ← get_instance;
     new_rvid ← subscript "new_instance_volid"
                  (i_system_metadata instance !! "new_instance_volid");
     call (VolDetach new_rvid);;
     call (VolDelete new_rvid);;
     instance ← get_instance;
     let rootmp := i_root_device_name instance in
     call (VolAttach old_rvid (i_uuid instance) rootmp);;
     call (BdmGetByVolumeId new_rvid);;
     call (BdmSave connection_info old_rvid);;
     del_system_metadata "new_instance_volid";;
     del_system_metadata "old_instance_volid"
   else
     let new_rvid := i_system_metadata instance !! "new_instance_volid" in
     when (truthy_opt new_rvid)
       (del_system_metadata "new_instance_volid";;
        call (VolDelete (default "" new_rvid))));;
  _power_on.

(** *** Detaching a volume *)

(** [detach_volume(context, connection_info, instance, mountpoint)]. *)
Definition detach_volume (connection_info : ConnInfo) (mountpoint : string)
    : M unit :=
  instance ← get_instance;
  let name := i_name instance in
  zone ← _get_zone_by_name name;
  match zone with
  | None => raise (InstanceNotFound name)
  | Some zone =>
      flavor ← _get_flavor;
      let brand := flavor_brand flavor in
      if bool_decide (brand ≠ ZONE_BRAND_SOLARIS_KZ) then
        (* Only Solaris kernel zones are currently supported. *)
        raise (NotImplementedError
                 ("'" +:+ brand +:+ "' branded zones are not currently supported"))
      else
        suri ← _suri_from_volume_info connection_info;
        (* Check if the specific property value exists before attempting
           removal *)
        resource ←
          utils.lookup_resource_property_value zone "device" "storage" suri;
        match resource with
        | None => mret tt
        | Some resource =>
            ZoneConfig.with_ zone
              (λ zc, ZoneConfig.removeresources zc "device"
                       [Property_ "storage" suri]);;
            (* apply the configuration to the running zone *)
            state ← zonemgr.state zone;
            if bool_decide (state = ZONE_STATE_RUNNING) then
              try_except (zonemgr.apply zone)
                (λ ex,
                   (* re-add the entry to the zone configuration so that
                      the configuration will reflect what is in cinder
                      before we raise the exception, therefore failing the
                      detach and leaving the volume in-use. *)
                   let needed_props := ["storage"; "bootpri"] in
                   let props :=
                     filter (λ prop, prop_name prop ∈ needed_props)
                       (res_props resource) in
                   ZoneConfig.with_ zone
                     (λ zc, ZoneConfig.addresource zc "device" props false);;
                   raise ex)
            else mret tt
        end
  end.

End driver.
(** ** Observations used in the statements *)

(** The committed configuration of a zone, as a reader outside any edit
    session sees it. *)
Definition committed (zone : string) (w : World) : option (list Resource) :=
  z_config <$> zones w !! zone.

(** *** Reading CPU statistics *)

(** What one attempt of [_get_cpu_time] reads: the accumulator before,
    the directory of CPUs, one shard per CPU, the accumulator after. *)
Record Attempt := mkAttempt {
  a_initial : KsData;
  a_cpus : KsData;
  a_shards : list (string * KsData);
  a_final : KsData
}.

(** The value of an integer statistic of one kstat of a shard. *)
Definition stat_of (statistic : string) (v : KsValue) : Z :=
  match v with
  | KsKstat m =>
      match dict_get statistic m with Some (KsInt n) => n | _ => 0 end
  | _ => 0
  end.

(** The sum of a statistic over the kstats of a shard. *)
Definition stat_sum (statistic : string) (shard : KsData) : Z :=
  foldr (λ kv acc, stat_of statistic kv.2 + acc)%Z 0%Z shard.

(** The current CPU time of the shards: kernel and user nanoseconds of
    every per-CPU shard. *)
Definition shards_total (shards : list (string * KsData)) : Z :=
  foldr (λ s acc, stat_sum "cpu_nsec_kernel_cur" s.2
                  + stat_sum "cpu_nsec_user_cur" s.2 + acc)%Z 0%Z shards.

Definition int_of (key : string) (d : KsData) : Z :=
  match dict_get key d with Some (KsInt n) => n | _ => 0%Z end.

(** The kstats of a shard carry both counters as integers. *)
Definition wf_shard (shard : KsData) : Prop :=
  Forall (λ kv, ∃ m k u, kv.2 = KsKstat m
                ∧ dict_get "cpu_nsec_kernel_cur" m = Some (KsInt k)
                ∧ dict_get "cpu_nsec_user_cur" m = Some (KsInt u)) shard.

(** What is read is shaped as kstat shapes it: the directory lists the
    two accumulators and one entry per shard, there is at least one CPU,
    the accumulator carries integer counters. *)
Definition wf_attempt (a : Attempt) : Prop :=
  is_Some (dict_get "pset_accum" (a_cpus a))
  ∧ is_Some (dict_get "accum" (a_cpus a))
  ∧ map fst (dict_without "accum" (dict_without "pset_accum" (a_cpus a)))
    = map fst (a_shards a)
  ∧ a_shards a ≠ []
  ∧ Forall (λ s, wf_shard s.2) (a_shards a)
  ∧ (∃ g u k, dict_get "gen_num" (a_initial a) = Some (KsInt g)
              ∧ dict_get "cpu_nsec_user" (a_initial a) = Some (KsInt u)
              ∧ dict_get "cpu_nsec_kernel" (a_initial a) = Some (KsInt k))
  ∧ (∃ g, dict_get "gen_num" (a_final a) = Some (KsInt g)).

(** The generation number did not change across the attempt. *)
Definition stable (a : Attempt) : Prop :=
  int_of "gen_num" (a_initial a) = int_of "gen_num" (a_final a).

(** The URIs an attempt reads for a zone, with what it finds there. *)
Definition attempt_reads (zone : string) (a : Attempt)
    : list (string * KsData) :=
  [(driver.accum_uri zone, a_initial a); (driver.cpu_uri zone, a_cpus a)]
  ++ map (λ s, (driver.shard_uri (driver.cpu_uri zone) s.1, s.2)) (a_shards a)
  ++ [(driver.accum_uri zone, a_final a)].

(** From now on the environment serves these snapshots to the successive
    kstat reads, and none of the reads fails. *)
Definition served (w : World) (reads : list (string * KsData)) : Prop :=
  ∀ i uri d, reads !! i = Some (uri, d) →
    faults (env w) (now w + 2 * i) (KstatRead uri) = None
    ∧ kstat (env w) (now w + 2 * i) uri = Some d
    ∧ faults (env w) (now w + 2 * i + 1) (KstatGetMap uri) = None.

(** *** Storage URI lookups *)

(** A call of [suriadm lookup-uri]. *)
Definition is_suriadm_lookup (ev : Event) : bool :=
  match ev with
  | Exec ("/usr/sbin/suriadm" :: "lookup-uri" :: _) => true
  | _ => false
  end.

(** The number of URI lookups in a trace. *)
Definition lookup_attempts (t : list Event) : nat :=
  length (filter (λ ev, is_suriadm_lookup ev = true) t).

(** [keeps R m]: every run of [m] relates the world it starts in to the
    world it ends in by [R]. *)
Definition keeps {A} (R : World → World → Prop) (m : M A) : Prop :=
  ∀ w r w', m w = (r, w') → R w w'.

(** *** Frames: what a run leaves as it was *)

(** The committed configuration of a zone is as before. *)
Definition same_committed (zone : string) (w w' : World) : Prop :=
  committed zone w' = committed zone w.

(** The environment, the zonemgr store, the Instance object are as before. *)
Definition same_env (w w' : World) : Prop := env w' = env w.
Definition same_zones (w w' : World) : Prop := zones w' = zones w.
Definition same_inst (w w' : World) : Prop := inst w' = inst w.

(** The trace has grown, and only by calls that satisfy [P]. *)
Definition calls_only (P : Event → Prop) (w w' : World) : Prop :=
  ∃ evs, trace w' = trace w ++ evs ∧ Forall P evs.

(** Both frames hold. *)
Definition both (R1 R2 : World → World → Prop) (w w' : World) : Prop :=
  R1 w w' ∧ R2 w w'.

(** A command of the SMF tools. *)
Definition is_exec (ev : Event) : Prop :=
  match ev with Exec _ => True | _ => False end.

(** The console service is handled with SMF commands only; the zonemgr
    store and the Instance object are not touched. *)
Definition console_frame : World → World → Prop :=
  both same_env (both same_zones (both same_inst (calls_only is_exec))).

(** What [destroy] may issue when there is no zone: the commands of the
    console service, the lookup of the zone, the save of the Instance. *)
Definition absent_zone_call (name : string) (ev : Event) : Prop :=
  is_exec ev ∨ ev = RadGetZone name ∨ ev = InstanceSave.

(** The calls that are neither the suspend of a zone nor the unplugging
    of the interfaces. *)
Definition before_suspend (ev : Event) : Prop :=
  match ev with
  | ZSuspend _ | UnplugVifs => False
  | _ => True
  end.

(** A run that ends does not end by running out of fuel. *)
Definition terminates {A} (m : M A) : Prop :=
  ∀ w r w', m w = (r, w') → r ≠ Diverge.

(** The position of the first occurrence of a call in a trace. *)
Definition position (ev : Event) (t : list Event) : option nat :=
  fst <$> list_find (λ e, e = ev) t.

(** The world after a kstat read of [uri] that delivered a snapshot. *)
Definition after_read (uri : string) (w : World) : World :=
  set_trace ((trace w ++ [KstatRead uri]) ++ [KstatGetMap uri]) w.

(** *** Texts and command sequences *)

(** The text has no newline in it. *)
Fixpoint single_line (s : string) : bool :=
  match s with
  | EmptyString => true
  | String c s' => negb (bool_decide (c = "010"%char)) && single_line s'
  end.

(** An HBA port that is online. *)
Definition hba_online (hba : Hba) : Prop :=
  hba_port_state hba = Some "online".

(** The URI lookup that [_lookup_fc_volume_suri] runs for one WWN. *)
Definition suriadm_lookup (target_lun wwn : string) : Event :=
  Exec ["/usr/sbin/suriadm"; "lookup-uri"; "-p"; "target=naa." +:+ wwn;
        "-p"; "lun=" +:+ target_lun].

(** One round of lookups over the WWNs, and the pause after it. *)
Definition lookup_round (target_lun : string) (wwns : list string)
    : list Event :=
  map (suriadm_lookup target_lun) wwns ++ [Sleep 2].

(** No command prints a logical unit name, a command fails only with
    [ProcessExecutionError], and nothing else fails. *)
Definition no_luname_anywhere (e : Env) : Prop :=
  (∀ n, driver.find_luname (exec_out e n) = None)
  ∧ (∀ n ev x, faults e n ev = Some x →
       is_exec ev ∧ ∃ stderr, x = ProcessExecutionError stderr).

(** The query of the state of the cloudbase-init service in a zone. *)
Definition svcs_query (name : string) : Event :=
  Exec ["/usr/sbin/zlogin"; "-S"; name; "/usr/bin/svcs"; "-H"; "-o"; "state";
        driver.cbi_service].

(** Every command fails with [ProcessExecutionError], and nothing else
    fails. *)
Definition commands_fail (e : Env) : Prop :=
  (∀ n argv, ∃ stderr,
      faults e n (Exec argv) = Some (ProcessExecutionError stderr))
  ∧ (∀ n seconds, faults e n (Sleep seconds) = None).

(** [n] times the events [evs]. *)
Fixpoint repeated (n : nat) (evs : list Event) : list Event :=
  match n with
  | 0 => []
  | S n' => evs ++ repeated n' evs
  end.

(** From the world [w] on, Cinder answers the polls of the volume: it is
    still being created at the first [k] polls and no longer at the next
    one, and neither a poll nor a pause fails. *)
Definition created_after (k : nat) (volume_id : string) (w : World) : Prop :=
  (∀ i, i < k →
     vol_status (volume_at (env w) (now w + 2 * i)) = "creating")
  ∧ vol_status (volume_at (env w) (now w + 2 * k)) ≠ "creating"
  ∧ (∀ n, faults (env w) n (VolGet volume_id) = None)
  ∧ (∀ n, faults (env w) n (Sleep 1) = None).

(** *** Lifecycle *)

(** The calls that neither unplug the interfaces nor stop a zone. *)
Definition before_stop (ev : Event) : Prop :=
  match ev with
  | UnplugVifs | ZShutdown _ | ZHalt _ => False
  | _ => True
  end.

(** The call that stops a zone: a shutdown for ['SOFT'], a halt
    otherwise. *)
Definition stop_call (halt_type zone : string) : Event :=
  if bool_decide (halt_type = "SOFT") then ZShutdown zone else ZHalt zone.

(** *** Spawn and resize *)

(** What [spawn] issues before it starts to configure the zone: calls to
    the image cache, the file system and the config drive builder. *)
Definition before_config (ev : Event) : Prop :=
  match ev with
  | External _ | Exec _ | PathExists _ => True
  | _ => False
  end.

(** A call that is not addressed to Cinder or to the block device
    mapping. *)
Definition no_volume_call (ev : Event) : Prop :=
  match ev with
  | VolGet _ | VolCreate _ _ _ _ | VolAttach _ _ _ | VolDetach _ | VolDelete _
  | VolExtend _ _ | VolInitializeConnection _ _ | BdmGetByVolumeId _
  | BdmSave _ _ => False
  | _ => True
  end.

(** A call that does not move the root volume: no detach, no attach, no
    update of the block device mapping. *)
Definition no_swap_call (ev : Event) : Prop :=
  match ev with
  | VolAttach _ _ _ | VolDetach _ | BdmGetByVolumeId _ | BdmSave _ _ => False
  | _ => True
  end.


(** What a run leaves unchanged of the Instance: the part [view]
    shows. *)
Definition unchanged {A} (view : Instance → A) (w w' : World) : Prop :=
  view (inst w') = view (inst w).

(** The bookkeeping of a resize in [instance.system_metadata]. *)
Definition resize_marks (i : Instance) : list (option string) :=
  (λ key, i_system_metadata i !! key)
    <$> ["resize_samehost"; "old_instance_volid"; "new_instance_volid"].

(** No bookkeeping of a resize is left: each key is absent or empty. *)
Definition no_resize_mark (i : Instance) : Prop :=
  Forall (λ mark, driver.truthy_opt mark = false) (resize_marks i).

(** An entry of [instance.system_metadata] that a run may delete and
    does not write. *)
Definition kept_or_deleted (key : string) (w w' : World) : Prop :=
  i_system_metadata (inst w') !! key = i_system_metadata (inst w) !! key
  ∨ i_system_metadata (inst w') !! key = None.

(** Every call but the boot of a zone. *)
Definition before_boot (ev : Event) : Prop :=
  match ev with
  | ZBoot _ _ => False
  | _ => True
  end.

(** What [_power_on] does before it boots the zone: the environment and
    [instance.metadata] are as they were, and no zone is booted. *)
Definition boot_prelude : World → World → Prop :=
  both same_env (both (unchanged i_metadata) (calls_only before_boot)).

(** What [_power_on] does once the zone is booted, but for the boot
    arguments it removes: [instance.metadata] is as it was, the trace has
    grown. *)
Definition boot_epilogue : World → World → Prop :=
  both (unchanged i_metadata) (calls_only (λ _, True)).

(** The lifecycle state of every zone is as it was; its configuration
    may have been edited. *)
Definition same_states (w w' : World) : Prop :=
  ∀ zone, z_state <$> zones w' !! zone = z_state <$> zones w !! zone.

(** Every call succeeds. *)
Definition no_fault (e : Env) : Prop := ∀ n ev, faults e n ev = None.

(** The device of a volume in the configuration of a kernel zone, as
    [attach_volume] adds it and as [detach_volume] looks for it. *)
Definition attached_device (suri : string) (mountpoint : string) : Resource :=
  mkResource "device"
    [Property_ "storage" suri;
     Property_ "id" (pretty (driver._get_device_index mountpoint))].

Definition device_of (suri : string) : Resource :=
  mkResource "device" [Property_ "storage" suri].

(** A device that carries the storage URI, as [detach_volume] looks for
    it. *)
Definition has_storage (suri : string) (r : Resource) : bool :=
  bool_decide (res_type r = "device")
  && existsb (λ p, bool_decide (prop_name p = "storage"
                                ∧ prop_value p = Some suri)) (res_props r).

(** A lower-case letter. *)
Definition lowercase (c : ascii) : Prop := (0 ≤ driver.val c ≤ 25)%Z.

(** A device name made of lower-case letters. *)
Definition letters_only (s : string) : Prop :=
  Forall lowercase (String.list_ascii_of_string s).

(** The value of letters, least significant first, in the bijective
    numeration of base 26 (a = 1, ..., z = 26). *)
Fixpoint weight (letters : list ascii) : Z :=
  match letters with
  | [] => 0
  | l :: letters' => (driver.val l + 1 + 26 * weight letters')%Z
  end.

(** Every call succeeds but the [apply] of a configuration to a running
    zone. *)
Definition is_apply (ev : Event) : bool :=
  match ev with
  | ZApply _ => true
  | _ => false
  end.

Definition edits_succeed (e : Env) : Prop :=
  ∀ n ev, is_apply ev = false → faults e n ev = None.

(** The running zone refuses every [apply], with [ex]. *)
Definition apply_fails (ex : Exn) (e : Env) : Prop :=
  ∀ n zone, faults e n (ZApply zone) = Some ex.
(** ** Concrete worlds for the examples *)

(** ** The cleanup of a failed [finish_migration] *)







Module Ex.

Definition conf : Conf :=
  mkConf "192.0.2.10" "compute-1" "/var/lib/nova/instances"
    "/var/share/zones/SYSsuspend" None None true "0" "0".

Definition no_volume : Volume := mkVolume "" "" "" "".
Definition no_conn : ConnInfo := mkConnInfo "local" None None None.

(** Every call succeeds; commands print nothing. *)
Definition quiet : Env :=
  mkEnv (λ _ _, None) (λ _, []) (λ _ _, None) (λ _, no_volume)
    (λ _, no_conn) (λ _, false) (λ _, "") conf.

Definition with_faults (f : nat → Event → option Exn) (e : Env) : Env :=
  mkEnv f (exec_out e) (kstat e) (volume_at e) (conn_at e) (exists_at e)
    (text_at e) (CONF e).

Definition with_exec_out (f : nat → list string) (e : Env) : Env :=
  mkEnv (faults e) f (kstat e) (volume_at e) (conn_at e) (exists_at e)
    (text_at e) (CONF e).

Definition with_kstat (f : nat → string → option KsData) (e : Env) : Env :=
  mkEnv (faults e) (exec_out e) f (volume_at e) (conn_at e) (exists_at e)
    (text_at e) (CONF e).

Definition kz_flavor : Flavor :=
  mkFlavor "kz.medium" [("zonecfg:brand", "solaris-kz")] 20.

Definition native_flavor : Flavor :=
  mkFlavor "ngz.medium" [("zonecfg:brand", "solaris")] 20.

(** A kernel-zone instance with 2048 MB of memory. *)
Definition instance : Instance :=
  mkInstance "instance-00000001" "5f2c-uuid" "i1" "i1" None ∅ ∅ kz_flavor
    2048 2 20 "c1d0" "compute-1" "compute-1" "compute-1" None false.

Definition with_task_state (ts : option string) (i : Instance) : Instance :=
  mkInstance (i_name i) (i_uuid i) (i_display_name i) (i_hostname i) ts
    (i_system_metadata i) (i_metadata i) (i_flavor i) (i_memory_mb i)
    (i_vcpus i) (i_root_gb i) (i_root_device_name i) (i_host i) (i_node i)
    (i_launched_on i) (i_image_ref i) (i_config_drive i).

Definition with_system_metadata (m : gmap string string) (i : Instance)
    : Instance :=
  mkInstance (i_name i) (i_uuid i) (i_display_name i) (i_hostname i)
    (i_task_state i) m (i_metadata i) (i_flavor i) (i_memory_mb i)
    (i_vcpus i) (i_root_gb i) (i_root_device_name i) (i_host i) (i_node i)
    (i_launched_on i) (i_image_ref i) (i_config_drive i).

Definition with_flavor (f : Flavor) (i : Instance) : Instance :=
  mkInstance (i_name i) (i_uuid i) (i_display_name i) (i_hostname i)
    (i_task_state i) (i_system_metadata i) (i_metadata i) f (i_memory_mb i)
    (i_vcpus i) (i_root_gb i) (i_root_device_name i) (i_host i) (i_node i)
    (i_launched_on i) (i_image_ref i) (i_config_drive i).

Definition with_memory_mb (m : Z) (i : Instance) : Instance :=
  mkInstance (i_name i) (i_uuid i) (i_display_name i) (i_hostname i)
    (i_task_state i) (i_system_metadata i) (i_metadata i) (i_flavor i) m
    (i_vcpus i) (i_root_gb i) (i_root_device_name i) (i_host i) (i_node i)
    (i_launched_on i) (i_image_ref i) (i_config_drive i).

Definition driver : Driver := mkDriver None None None None.

(** The configuration of the running kernel zone of [instance]. *)
Definition kz_config : list Resource :=
  [ mkResource "global" [Property_ "brand" "solaris-kz"];
    mkResource "virtual-cpu" [Property_ "ncpus" "2"];
    mkResource "capped-memory" [Property_ "physical" "2048M"];
    mkResource "device" [Property_ "bootpri" "0"; Property_ "id" "0";
                         Property_ "storage" "dev:/dev/zvol/dsk/rpool/vol1"] ].

Definition kz_zone : Zone :=
  mkZone "solaris-kz" ZONE_STATE_RUNNING kz_config None.

(** A host with that zone, where every call succeeds. *)
Definition world : World :=
  mkWorld quiet [] {[ "instance-00000001" := kz_zone ]} instance driver.

(** The same host without any zone. *)
Definition empty_world : World :=
  mkWorld quiet [] ∅ instance driver.

Definition with_env (e : Env) (w : World) : World :=
  mkWorld e (trace w) (zones w) (inst w) (drv w).

(** An edit session that changes the CPU count and then fails. *)
Definition failing_body (zc : ZoneConfig.t) : M unit :=
  ZoneConfig.setprop zc "virtual-cpu" "ncpus" "4";;
  raise (NovaException "boom").

(** A host on which [cancelConfig] fails (the RAD connection is lost). *)
Definition cancel_fails : World :=
  with_env
    (with_faults
       (λ _ ev, match ev with
                | ZCancelConfig _ => Some (OtherError "IOError" "connection lost")
                | _ => None
                end) quiet)
    world.

(** kstat snapshots of a zone with two CPUs.  A CPU is added between
    the two accumulator reads of the first attempt (generation 7, then
    8); the second attempt is undisturbed. *)
Definition shard0 : KsData :=
  [("sys", KsKstat [("cpu_nsec_kernel_cur", KsInt 100);
                    ("cpu_nsec_user_cur", KsInt 200)])].
Definition shard1 : KsData :=
  [("sys", KsKstat [("cpu_nsec_kernel_cur", KsInt 10);
                    ("cpu_nsec_user_cur", KsInt 20)])].
Definition accum (gen : Z) : KsData :=
  [("gen_num", KsInt gen); ("cpu_nsec_user", KsInt 1000);
   ("cpu_nsec_kernel", KsInt 500)].
Definition cpus1 : KsData :=
  [("0", KsKstat []); ("pset_accum", KsKstat []); ("accum", KsKstat [])].
Definition cpus2 : KsData :=
  [("0", KsKstat []); ("1", KsKstat []); ("pset_accum", KsKstat []);
   ("accum", KsKstat [])].
Definition attempt1 : Attempt :=
  mkAttempt (accum 7) cpus1 [("0", shard0)] (accum 8).
Definition attempt2 : Attempt :=
  mkAttempt (accum 8) cpus2 [("0", shard0); ("1", shard1)] (accum 8).

Definition kstat_script : list (string * KsData) :=
  attempt_reads "instance-00000001" attempt1
  ++ attempt_reads "instance-00000001" attempt2.

(** Every read is two calls: the snapshot of the k-th read is served at
    instant 2k. *)
Definition kstat_world : World :=
  with_env
    (with_kstat
       (λ t uri, match kstat_script !! (t `div` 2)%nat with
                 | Some (u, d) => if bool_decide (u = uri) then Some d else None
                 | None => None
                 end) quiet)
    world.

(** What [fcinfo hba-port] prints on a host whose only initiator port
    is offline. *)
Definition fcinfo_offline : list string :=
  [ "HBA Port WWN: 10000000c9a1b2c3";
    "        Port Mode: Initiator";
    "        Port ID: 0";
    "        OS Device Name: /dev/cfg/c4";
    "        State: offline";
    "        Supported Speeds: 2Gb 4Gb 8Gb";
    "        Current Speed: not established";
    "        Node WWN: 20000000c9a1b2c3";
    "        NPIV Not Supported" ].

(** The host with that adapter: [fcinfo] is the first command run. *)
Definition fc_offline_world : World :=
  with_env
    (with_exec_out (λ t, if bool_decide (t = 0) then fcinfo_offline else [])
       quiet)
    world.

(** The same host when [fcinfo hba-port] finds no adapter. *)
Definition fc_none_world : World :=
  with_env
    (with_exec_out (λ t, if bool_decide (t = 0) then ["No Adapters Found."] else [])
       quiet)
    world.

(** A Fibre Channel volume. *)
Definition fc_volume : ConnInfo :=
  mkConnInfo "fibre_channel" None (Some "vol-1")
    (Some (mkConnData None None None None (Some 1%Z) None None None
             (Some (WwnOne "5000d31000a1b2c3")))).

(** The instance is handed back after a failed evacuation, and the
    database cannot be reached. *)
Definition evacuated : Instance :=
  with_system_metadata {[ "evac_from" := "compute-0" ]} instance.

Definition save_fails : World :=
  mkWorld
    (with_faults
       (λ _ ev, match ev with
                | InstanceSave => Some (OtherError "DBConnectionError" "database is down")
                | _ => None
                end) quiet)
    [] ∅ evacuated driver.

(** A resize is being reverted on the host of the zone. *)
Definition reverting : World :=
  mkWorld quiet [] {[ "instance-00000001" := kz_zone ]}
    (with_task_state (Some RESIZE_REVERTING)
       (with_system_metadata {[ "old_vm_state" := RESIZED ]} instance))
    driver.

(** A kernel zone is requested with 2000 MB of memory. *)
Definition unaligned : World :=
  mkWorld quiet [] ∅ (with_memory_mb 2000 instance) driver.

(** Flavors with a root disk of 10 GB, half of what [instance] has. *)
Definition kz_small : Flavor :=
  mkFlavor "kz.small" [("zonecfg:brand", "solaris-kz")] 10.
Definition native_small : Flavor :=
  mkFlavor "ngz.small" [("zonecfg:brand", "solaris")] 10.

(** The host when the zone of [instance] is a native zone. *)
Definition native_zone : Zone :=
  mkZone "solaris" ZONE_STATE_RUNNING
    [ mkResource "global" [Property_ "brand" "solaris"];
      mkResource "capped-cpu" [Property_ "ncpus" "2"];
      mkResource "capped-memory" [Property_ "swap" "2048M"] ]
    None.

Definition native_world : World :=
  mkWorld quiet [] {[ "instance-00000001" := native_zone ]}
    (with_flavor native_flavor instance) driver.

(** Another compute host. *)
Definition other_host : string := "192.0.2.11".



Definition known_driver : Driver :=
  mkDriver None (Some ["20000000c9a1b2c3"]) (Some ["10000000c9a1b2c3"])
    (Some "iqn.1986-03.com.sun:01:e00000000000.5f2c").




Definition with_conn (f : nat → ConnInfo) (e : Env) : Env :=
  mkEnv (faults e) (exec_out e) (kstat e) (volume_at e) f (exists_at e)
    (text_at e) (CONF e).

Definition local_conn : ConnInfo :=
  mkConnInfo "local" (Some "rpool/vol") None None.



(** A host whose zonemgr refuses to open an edit session. *)
Definition edit_fails : World :=
  with_env
    (with_faults
       (λ _ ev, match ev with
                | ZEditConfig _ =>
                    Some (ObjectError "busy"
                            (mkPayload (EC_OTHER "CONFIG_IO_ERROR") None None))
                | _ => None
                end) quiet)
    world.

(** A host whose zonemgr refuses to commit. *)
Definition commit_fails : World :=
  with_env
    (with_faults
       (λ _ ev, match ev with
                | ZCommitConfig _ =>
                    Some (ObjectError "invalid"
                            (mkPayload (EC_OTHER "COMMAND_ERROR") None None))
                | _ => None
                end) quiet)
    world.

(** An edit that changes the CPU count. *)
Definition four_cpus (zc : ZoneConfig.t) : M unit :=
  ZoneConfig.setprop zc "virtual-cpu" "ncpus" "4".

(** What zonecfg prints on two lines. *)
Definition two_lines : string :=
  "zonecfg: invalid property" +:+ String "010" "zonecfg: not committed"
  +:+ String "010" "".

(** A host with two initiator ports, the first one offline. *)
Definition two_hbas : list Hba :=
  [ mkHba (Some "10000000c9a1b2c3") (Some "offline") (Some "20000000c9a1b2c3");
    mkHba (Some "10000000c9a1b2c4") (Some "online") (Some "20000000c9a1b2c4") ].

Definition two_hbas_world : World :=
  mkWorld quiet [] ∅ instance (mkDriver (Some two_hbas) None None None).

(** What [fcinfo hba-port] prints for one online initiator port. *)
Definition fcinfo_online : list string :=
  [ "HBA Port WWN: 10000000c9a1b2c4";
    "        Port Mode: Initiator";
    "        Port ID: 0";
    "        OS Device Name: /dev/cfg/c5";
    "        State: online";
    "        Supported Speeds: 2Gb 4Gb 8Gb";
    "        Current Speed: 8Gb";
    "        Node WWN: 20000000c9a1b2c4";
    "        NPIV Not Supported" ].

Definition fc_online_world : World :=
  with_env
    (with_exec_out (λ t, if bool_decide (t = 0) then fcinfo_online else [])
       quiet)
    world.

(** A host on which every command fails. *)
Definition no_command_works : World :=
  with_env
    (with_faults
       (λ _ ev, match ev with
                | Exec _ => Some (ProcessExecutionError "zlogin: not running")
                | _ => None
                end) quiet)
    world.

Definition with_volume (f : nat → Volume) (e : Env) : Env :=
  mkEnv (faults e) (exec_out e) (kstat e) f (conn_at e) (exists_at e)
    (text_at e) (CONF e).

(** Cinder reports the volume as being created twice, then as available. *)
Definition slow_cinder : World :=
  with_env
    (with_volume
       (λ t, if bool_decide (t < 4)
             then mkVolume "vol-new" "creating" "i1-resized" ""
             else mkVolume "vol-new" "available" "i1-resized" "")
       quiet)
    world.

(** A host on which the zone can be looked up and the Instance saved,
    and on which every other call fails. *)
Definition teardown_fails : World :=
  with_env
    (with_faults
       (λ _ ev, match ev with
                | RadGetZone _ | InstanceSave => None
                | Exec _ => Some (ProcessExecutionError "svcadm: failed")
                | Rmtree _ | OsRemove _ => Some (OSError "Device busy")
                | _ => Some (ObjectError "zoneadm failed"
                               (mkPayload (EC_OTHER "COMMAND_ERROR") None None))
                end) quiet)
    world.

(** A host whose zonemgr fails to halt or to shut down a zone. *)
Definition stop_fails : World :=
  with_env
    (with_faults
       (λ _ ev, match ev with
                | ZHalt _ | ZShutdown _ =>
                    Some (ObjectError "zoneadm failed"
                            (mkPayload (EC_OTHER "COMMAND_ERROR") None None))
                | _ => None
                end) quiet)
    world.

(** A flavor that does not name its brand, with a larger root disk. *)
Definition plain_large : Flavor := mkFlavor "plain.large" [] 40.

(** A native zone whose flavor does not name its brand either. *)
Definition plain_world : World :=
  mkWorld quiet [] {[ "instance-00000001" := native_zone ]}
    (with_flavor (mkFlavor "plain.medium" [] 20) instance) driver.

(** A kernel-zone flavor with more memory and the same root disk. *)
Definition kz_same_disk : Flavor :=
  mkFlavor "kz.large" [("zonecfg:brand", "solaris-kz")] 20.

Definition with_text (f : nat → string) (e : Env) : Env :=
  mkEnv (faults e) (exec_out e) (kstat e) (volume_at e) (conn_at e)
    (exists_at e) f (CONF e).

(** A host where the temporary directory gets that name and the zone
    cannot be created. *)
Definition create_fails : World :=
  mkWorld
    (with_faults
       (λ _ ev, match ev with
                | ZmCreate _ _ =>
                    Some (ObjectError "create failed"
                            (mkPayload (EC_OTHER "COMMAND_ERROR") None None))
                | _ => None
                end)
       (with_text (λ _, "/var/lib/nova/nova-sysconfig-x1") quiet))
    [] ∅ instance driver.

(** The destination side of a same-host resize of the kernel zone of
    [world], with the names of the initiators known. *)
Definition kz_resize_world : World :=
  mkWorld (with_conn (λ _, local_conn) quiet) []
    {[ "instance-00000001" := kz_zone ]} instance known_driver.

(** An iSCSI volume that can be reached over two paths. *)
Definition iscsi_volume : ConnInfo :=
  mkConnInfo "iscsi" None (Some "vol-2")
    (Some (mkConnData
             (Some ["iqn.2010-10.org.openstack:vol-2"; "iqn.2010-10.org.openstack:vol-2b"])
             (Some ["1"; "1"]) (Some "192.0.2.20:3260")
             (Some "iqn.2010-10.org.openstack:vol-2") (Some 1%Z) (Some "vol-2")
             None None None)).

(** The instance after a resize to another host gave it a new root
    volume. *)
Definition resized_elsewhere : World :=
  set_drv (mkDriver None (Some ["2000001b32a1b2c3"]) (Some ["2100001b32a1b2c3"])
             (Some "iqn.1986-03.com.sun:01:e00000000000.5a1b2c3d"))
    (set_inst
       (driver.with_system_metadata
          (<["old_instance_volid" := "vol-1"]>
             (<["new_instance_volid" := "vol-9"]>
                (<["hostid" := "8c2f1a07"]> ∅)))
          (inst world))
       world).

(** A host whose zonemgr fails to boot a zone, and an instance that was
    given boot arguments for one boot. *)
Definition boot_with_arguments_fails : World :=
  set_inst
    (driver.with_metadata (<["bootargs" := "-v"]> ∅) (inst world))
    (with_env
       (with_faults
          (λ _ ev, match ev with
                   | ZBoot _ _ =>
                       Some (ObjectError "zoneadm failed"
                               (mkPayload (EC_OTHER "COMMAND_ERROR") None None))
                   | _ => None
                   end) quiet)
       world).

(** A host whose kernel zone is installed and not running, and on which
    no edit session can be opened. *)
Definition halted_edit_fails : World :=
  mkWorld
    (with_faults
       (λ _ ev, match ev with
                | ZEditConfig _ =>
                    Some (ObjectError "zonecfg failed"
                            (mkPayload (EC_OTHER "COMMAND_ERROR") None None))
                | _ => None
                end) quiet)
    [] {[ "instance-00000001" :=
            mkZone "solaris-kz" ZONE_STATE_INSTALLED kz_config None ]}
    instance driver.

Definition local_volume : ConnInfo :=
  mkConnInfo "local" (Some "rpool/cinder/vol-3") (Some "vol-3") None.

(** The running kernel zone with the local volume attached, on a host
    where the zone refuses to apply a change of its configuration. *)
Definition apply_refused : Exn :=
  ObjectError "zoneadm apply failed"
    (mkPayload (EC_OTHER "COMMAND_ERROR") None None).

Definition volume_in_use : World :=
  mkWorld
    (with_faults
       (λ _ ev, match ev with
                | ZApply _ => Some apply_refused
                | _ => None
                end) quiet)
    []
    {[ "instance-00000001" :=
         mkZone "solaris-kz" ZONE_STATE_RUNNING
           (kz_config
            ++ [attached_device "dev:/dev/zvol/dsk/rpool/cinder/vol-3" "c1d1"])
           None ]}
    instance driver.

End Ex.

(** * Properties *)

(** ** Reasoning about runs *)

Ltac unfold_monad :=
  unfold mbind, mret, M_bind, M_ret, raise, try_except, try_finally,
    with_statement, ask, call, subscript, get_world, get_instance,
    put_instance, get_driver, put_driver, get_conf in *.

Ltac unfold_zonemgr :=
  unfold zonemgr.getResourceProperties, zonemgr.getResources,
    zonemgr.addResource, zonemgr.setResourceProperties,
    zonemgr.removeResources, zonemgr.clearResourceProperties,
    zonemgr.editConfig, zonemgr.commitConfig, zonemgr.cancelConfig,
    zonemgr.edit, zonemgr.the_zone, zonemgr.find_zone, zonemgr.put_zone,
    zonemgr.drop_zone, zonemgr.verb, zonemgr.get_object in *.

(** Case analysis on every branch of a run. *)
Ltac run_cases :=
  repeat (simpl in *; simplify_eq; try case_match; simplify_eq).

(** What a run of [utils.lookup_resource_property] does to the world: one
    read is issued, nothing is changed. *)
Lemma lookup_resource_property_run zone resource prop flt w r w1 :
  utils.lookup_resource_property zone resource prop flt w = (r, w1) →
  w1 = set_trace (trace w ++ [ZGetResourceProperties zone
                                (mkResource resource flt) [prop]]) w.
Proof.
  unfold utils.lookup_resource_property. unfold_zonemgr. unfold_monad.
  intros H. run_cases; done.
Qed.

(** C2: a [setprop] whose lookup reports the value already current issues
    no mutation. *)
Theorem setprop_current_value_is_noop
    (zc : ZoneConfig.t) (resource prop value : string) (w w1 : World) :
  utils.lookup_resource_property (ZoneConfig.zone zc) resource prop [] w
    = (Ok (Some value), w1) →
  ZoneConfig.setprop zc resource prop value w = (Ok tt, w1)
  ∧ trace w1 = trace w ++ [ZGetResourceProperties (ZoneConfig.zone zc)
                             (Resource_ resource) [prop]]
  ∧ zones w1 = zones w.
Proof.
  intros H. split.
  - unfold ZoneConfig.setprop. unfold_monad. rewrite H.
    rewrite bool_decide_eq_true_2; done.
  - apply lookup_resource_property_run in H. subst w1. done.
Qed.

(** ** The edit session *)

Lemma committed_put_edit zone z e w :
  zones w !! zone = Some z →
  committed zone (set_zones (<[zone := zonemgr.set_edit e z]> (zones w)) w)
  = committed zone w.
Proof.
  intros Hz. unfold committed. simpl. rewrite lookup_insert_eq, Hz. done.
Qed.

Lemma committed_set_trace zone t w :
  committed zone (set_trace t w) = committed zone w.
Proof. done. Qed.

(** [__enter__] that returns has opened the edit session and set the flag;
    the committed configuration is as before. *)
Lemma enter_run zone w0 zc w1 :
  ZoneConfig.__enter__ (ZoneConfig.__init__ zone) w0 = (Ok zc, w1) →
  zc = ZoneConfig.mk zone true
  ∧ trace w1 = trace w0 ++ [ZEditConfig zone]
  ∧ committed zone w1 = committed zone w0.
Proof.
  unfold ZoneConfig.__enter__, ZoneConfig.__init__.
  unfold_zonemgr. unfold_monad. intros H. run_cases.
  split_and!; [done | done |].
  unfold committed. simpl. rewrite lookup_insert_eq. by rewrite H.
Qed.

(** [cancelConfig] never touches the committed configuration, whether it
    succeeds or fails. *)
Lemma cancelConfig_run zone w r w' :
  zonemgr.cancelConfig zone w = (r, w') →
  trace w' = trace w ++ [ZCancelConfig zone]
  ∧ committed zone w' = committed zone w.
Proof.
  unfold_zonemgr. unfold_monad. intros H. run_cases; try done.
  split; [done |].
  unfold committed. simpl. rewrite lookup_insert_eq. by rewrite H.
Qed.

(** C1 (as amended): when the body of an edit session raises, [__exit__]
    issues [cancelConfig] and nothing else; the committed configuration is
    what it was before the session; and the body's exception is the one
    that leaves the session unless [cancelConfig] itself raises, in which
    case that exception leaves instead. *)
Theorem edit_session_cancelled_on_error
    {A} (zone : string) (body : ZoneConfig.t → M A)
    (w0 w1 w2 : World) (zc : ZoneConfig.t) (e : Exn) :
  ZoneConfig.__enter__ (ZoneConfig.__init__ zone) w0 = (Ok zc, w1) →
  body zc w1 = (Raise e, w2) →
  committed zone w2 = committed zone w1 →
  ∃ r w3,
    ZoneConfig.with_ zone body w0 = (r, w3)
    ∧ trace w3 = trace w2 ++ [ZCancelConfig zone]
    ∧ committed zone w3 = committed zone w0
    ∧ ((zonemgr.cancelConfig zone w2).1 = Ok tt → r = Raise e)
    ∧ (∀ e', (zonemgr.cancelConfig zone w2).1 = Raise e' → r = Raise e').
Proof.
  intros Henter Hbody Hkeep.
  destruct (enter_run _ _ _ _ Henter) as (-> & _ & Hc1).
  destruct (zonemgr.cancelConfig zone w2) as [rc w3] eqn:Hcancel.
  destruct (cancelConfig_run _ _ _ _ Hcancel) as [Ht Hc3].
  exists (match rc with Ok _ => Raise e | Raise e' => Raise e'
                   | Diverge => Diverge end), w3.
  split_and!.
  - unfold ZoneConfig.with_. unfold mbind at 1. unfold M_bind at 1.
    rewrite Henter. unfold with_statement. rewrite Hbody.
    unfold ZoneConfig.__exit__. simpl. unfold mbind, M_bind.
    rewrite Hcancel. destruct rc; done.
  - done.
  - congruence.
  - simpl. intros ->. done.
  - simpl. intros e' ->. done.
Qed.

(** ** Frame reasoning

    [keeps R m]: every run of [m] relates the world it starts in to the
    world it ends in by [R].  For a preorder [R] this is compositional. *)

Section keeps.
Context (R : World → World → Prop) `{!PreOrder R}.

Lemma keeps_ret {A} (a : A) : keeps R (mret a).
Proof. intros w r w' [= <- <-]. reflexivity. Qed.

Lemma keeps_raise {A} (e : Exn) : keeps R (@raise A e).
Proof. intros w r w' [= <- <-]. reflexivity. Qed.

Lemma keeps_bind {A B} (m : M A) (k : A → M B) :
  keeps R m → (∀ a, keeps R (k a)) → keeps R (m ≫= k).
Proof.
  intros Hm Hk w r w'. unfold mbind, M_bind.
  destruct (m w) as [[a | e |] w1] eqn:Hw; specialize (Hm _ _ _ Hw).
  - intros H%Hk. by etrans.
  - by intros [= <- <-].
  - by intros [= <- <-].
Qed.

Lemma keeps_try_except {A} (m : M A) (h : Exn → M A) :
  keeps R m → (∀ e, keeps R (h e)) → keeps R (try_except m h).
Proof.
  intros Hm Hh w r w'. unfold try_except.
  destruct (m w) as [[a | e |] w1] eqn:Hw; specialize (Hm _ _ _ Hw).
  - by intros [= <- <-].
  - intros H%Hh. by etrans.
  - by intros [= <- <-].
Qed.

Lemma keeps_try_finally {A} (m : M A) (f : M unit) :
  keeps R m → keeps R f → keeps R (try_finally m f).
Proof.
  intros Hm Hf w r w'. unfold try_finally.
  destruct (m w) as [[a | e |] w1] eqn:Hw; specialize (Hm _ _ _ Hw);
    [| | by intros [= <- <-]];
    destruct (f w1) as [[[] | e' |] w2] eqn:Hw2; specialize (Hf _ _ _ Hw2);
    intros [= <- <-]; by etrans.
Qed.

Lemma keeps_with_statement {A} (body : M A) (exit : option Exn → M unit) :
  keeps R body → (∀ o, keeps R (exit o)) → keeps R (with_statement body exit).
Proof.
  intros Hm Hf w r w'. unfold with_statement.
  destruct (body w) as [[a | e |] w1] eqn:Hw; specialize (Hm _ _ _ Hw);
    [| | by intros [= <- <-]].
  - destruct (exit None w1) as [[[] | e' |] w2] eqn:Hw2;
      specialize (Hf _ _ _ _ Hw2); intros [= <- <-]; by etrans.
  - destruct (exit (Some e) w1) as [[[] | e' |] w2] eqn:Hw2;
      specialize (Hf _ _ _ _ Hw2); intros [= <- <-]; by etrans.
Qed.

Lemma keeps_subscript {A} key (o : option A) : keeps R (subscript key o).
Proof. destruct o; [apply keeps_ret | apply keeps_raise]. Qed.

Lemma keeps_get_world : keeps R get_world.
Proof. intros w r w' [= <- <-]. reflexivity. Qed.
Lemma keeps_get_instance : keeps R get_instance.
Proof. intros w r w' [= <- <-]. reflexivity. Qed.
Lemma keeps_get_driver : keeps R get_driver.
Proof. intros w r w' [= <- <-]. reflexivity. Qed.
Lemma keeps_get_conf : keeps R get_conf.
Proof. intros w r w' [= <- <-]. reflexivity. Qed.
Lemma keeps_the_zone zone : keeps R (zonemgr.the_zone zone).
Proof.
  intros w r w'. unfold zonemgr.the_zone.
  case_match; intros [= <- <-]; reflexivity.
Qed.
Lemma keeps_find_zone zone : keeps R (zonemgr.find_zone zone).
Proof. intros w r w' [= <- <-]. reflexivity. Qed.

(** A call, when [R] admits the growth of the trace by that event. *)
Lemma keeps_call ev :
  (∀ w, R w (set_trace (trace w ++ [ev]) w)) → keeps R (call ev).
Proof. intros H w r w'. unfold call. case_match; intros [= <- <-]; apply H. Qed.

Lemma keeps_ask {A} ev (answer : Env → nat → A) :
  (∀ w, R w (set_trace (trace w ++ [ev]) w)) → keeps R (ask ev answer).
Proof.
  intros H w r w'. unfold ask.
  destruct (call ev w) as [[[] | e |] w1] eqn:Hw;
    apply (keeps_call ev H) in Hw; by intros [= <- <-].
Qed.
End keeps.

(** The structural steps of a [keeps] proof. *)
Ltac keeps_step :=
  lazymatch goal with
  | |- PreOrder _ => apply _
  | |- keeps _ (mret _) => apply keeps_ret
  | |- keeps _ (raise _) => apply keeps_raise
  | |- keeps _ (_ ≫= _) => apply keeps_bind; [.. | intros ?]
  | |- keeps _ (try_except _ _) => apply keeps_try_except; [.. | intros ?]
  | |- keeps _ (try_finally _ _) => apply keeps_try_finally
  | |- keeps _ (with_statement _ _) =>
      apply keeps_with_statement; [.. | intros ?]
  | |- keeps _ (subscript _ _) => apply keeps_subscript
  | |- keeps _ get_world => apply keeps_get_world
  | |- keeps _ get_instance => apply keeps_get_instance
  | |- keeps _ get_driver => apply keeps_get_driver
  | |- keeps _ get_conf => apply keeps_get_conf
  | |- keeps _ (zonemgr.the_zone _) => apply keeps_the_zone
  | |- keeps _ (zonemgr.find_zone _) => apply keeps_find_zone
  | |- keeps _ (match ?x with _ => _ end) => destruct x
  | |- keeps _ (if ?x then _ else _) => destruct x
  | |- keeps _ (let _ := _ in _) => cbv zeta
  end.

(** *** The committed configuration as a frame *)

#[local] Instance same_committed_preorder zone : PreOrder (same_committed zone).
Proof.
  split; [by intros w | intros w1 w2 w3; unfold same_committed; congruence].
Qed.

Lemma same_committed_call zone ev : keeps (same_committed zone) (call ev).
Proof. apply keeps_call; try apply _; done. Qed.

(** A mutation acts on the configuration under edit. *)
Lemma same_committed_edit zone' zone f :
  keeps (same_committed zone') (zonemgr.edit zone f).
Proof.
  intros w r w'. unfold_zonemgr. unfold_monad. intros H. run_cases; try done.
  unfold same_committed, committed. simpl.
  destruct (decide (zone = zone')) as [<- | Hne].
  - rewrite lookup_insert_eq. by rewrite H.
  - by rewrite lookup_insert_ne.
Qed.

Ltac same_committed_tac :=
  repeat first
    [ apply same_committed_call
    | apply same_committed_edit
    | keeps_step ].

Lemma same_committed_lookup_resource_property zone' zone resource prop flt :
  keeps (same_committed zone')
    (utils.lookup_resource_property zone resource prop flt).
Proof.
  unfold utils.lookup_resource_property, zonemgr.getResourceProperties.
  same_committed_tac.
Qed.

(** The primitives of [ZoneConfig] never change the committed
    configuration: only [commitConfig] does. *)
Lemma setprop_keeps_committed zone' zc resource prop value :
  keeps (same_committed zone') (ZoneConfig.setprop zc resource prop value).
Proof.
  unfold ZoneConfig.setprop, zonemgr.addResource,
    zonemgr.setResourceProperties.
  repeat first [ apply same_committed_lookup_resource_property
               | same_committed_tac ].
Qed.

Lemma addresource_keeps_committed zone' zc resource props ign :
  keeps (same_committed zone') (ZoneConfig.addresource zc resource props ign).
Proof.
  unfold ZoneConfig.addresource, zonemgr.addResource,
    zonemgr.setResourceProperties.
  same_committed_tac.
Qed.

Lemma removeresources_keeps_committed zone' zc resource props :
  keeps (same_committed zone') (ZoneConfig.removeresources zc resource props).
Proof.
  unfold ZoneConfig.removeresources, zonemgr.removeResources.
  same_committed_tac.
Qed.

Lemma clear_resource_props_keeps_committed zone' zc resource props :
  keeps (same_committed zone')
    (ZoneConfig.clear_resource_props zc resource props).
Proof.
  unfold ZoneConfig.clear_resource_props, zonemgr.clearResourceProperties.
  same_committed_tac.
Qed.

(** The session of [Ex.failing_body] on the example host: its hypotheses
    hold there by computation. *)
Lemma edit_session_cancelled_on_error_witness :
  ∃ r w3,
    ZoneConfig.with_ "instance-00000001" Ex.failing_body Ex.world = (r, w3)
    ∧ trace w3
      = [ZEditConfig "instance-00000001";
         ZGetResourceProperties "instance-00000001"
           (Resource_ "virtual-cpu") ["ncpus"];
         ZSetResourceProperties "instance-00000001"
           (Resource_ "virtual-cpu") [Property_ "ncpus" "4"];
         ZCancelConfig "instance-00000001"]
    ∧ committed "instance-00000001" w3 = Some Ex.kz_config
    ∧ r = Raise (NovaException "boom").
Proof.
  destruct (edit_session_cancelled_on_error "instance-00000001"
              Ex.failing_body Ex.world
              (ZoneConfig.__enter__ (ZoneConfig.__init__ "instance-00000001")
                 Ex.world).2
              (Ex.failing_body (ZoneConfig.mk "instance-00000001" true)
                 (ZoneConfig.__enter__
                    (ZoneConfig.__init__ "instance-00000001") Ex.world).2).2
              (ZoneConfig.mk "instance-00000001" true)
              (NovaException "boom"))
    as (r & w3 & Hrun & Htrace & Hcommitted & Hok & _).
  - vm_compute. reflexivity.
  - vm_compute. reflexivity.
  - vm_compute. reflexivity.
  - exists r, w3. split_and!.
    + exact Hrun.
    + rewrite Htrace. vm_compute. reflexivity.
    + rewrite Hcommitted. vm_compute. reflexivity.
    + apply Hok. vm_compute. reflexivity.
Defined.

(** C1 as stated fails where [cancelConfig] itself raises: the session
    was opened, the body raised [NovaException "boom"], and what reaches
    the caller is the error of [cancelConfig]. *)
Lemma edit_session_original_exception_lost :
  let zone := "instance-00000001" in
  let run_enter := ZoneConfig.__enter__ (ZoneConfig.__init__ zone) Ex.cancel_fails in
  run_enter.1 = Ok (ZoneConfig.mk zone true)
  ∧ (Ex.failing_body (ZoneConfig.mk zone true) run_enter.2).1
    = Raise (NovaException "boom")
  ∧ (ZoneConfig.with_ zone Ex.failing_body Ex.cancel_fails).1
    = Raise (OtherError "IOError" "connection lost")
  ∧ (ZoneConfig.with_ zone Ex.failing_body Ex.cancel_fails).1
    ≠ Raise (NovaException "boom").
Proof. vm_compute. split_and!; done. Qed.

(** The kernel zone of the example host already has 2 virtual CPUs. *)
Lemma setprop_current_value_is_noop_witness :
  ZoneConfig.setprop (ZoneConfig.mk "instance-00000001" false)
    "virtual-cpu" "ncpus" "2" Ex.world
  = (Ok tt,
     set_trace [ZGetResourceProperties "instance-00000001"
                  (Resource_ "virtual-cpu") ["ncpus"]] Ex.world).
Proof.
  apply (setprop_current_value_is_noop
           (ZoneConfig.mk "instance-00000001" false) "virtual-cpu" "ncpus" "2"
           Ex.world).
  vm_compute. reflexivity.
Defined.

(** ** CPU statistics *)

Lemma served_nil w : served w [].
Proof. intros i uri d H. done. Qed.

Lemma served_app_l w l1 l2 : served w (l1 ++ l2) → served w l1.
Proof.
  intros H i uri d Hi. apply H. by apply lookup_app_l_Some.
Qed.

Lemma kstat_data_served uri d rest w :
  py.startswith uri "kstat:/" = true →
  served w ((uri, d) :: rest) →
  driver._kstat_data uri w = (Ok (Some d), after_read uri w)
  ∧ served (after_read uri w) rest
  ∧ zones (after_read uri w) = zones w.
Proof.
  intros Hpre Hs.
  destruct (Hs 0 uri d eq_refl) as (Hf & Hk & Hg).
  rewrite Nat.mul_0_r, Nat.add_0_r in Hf, Hk, Hg.
  split_and!.
  - unfold driver._kstat_data. rewrite Hpre. unfold_monad. simpl.
    rewrite Hf, Hk. simpl. unfold now in *. simpl.
    rewrite length_app. simpl. rewrite Hg. done.
  - intros i uri' d' Hi. specialize (Hs (S i) uri' d' Hi).
    unfold after_read, now in *. simpl in *.
    rewrite !length_app. simpl.
    replace (length (trace w) + 1 + 1 + (i + (i + 0)))
      with (length (trace w) + S (i + S (i + 0))) by lia.
    done.
  - done.
Qed.

Lemma sum_kstat_values_wf statistic (shard : KsData) total w :
  Forall (λ kv, ∃ m n, kv.2 = KsKstat m
                ∧ dict_get statistic m = Some (KsInt n)) shard →
  driver.sum_kstat_values (map snd shard) statistic total w
  = (Ok (total + stat_sum statistic shard)%Z, w).
Proof.
  revert total. induction shard as [| [k v] shard IH]; intros total Hwf.
  - simpl. unfold mret, M_ret. by rewrite Z.add_0_r.
  - apply Forall_cons in Hwf as [(m & n & Hv & Hn) Hwf]. simpl in Hv. subst v.
    simpl. unfold mbind, M_bind. rewrite Hn. simpl.
    rewrite IH by done. f_equal. f_equal. lia.
Qed.

Lemma sum_kstat_statistic_kernel shard w :
  wf_shard shard →
  driver._sum_kstat_statistic shard "cpu_nsec_kernel_cur" w
  = (Ok (stat_sum "cpu_nsec_kernel_cur" shard), w).
Proof.
  intros Hwf. unfold driver._sum_kstat_statistic.
  rewrite sum_kstat_values_wf; [done |].
  eapply Forall_impl; [exact Hwf |]. intros kv (m & k & u & ? & ? & ?). eauto.
Qed.

Lemma sum_kstat_statistic_user shard w :
  wf_shard shard →
  driver._sum_kstat_statistic shard "cpu_nsec_user_cur" w
  = (Ok (stat_sum "cpu_nsec_user_cur" shard), w).
Proof.
  intros Hwf. unfold driver._sum_kstat_statistic.
  rewrite sum_kstat_values_wf; [done |].
  eapply Forall_impl; [exact Hwf |]. intros kv (m & k & u & ? & ? & ?). eauto.
Qed.

(** The loop over the CPUs, when every shard is served: it is done with
    the running total and a shard in hand as soon as there is one CPU. *)
Lemma read_shards_served zone name (shards : list (string * KsData))
    rest total none w :
  Forall (λ s, wf_shard s.2) shards →
  served w (map (λ s, (driver.shard_uri (driver.cpu_uri name) s.1, s.2))
              shards ++ rest) →
  ∃ w', driver.read_shards zone (driver.cpu_uri name)
          (map fst shards) total none w
        = (Ok (driver.ShardsDone (total + shards_total shards)
                 (if shards is [] then none else false)), w')
        ∧ served w' rest ∧ zones w' = zones w.
Proof.
  revert total none w.
  induction shards as [| [n shard] shards IH]; intros total none w Hwf Hs.
  - exists w. simpl. unfold mret, M_ret. by rewrite Z.add_0_r.
  - apply Forall_cons in Hwf as [Hwf1 Hwf]. simpl in Hwf1.
    simpl in Hs.
    eapply kstat_data_served in Hs as (Hrun & Hs & Hz); [| done].
    simpl. unfold mbind at 1. unfold M_bind at 1. rewrite Hrun.
    unfold mbind at 1. unfold M_bind at 1.
    rewrite sum_kstat_statistic_kernel by done.
    unfold mbind at 1. unfold M_bind at 1.
    rewrite sum_kstat_statistic_user by done.
    destruct (IH (total + stat_sum "cpu_nsec_kernel_cur" shard
                  + stat_sum "cpu_nsec_user_cur" shard)%Z false _ Hwf Hs)
      as (w' & Hrun' & Hs' & Hz').
    exists w'. rewrite Hrun'. split_and!; [| done | congruence].
    f_equal. f_equal. f_equal; [lia | by destruct shards].
Qed.

Lemma dict_get_filter_ne {V} key key' (d : list (string * V)) :
  key ≠ key' →
  dict_get key (dict_without key' d) = dict_get key d.
Proof.
  intros Hne. unfold dict_without. induction d as [| [k v] d IH]; [done |].
  rewrite filter_cons. simpl.
  destruct (decide (k = key')) as [-> | Hk].
  - rewrite decide_False by naive_solver.
    rewrite bool_decide_eq_false_2 by done. done.
  - rewrite decide_True by done. simpl. by rewrite IH.
Qed.

(** One attempt, when everything it reads is served: it returns the sum
    when the generation number is stable and asks for a retry otherwise. *)
Lemma cpu_time_attempt_served zone z a rest w :
  zones w !! zone = Some z →
  wf_attempt a →
  served w (attempt_reads zone a ++ rest) →
  ∃ w', driver.cpu_time_attempt zone (driver.cpu_uri zone)
          (driver.accum_uri zone) w
        = (Ok (if decide (stable a)
               then driver.Return (shards_total (a_shards a)
                                   + (int_of "cpu_nsec_user" (a_initial a)
                                      + int_of "cpu_nsec_kernel" (a_initial a)))
               else driver.Continue), w')
        ∧ served w' rest ∧ zones w' = zones w.
Proof.
  intros Hz (Hps & Hac & Hnames & Hne & Hwf & (g0 & u & k & Hg0 & Hu & Hk)
             & (g1 & Hg1)) Hs.
  unfold attempt_reads in Hs. rewrite <- !app_assoc in Hs. simpl in Hs.
  eapply kstat_data_served in Hs as (Hrun1 & Hs & Hz1); [| done].
  eapply kstat_data_served in Hs as (Hrun2 & Hs & Hz2); [| done].
  unfold driver.cpu_time_attempt.
  unfold mbind at 1. unfold M_bind at 1. rewrite Hrun1.
  unfold mbind at 1. unfold M_bind at 1. rewrite Hrun2.
  destruct Hps as [vps Hps]. destruct Hac as [vac Hac].
  unfold dict_pop. rewrite Hps.
  unfold mbind at 1. unfold M_bind at 1. unfold mret at 1. unfold M_ret at 1.
  rewrite dict_get_filter_ne by done. rewrite Hac.
  unfold mbind at 1. unfold M_bind at 1. unfold mret at 1. unfold M_ret at 1.
  rewrite Hnames.
  destruct (read_shards_served zone zone (a_shards a)
              ((driver.accum_uri zone, a_final a) :: rest) 0 true _ Hwf Hs)
    as (w3 & Hrun3 & Hs3 & Hz3).
  unfold mbind at 1. unfold M_bind at 1. rewrite Hrun3.
  destruct (a_shards a) as [| s shards] eqn:Hshards; [done |].
  eapply kstat_data_served in Hs3 as (Hrun4 & Hs4 & Hz4); [| done].
  unfold mbind at 1. unfold M_bind at 1. rewrite Hrun4.
  unfold driver.subscript_snapshot, stable, int_of.
  rewrite Hg0, Hg1, Hu, Hk.
  eexists. split_and!; [| exact Hs4 | congruence].
  unfold_monad. simpl.
  destruct (decide (g0 = g1)) as [-> | Hne'].
  - rewrite bool_decide_eq_true_2 by done. done.
  - rewrite bool_decide_eq_false_2 by done. done.
Qed.

(** Attempts whose generation number changed are retried. *)
Lemma cpu_time_attempts_unstable n zone z (before : list Attempt) rest w :
  zones w !! zone = Some z →
  Forall wf_attempt before →
  Forall (λ a, ¬ stable a) before →
  served w (concat (map (attempt_reads zone) before) ++ rest) →
  ∃ w', driver.cpu_time_attempts (length before + n) zone
          (driver.cpu_uri zone) (driver.accum_uri zone) w
        = driver.cpu_time_attempts n zone
            (driver.cpu_uri zone) (driver.accum_uri zone) w'
        ∧ served w' rest ∧ zones w' = zones w.
Proof.
  revert w. induction before as [| a before IH]; intros w Hz Hwf Hun Hs.
  - exists w. done.
  - apply Forall_cons in Hwf as [Hwfa Hwf].
    apply Forall_cons in Hun as [Huna Hun].
    simpl in Hs. rewrite <- app_assoc in Hs.
    destruct (cpu_time_attempt_served zone z a _ w Hz Hwfa Hs)
      as (w1 & Hrun & Hs1 & Hz1).
    rewrite decide_False in Hrun by done.
    assert (zones w1 !! zone = Some z) as Hz' by (by rewrite Hz1).
    destruct (IH w1 Hz' Hwf Hun Hs1) as (w' & Hrun' & Hs' & Hzz).
    exists w'. split_and!; [| done | congruence].
    simpl. unfold mbind at 1. unfold M_bind at 1. rewrite Hrun. done.
Qed.

Lemma get_cpu_time_running zone z w :
  zones w !! zone = Some z → z_state z = ZONE_STATE_RUNNING →
  driver._get_cpu_time zone w
  = driver.cpu_time_attempts 3 zone (driver.cpu_uri zone)
      (driver.accum_uri zone) w.
Proof.
  intros Hz Hst. unfold driver._get_cpu_time, zonemgr.name, zonemgr.state.
  unfold_zonemgr. unfold mbind, M_bind, mret, M_ret.
  repeat (rewrite Hz; cbv beta iota). rewrite Hst. done.
Qed.

(** C3: the CPU time of a zone.  A zone that is not running reads as 0
    without any kstat read.  For a running zone: when some attempt (the
    first, or one that follows attempts whose generation number changed)
    sees the same generation number before and after summing the shards,
    the result is the sum of the per-CPU current kernel and user
    nanoseconds plus the accumulated user and kernel nanoseconds; when
    the generation number changes in each of the 3 attempts, the result
    is 0 and nothing is raised. *)
Theorem get_cpu_time_reads (zone : string) (z : Zone) (w : World) :
  zones w !! zone = Some z →
  (z_state z ≠ ZONE_STATE_RUNNING →
     driver._get_cpu_time zone w = (Ok 0%Z, w))
  ∧ (z_state z = ZONE_STATE_RUNNING →
     ∀ (before : list Attempt) (a : Attempt),
       length before < 3 →
       Forall wf_attempt before → Forall (λ a, ¬ stable a) before →
       wf_attempt a → stable a →
       served w (concat (map (attempt_reads zone) before)
                 ++ attempt_reads zone a) →
       ∃ w', driver._get_cpu_time zone w
             = (Ok (shards_total (a_shards a)
                    + (int_of "cpu_nsec_user" (a_initial a)
                       + int_of "cpu_nsec_kernel" (a_initial a)))%Z, w'))
  ∧ (z_state z = ZONE_STATE_RUNNING →
     ∀ a1 a2 a3 : Attempt,
       Forall wf_attempt [a1; a2; a3] →
       Forall (λ a, ¬ stable a) [a1; a2; a3] →
       served w (concat (map (attempt_reads zone) [a1; a2; a3])) →
       ∃ w', driver._get_cpu_time zone w = (Ok 0%Z, w')).
Proof.
  intros Hz. split_and!.
  - intros Hst. unfold driver._get_cpu_time, zonemgr.name, zonemgr.state.
    unfold_zonemgr. unfold mbind, M_bind, mret, M_ret.
    repeat (rewrite Hz; cbv beta iota).
    by rewrite bool_decide_eq_true_2.
  - intros Hst before a Hlen Hwf Hun Hwfa Hsta Hs.
    assert (∃ n, 3 = length before + S n) as [n Hn]
      by (exists (2 - length before); lia).
    destruct (cpu_time_attempts_unstable (S n) zone z before _ w Hz Hwf Hun Hs)
      as (w1 & Hrun & Hs1 & Hz1).
    assert (zones w1 !! zone = Some z) as Hz' by (by rewrite Hz1).
    rewrite <- (app_nil_r (attempt_reads zone a)) in Hs1.
    destruct (cpu_time_attempt_served zone z a [] w1 Hz' Hwfa Hs1)
      as (w2 & Hrun2 & _ & _).
    rewrite decide_True in Hrun2 by done.
    exists w2. rewrite (get_cpu_time_running zone z) by done.
    rewrite Hn, Hrun. simpl.
    unfold mbind at 1. unfold M_bind at 1. rewrite Hrun2. done.
  - intros Hst a1 a2 a3 Hwf Hun Hs.
    rewrite <- (app_nil_r (concat _)) in Hs.
    destruct (cpu_time_attempts_unstable 0 zone z [a1; a2; a3] [] w Hz Hwf Hun Hs)
      as (w1 & Hrun & _ & _).
    exists w1. rewrite (get_cpu_time_running zone z) by done.
    change (length [a1; a2; a3] + 0) with 3 in Hrun. rewrite Hrun. done.
Qed.

Lemma kstat_world_served :
  served Ex.kstat_world
    (concat (map (attempt_reads "instance-00000001") [Ex.attempt1])
     ++ attempt_reads "instance-00000001" Ex.attempt2).
Proof.
  intros i uri d Hi.
  do 9 (destruct i as [| i];
        [vm_compute in Hi; simplify_eq; vm_compute; split_and!; reflexivity |]).
  done.
Qed.

Lemma wf_attempt1 : wf_attempt Ex.attempt1.
Proof.
  split_and!; try done; try (by eexists).
  - repeat constructor. simpl. eexists _, _, _. done.
  - by eexists _, _, _.
Qed.

Lemma wf_attempt2 : wf_attempt Ex.attempt2.
Proof.
  split_and!; try done; try (by eexists).
  - repeat constructor; simpl; eexists _, _, _; done.
  - by eexists _, _, _.
Qed.

(** On the example host the first attempt is disturbed and the second one
    returns 330 ns of current CPU time plus the 1500 ns accumulated. *)
Lemma get_cpu_time_reads_witness :
  ∃ w', driver._get_cpu_time "instance-00000001" Ex.kstat_world
        = (Ok 1830%Z, w').
Proof.
  destruct (get_cpu_time_reads "instance-00000001" Ex.kz_zone Ex.kstat_world)
    as (_ & Hstable & _).
  - vm_compute. reflexivity.
  - apply (Hstable eq_refl [Ex.attempt1] Ex.attempt2).
    + simpl. lia.
    + constructor; [exact wf_attempt1 | constructor].
    + constructor; [vm_compute; discriminate | constructor].
    + exact wf_attempt2.
    + vm_compute. reflexivity.
    + exact kstat_world_served.
Defined.

(** ** Fibre Channel volumes *)

(** Reading the lines of [fcinfo] issues no call. *)
Lemma parse_hba_ports_pure lines hbas hba :
  keeps eq (driver.parse_hba_ports lines hbas hba).
Proof.
  revert hbas hba. induction lines as [| line lines IH]; intros hbas hba.
  - apply keeps_ret. apply _.
  - simpl. unfold driver.last_word.
    repeat first [ apply IH | keeps_step ].
Qed.

(** [_get_fc_hbas] that finds no adapter has run [fcinfo hba-port] and
    nothing else. *)
Lemma get_fc_hbas_none w w1 :
  driver._get_fc_hbas w = (Ok [], w1) →
  trace w1 = trace w ++ [Exec ["/usr/sbin/fcinfo"; "hba-port"]]
  ∧ zones w1 = zones w ∧ inst w1 = inst w.
Proof.
  unfold driver._get_fc_hbas, driver.set_fc_hbas, driver.execute.
  unfold mbind at 1. unfold M_bind at 1. unfold get_driver at 1.
  destruct (_fc_hbas (drv w)) as [[| hba hbas] |].
  - unfold_monad. intros H. run_cases; try done;
      match goal with H : driver.parse_hba_ports _ _ _ _ = _ |- _ =>
        apply parse_hba_ports_pure in H; subst end; done.
  - intros [= _ _].
  - unfold_monad. intros H. run_cases; try done;
      match goal with H : driver.parse_hba_ports _ _ _ _ = _ |- _ =>
        apply parse_hba_ports_pure in H; subst end; done.
Qed.

(** C7 (as amended): a Fibre Channel volume on a host where
    [_get_fc_hbas] finds no HBA port at all is refused at once with "No
    host Fibre Channel initiator found"; the only command run is the
    enumeration [fcinfo hba-port]: no rescan, no URI lookup. *)
Theorem fc_volume_without_hba_fails_fast
    (connection_info : ConnInfo) (data : ConnData) (target_wwn : TargetWwn)
    (w w1 : World) :
  ci_driver_volume_type connection_info = "fibre_channel" →
  ci_data connection_info = Some data →
  cd_target_wwn data = Some target_wwn →
  driver._get_fc_hbas w = (Ok [], w1) →
  driver._suri_from_volume_info connection_info w
  = (Raise (InvalidVolume "No host Fibre Channel initiator found"), w1)
  ∧ trace w1 = trace w ++ [Exec ["/usr/sbin/fcinfo"; "hba-port"]]
  ∧ lookup_attempts (trace w1) = lookup_attempts (trace w).
Proof.
  intros Hty Hdata Hwwn Hhbas.
  destruct (get_fc_hbas_none _ _ Hhbas) as (Htrace & _ & _).
  split_and!.
  - unfold driver._suri_from_volume_info. rewrite Hty, Hdata. simpl.
    unfold mbind at 1. unfold M_bind at 1. unfold mret at 1. unfold M_ret at 1.
    rewrite Hwwn. simpl.
    unfold mbind at 1. unfold M_bind at 1. unfold mret at 1. unfold M_ret at 1.
    unfold mbind at 1. unfold M_bind at 1. rewrite Hhbas. done.
  - done.
  - rewrite Htrace. unfold lookup_attempts.
    rewrite filter_app. rewrite length_app. simpl. lia.
Qed.

(** A host where [fcinfo hba-port] reports no adapter. *)
Lemma fc_volume_without_hba_fails_fast_witness :
  (driver._suri_from_volume_info Ex.fc_volume Ex.fc_none_world).1
  = Raise (InvalidVolume "No host Fibre Channel initiator found")
  ∧ trace (driver._suri_from_volume_info Ex.fc_volume Ex.fc_none_world).2
    = [Exec ["/usr/sbin/fcinfo"; "hba-port"]].
Proof.
  destruct (fc_volume_without_hba_fails_fast Ex.fc_volume
              (mkConnData None None None None (Some 1%Z) None None None
                 (Some (WwnOne "5000d31000a1b2c3")))
              (WwnOne "5000d31000a1b2c3") Ex.fc_none_world
              (driver._get_fc_hbas Ex.fc_none_world).2)
    as (Hrun & Htrace & _).
  - reflexivity.
  - reflexivity.
  - reflexivity.
  - vm_compute. reflexivity.
  - rewrite Hrun. split; [reflexivity |]. cbn [snd]. rewrite Htrace. reflexivity.
Defined.

(** C7 as stated fails on a host whose only initiator port is offline:
    there is no online initiator port, yet the volume is not refused with
    "No host Fibre Channel initiator found": [suriadm lookup-uri] is run
    three times before the attachment fails with another error. *)
Lemma fc_offline_port_is_looked_up :
  (driver._get_fc_wwpns Ex.fc_offline_world).1 = Ok []
  ∧ (driver._suri_from_volume_info Ex.fc_volume Ex.fc_offline_world).1
    = Raise (InvalidVolume
               "Unable to lookup URI of Fibre Channel volume with lun '1'.")
  ∧ lookup_attempts
      (trace (driver._suri_from_volume_info Ex.fc_volume Ex.fc_offline_world).2)
    = 3.
Proof. vm_compute. done. Qed.

(** ** More frames *)

#[local] Instance same_env_preorder : PreOrder same_env.
Proof. split; [by intros w | intros w1 w2 w3; unfold same_env; congruence]. Qed.
#[local] Instance same_zones_preorder : PreOrder same_zones.
Proof. split; [by intros w | intros w1 w2 w3; unfold same_zones; congruence]. Qed.
#[local] Instance same_inst_preorder : PreOrder same_inst.
Proof. split; [by intros w | intros w1 w2 w3; unfold same_inst; congruence]. Qed.

#[local] Instance calls_only_preorder P : PreOrder (calls_only P).
Proof.
  split.
  - intros w. exists []. by rewrite app_nil_r.
  - intros w1 w2 w3 (evs1 & H1 & HP1) (evs2 & H2 & HP2).
    exists (evs1 ++ evs2). rewrite H2, H1, app_assoc.
    split; [done | by apply Forall_app].
Qed.

#[local] Instance both_preorder R1 R2 `{!PreOrder R1, !PreOrder R2} :
  PreOrder (both R1 R2).
Proof.
  split.
  - intros w. split; reflexivity.
  - intros w1 w2 w3 [H1 H2] [H3 H4]. split; by etrans.
Qed.

Lemma keeps_both {A} R1 R2 (m : M A) :
  keeps R1 m → keeps R2 m → keeps (both R1 R2) m.
Proof. intros H1 H2 w r w' H. split; eauto. Qed.

Lemma calls_only_one (P : Event → Prop) ev w :
  P ev → calls_only P w (set_trace (trace w ++ [ev]) w).
Proof. intros HP. exists [ev]. split; [done | by constructor]. Qed.

Lemma calls_only_weaken (P Q : Event → Prop) w w' :
  (∀ ev, P ev → Q ev) → calls_only P w w' → calls_only Q w w'.
Proof.
  intros HPQ (evs & Ht & HP). exists evs. split; [done |].
  eapply Forall_impl; eauto.
Qed.

(** The end of a frame proof: the relation between a world and the world
    a primitive leaves. *)
Ltac solve_frame :=
  lazymatch goal with
  | |- both _ _ _ _ => split; solve_frame
  | |- same_env _ _ => reflexivity
  | |- same_zones _ _ => reflexivity
  | |- same_inst _ _ => reflexivity
  | |- same_committed _ _ _ => reflexivity
  | |- calls_only _ ?w ?w => reflexivity
  | |- calls_only _ _ _ =>
      first [ by (exists []; split; [simpl; by rewrite app_nil_r | constructor])
            | apply calls_only_one; simpl; done ]
  | |- eq _ _ => reflexivity
  end.

(** A primitive keeps a frame by its definition. *)
Ltac keeps_leaf :=
  lazymatch goal with
  | |- keeps _ (call _) => idtac
  | |- keeps _ (ask _ _) => idtac
  | |- keeps _ (probe _ _) => idtac
  | |- keeps _ (put_instance _) => idtac
  | |- keeps _ (put_driver _) => idtac
  | |- keeps _ (zonemgr.put_zone _ _) => idtac
  | |- keeps _ (zonemgr.drop_zone _) => idtac
  end;
  let H := fresh in
  intros ? ? ? H;
  unfold ask in H;
  unfold call, probe, put_instance, put_driver, zonemgr.put_zone,
    zonemgr.drop_zone in H;
  repeat (simpl in *; simplify_eq; try case_match; simplify_eq);
  solve_frame.

Ltac keeps_tac := repeat first [ keeps_step | keeps_leaf ].

(** *** Termination *)

Lemma terminates_ret {A} (a : A) : terminates (mret a).
Proof. by intros w r w' [= <- <-]. Qed.
Lemma terminates_raise {A} e : terminates (@raise A e).
Proof. by intros w r w' [= <- <-]. Qed.

Lemma terminates_bind {A B} (m : M A) (k : A → M B) :
  terminates m → (∀ a, terminates (k a)) → terminates (m ≫= k).
Proof.
  intros Hm Hk w r w'. unfold mbind, M_bind.
  destruct (m w) as [[a | e |] w1] eqn:Hw.
  - apply Hk.
  - by intros [= <- <-].
  - by apply Hm in Hw.
Qed.

Lemma terminates_try_except {A} (m : M A) (h : Exn → M A) :
  terminates m → (∀ e, terminates (h e)) → terminates (try_except m h).
Proof.
  intros Hm Hh w r w'. unfold try_except.
  destruct (m w) as [[a | e |] w1] eqn:Hw.
  - by intros [= <- <-].
  - apply Hh.
  - by apply Hm in Hw.
Qed.

Lemma terminates_try_finally {A} (m : M A) (f : M unit) :
  terminates m → terminates f → terminates (try_finally m f).
Proof.
  intros Hm Hf w r w'. unfold try_finally.
  destruct (m w) as [[a | e |] w1] eqn:Hw;
    [| | by apply Hm in Hw];
    destruct (f w1) as [[[] | e' |] w2] eqn:Hw2;
    intros [= <- <-]; try done; by apply Hf in Hw2.
Qed.

Lemma terminates_with_statement {A} (body : M A) (exit : option Exn → M unit) :
  terminates body → (∀ o, terminates (exit o)) →
  terminates (with_statement body exit).
Proof.
  intros Hm Hf w r w'. unfold with_statement.
  destruct (body w) as [[a | e |] w1] eqn:Hw; [| | by apply Hm in Hw].
  - destruct (exit None w1) as [[[] | e' |] w2] eqn:Hw2;
      intros [= <- <-]; try done; by apply Hf in Hw2.
  - destruct (exit (Some e) w1) as [[[] | e' |] w2] eqn:Hw2;
      intros [= <- <-]; try done; by apply Hf in Hw2.
Qed.

Lemma terminates_subscript {A} key (o : option A) : terminates (subscript key o).
Proof. destruct o; [apply terminates_ret | apply terminates_raise]. Qed.

Ltac terminates_leaf :=
  let H := fresh in
  intros ? ? ? H;
  unfold ask in H;
  unfold call, probe, put_instance, put_driver, zonemgr.put_zone,
    zonemgr.drop_zone, zonemgr.the_zone, zonemgr.find_zone, get_world,
    get_instance, get_driver, get_conf in H;
  repeat (simpl in *; simplify_eq; try case_match; simplify_eq);
  done.

Ltac terminates_step :=
  lazymatch goal with
  | |- terminates (mret _) => apply terminates_ret
  | |- terminates (raise _) => apply terminates_raise
  | |- terminates (_ ≫= _) => apply terminates_bind; [| intros ?]
  | |- terminates (try_except _ _) => apply terminates_try_except; [| intros ?]
  | |- terminates (try_finally _ _) => apply terminates_try_finally
  | |- terminates (with_statement _ _) =>
      apply terminates_with_statement; [| intros ?]
  | |- terminates (subscript _ _) => apply terminates_subscript
  | |- terminates (match ?x with _ => _ end) => destruct x
  | |- terminates (if ?x then _ else _) => destruct x
  | |- terminates (let _ := _ in _) => cbv zeta
  | |- terminates (call _) => terminates_leaf
  | |- terminates (ask _ _) => terminates_leaf
  | |- terminates (probe _ _) => terminates_leaf
  | |- terminates (put_instance _) => terminates_leaf
  | |- terminates (put_driver _) => terminates_leaf
  | |- terminates (zonemgr.put_zone _ _) => terminates_leaf
  | |- terminates (zonemgr.drop_zone _) => terminates_leaf
  | |- terminates (zonemgr.the_zone _) => terminates_leaf
  | |- terminates (zonemgr.find_zone _) => terminates_leaf
  | |- terminates get_world => terminates_leaf
  | |- terminates get_instance => terminates_leaf
  | |- terminates get_driver => terminates_leaf
  | |- terminates get_conf => terminates_leaf
  end.

Ltac terminates_tac := repeat terminates_step.

(** [try: m except Exception: pass] returns, whatever [m] does. *)
Lemma ignore_errors_run (R : World → World → Prop) (m : M unit) w :
  terminates m → keeps R m →
  ∃ w1, driver.ignore_errors m w = (Ok tt, w1) ∧ R w w1.
Proof.
  intros Ht Hk. unfold driver.ignore_errors, try_except.
  destruct (m w) as [[[] | e |] w1] eqn:Hw.
  - exists w1. split; [done | eauto].
  - exists w1. split; [done | eauto].
  - by apply Ht in Hw.
Qed.

(** The small definitions of the driver that the frame proofs see through. *)
Ltac unfold_driver :=
  unfold driver.execute, driver.index, driver.last_word, driver.when,
    driver.ignore_errors, driver.ignore_oserror, driver.log_process_error,
    driver.instance_save, driver.set_system_metadata,
    driver.del_system_metadata, driver._get_flavor, driver._plug_vifs,
    driver._unplug_vifs, driver._get_zone_by_name, driver._get_state,
    zonemgr.get_object, zonemgr.state, zonemgr.brand, zonemgr.name,
    zonemgr.getResourceProperties, zonemgr.getResources, zonemgr.addResource,
    zonemgr.setResourceProperties, zonemgr.removeResources,
    zonemgr.clearResourceProperties, zonemgr.exportConfig,
    zonemgr.editConfig, zonemgr.commitConfig, zonemgr.cancelConfig,
    zonemgr.edit, zonemgr.verb, zonemgr.boot, zonemgr.shutdown, zonemgr.halt,
    zonemgr.suspend, zonemgr.install, zonemgr.uninstall, zonemgr.attach,
    zonemgr.detach, zonemgr.apply, zonemgr.create, zonemgr.delete,
    utils.lookup_resource, utils.lookup_resource_property,
    utils.lookup_resource_property_value,
    ZoneConfig.with_, ZoneConfig.__enter__, ZoneConfig.__exit__,
    ZoneConfig.setprop, ZoneConfig.addresource, ZoneConfig.removeresources,
    ZoneConfig.clear_resource_props.

Ltac keeps_auto :=
  repeat first [ keeps_step | keeps_leaf | progress unfold_driver ].
Ltac terminates_auto :=
  repeat first [ terminates_step | progress unfold_driver ].

(** *** The console service *)

Lemma console_has : keeps console_frame driver._has_vnc_console_service.
Proof.
  unfold console_frame, driver._has_vnc_console_service. unfold_driver.
  keeps_tac.
Qed.

Lemma console_disable : keeps console_frame driver._disable_vnc_console_service.
Proof.
  unfold driver._disable_vnc_console_service.
  repeat first [ apply console_has | keeps_step ];
    unfold console_frame; unfold_driver; keeps_tac.
Qed.

Lemma console_delete : keeps console_frame driver._delete_vnc_console_service.
Proof.
  unfold driver._delete_vnc_console_service.
  repeat first [ apply console_has | apply console_disable | keeps_step ];
    unfold console_frame; unfold_driver; keeps_tac.
Qed.

Lemma console_has_terminates : terminates driver._has_vnc_console_service.
Proof. unfold driver._has_vnc_console_service. unfold_driver. terminates_tac. Qed.

Lemma console_disable_terminates : terminates driver._disable_vnc_console_service.
Proof.
  unfold driver._disable_vnc_console_service.
  repeat first [ apply console_has_terminates | terminates_step ];
    unfold_driver; terminates_tac.
Qed.

Lemma console_delete_terminates : terminates driver._delete_vnc_console_service.
Proof.
  unfold driver._delete_vnc_console_service.
  repeat first [ apply console_has_terminates
               | apply console_disable_terminates | terminates_step ];
    unfold_driver; terminates_tac.
Qed.

(** ** destroy *)

(** C10: while a resize is being reverted and the saved VM state is
    "resized", [destroy] returns at once: no call is issued and nothing in
    the world changes (console service, zone, configuration, volumes). *)
Theorem destroy_while_reverting_resize_does_nothing (w : World) :
  i_task_state (inst w) = Some RESIZE_REVERTING →
  i_system_metadata (inst w) !! "old_vm_state" = Some RESIZED →
  driver.destroy w = (Ok tt, w).
Proof.
  intros Hts Hold. unfold driver.destroy.
  unfold mbind, M_bind, get_instance, subscript, mret, M_ret.
  rewrite Hts. rewrite bool_decide_eq_true_2 by done.
  rewrite Hold. rewrite bool_decide_eq_true_2 by done. done.
Qed.

(** The zone of the example host exists and runs, and is left alone. *)
Lemma destroy_while_reverting_resize_does_nothing_witness :
  driver.destroy Ex.reverting = (Ok tt, Ex.reverting)
  ∧ zones Ex.reverting !! "instance-00000001" = Some Ex.kz_zone.
Proof.
  split.
  - apply destroy_while_reverting_resize_does_nothing; reflexivity.
  - reflexivity.
Defined.

(** Resolving a zone that does not exist gives [None]. *)
Lemma get_zone_by_name_absent name w :
  zones w !! name = None →
  (faults (env w) (now w) (RadGetZone name) = None
   ∨ ∃ t, faults (env w) (now w) (RadGetZone name) = Some (NotFoundError t)) →
  driver._get_zone_by_name name w
  = (Ok None, set_trace (trace w ++ [RadGetZone name]) w).
Proof.
  intros Hz Hf. unfold driver._get_zone_by_name. unfold_driver.
  unfold_zonemgr. unfold_monad. simpl.
  destruct Hf as [-> | [t ->]]; [simpl; by rewrite Hz | done].
Qed.

(** C4 (as amended): [destroy] of an instance whose zone does not exist
    returns normally, provided that the hand-back of an evacuated instance
    (the [evac_from] marker with no task state), when it applies, can save
    the Instance, and that the system metadata records [old_vm_state]
    while a resize is being reverted.  Nothing is asked of zonemgr but
    the lookup: only the console service commands, the lookup and the
    save are issued, and the store is as before. *)
Theorem destroy_of_absent_zone_returns (w : World) :
  zones w !! i_name (inst w) = None →
  (∀ n, faults (env w) n (RadGetZone (i_name (inst w))) = None
        ∨ ∃ t, faults (env w) n (RadGetZone (i_name (inst w)))
               = Some (NotFoundError t)) →
  (∀ n, faults (env w) n InstanceSave = None) →
  (i_task_state (inst w) = Some RESIZE_REVERTING →
   is_Some (i_system_metadata (inst w) !! "old_vm_state")) →
  ∃ w', driver.destroy w = (Ok tt, w')
        ∧ zones w' = zones w
        ∧ calls_only (absent_zone_call (i_name (inst w))) w w'.
Proof.
  intros Hz Hlookup Hsave Hmeta. unfold driver.destroy.
  unfold mbind at 1. unfold M_bind at 1. unfold get_instance at 1.
  unfold mbind at 1. unfold M_bind at 1.
  assert (∃ w', (driver.ignore_errors
                   (driver._has_vnc_console_service
                    ≫= λ has, driver.when has
                                (driver._disable_vnc_console_service
                                 ≫= λ _, driver._delete_vnc_console_service))) w
                = (Ok tt, w')
                ∧ driver._get_zone_by_name (i_name (inst w)) w'
                  = (Ok None, set_trace (trace w' ++ [RadGetZone (i_name (inst w))]) w')
                ∧ zones w' = zones w
                ∧ calls_only (absent_zone_call (i_name (inst w))) w
                    (set_trace (trace w' ++ [RadGetZone (i_name (inst w))]) w'))
    as (wc & Hconsole & Hget & Hzc & Hcc).
  { match goal with |- context [driver.ignore_errors ?m w] =>
      destruct (ignore_errors_run console_frame m w)
        as (w1 & -> & He & Hzs & Hi & Hc) end.
    - repeat first [ apply console_has_terminates
                   | apply console_disable_terminates
                   | apply console_delete_terminates
                   | progress unfold driver.when | terminates_step ].
    - repeat first [ apply console_has | apply console_disable
                   | apply console_delete
                   | progress unfold driver.when | keeps_step ].
    - exists w1. split_and!; [done | | done |].
      + apply get_zone_by_name_absent;
          [by rewrite Hzs | rewrite He; apply Hlookup].
      + etrans; [eapply calls_only_weaken; [| exact Hc]; by left |].
        apply calls_only_one. right. by left. }
  assert (∃ w',
            (driver.ignore_errors
               (driver._has_vnc_console_service
                ≫= λ has, driver.when has
                            (driver._disable_vnc_console_service
                             ≫= λ _, driver._delete_vnc_console_service))
             ≫= λ _, driver._get_zone_by_name (i_name (inst w))
                      ≫= λ zone : option string,
                           match zone with
                           | Some zone0 =>
                               driver.ignore_errors
                                 (driver._get_state zone0
                                  ≫= λ state,
                                       driver.when (bool_decide (state = RUNNING))
                                         (driver._power_off "HARD")
                                       ≫= λ _, driver._get_state zone0
                                       ≫= λ state0,
                                            driver.when
                                              (bool_decide (state0 = SHUTDOWN))
                                              driver._uninstall
                                            ≫= λ _, driver._get_state zone0
                                            ≫= λ state1,
                                                 driver.when
                                                   (bool_decide (state1 = NOSTATE))
                                                   driver._delete_config
                                                 ≫= λ _,
                                                      driver.when
                                                        (i_config_drive (inst w))
                                                        (driver.ignore_oserror
                                                           (call
                                                              (OsRemove
                                                                 (driver._get_configdrive_path
                                                                    (inst w)))))
                                                      ≫= λ _, driver.delete_instance_dir)
                               ≫= λ _, get_instance
                               ≫= λ instance,
                                    if bool_decide
                                         (i_task_state instance
                                          = Some RESIZE_REVERTING)
                                    then mret ()
                                    else driver.delete_leftover_volumes
                                           ["old_instance_volid";
                                            "new_instance_volid"]
                           | None => mret ()
                           end) w = (Ok tt, w')
            ∧ zones w' = zones w
            ∧ calls_only (absent_zone_call (i_name (inst w))) w w')
    as Hmain.
  { eexists. unfold mbind at 1. unfold M_bind at 1. rewrite Hconsole.
    unfold mbind at 1. unfold M_bind at 1. rewrite Hget.
    split_and!; [done | done | done]. }
  (* the revert-resize guard *)
  destruct (bool_decide (i_task_state (inst w) = Some RESIZE_REVERTING)) eqn:Hts.
  - apply bool_decide_eq_true_1 in Hts.
    destruct (Hmeta Hts) as [old Hold]. rewrite Hold.
    unfold subscript. unfold mbind at 1. unfold M_bind at 1.
    unfold mret at 1 2. unfold M_ret at 1 2.
    case_bool_decide; [exists w; split_and!; [done | done | reflexivity] |].
    rewrite Hts.
    destruct (i_system_metadata (inst w) !! "evac_from") as [evac |];
      exact Hmain.
  - unfold mret at 1. unfold M_ret at 1. cbv beta iota.
    destruct (i_system_metadata (inst w) !! "evac_from") as [evac |] eqn:Hevac;
      [| exact Hmain].
    destruct (i_task_state (inst w)) as [ts |] eqn:Hts'; [exact Hmain |].
    (* the evacuation hand-back *)
    clear Hmain Hconsole Hget.
    unfold driver.del_system_metadata, driver.instance_save.
    unfold mbind, M_bind, put_instance, get_instance, subscript, call,
      mret, M_ret.
    simpl. rewrite Hevac. simpl. rewrite Hsave.
    eexists. split_and!; [done | done |].
    exists [InstanceSave]. split; [done |].
    constructor; [| done]. right. by right.
Qed.

(** No zone on the example host: a second [destroy] returns. *)
Lemma destroy_of_absent_zone_returns_witness :
  ∃ w', driver.destroy Ex.empty_world = (Ok tt, w')
        ∧ zones w' = zones Ex.empty_world
        ∧ calls_only (absent_zone_call "instance-00000001") Ex.empty_world w'.
Proof.
  apply (destroy_of_absent_zone_returns Ex.empty_world).
  - reflexivity.
  - intros n. left. reflexivity.
  - intros n. reflexivity.
  - intros H. vm_compute in H. discriminate.
Defined.

(** C4 as stated fails for an instance handed back after an evacuation:
    the zone does not exist, [destroy] leaves through its evacuation exit
    before it looks the zone up, and the failure of [instance.save()]
    reaches the caller. *)
Lemma destroy_of_absent_zone_can_raise :
  zones Ex.save_fails !! i_name (inst Ex.save_fails) = None
  ∧ (driver.destroy Ex.save_fails).1
    = Raise (OtherError "DBConnectionError" "database is down")
  ∧ trace (driver.destroy Ex.save_fails).2 = [InstanceSave].
Proof. vm_compute. done. Qed.

(** ** suspend *)

Lemma bind_run {A B} (m : M A) (k : A → M B) w r w' :
  (m ≫= k) w = (r, w') →
  (∃ a w1, m w = (Ok a, w1) ∧ k a w1 = (r, w'))
  ∨ (∃ e, m w = (Raise e, w') ∧ r = Raise e)
  ∨ (m w = (Diverge, w') ∧ r = Diverge).
Proof.
  unfold mbind, M_bind. destruct (m w) as [[a | e |] w1].
  - intros H. left. eauto.
  - intros [= <- <-]. right. left. eauto.
  - intros [= <- <-]. right. right. eauto.
Qed.

Lemma set_suspend_before : keeps (calls_only before_suspend) driver._set_suspend.
Proof. unfold driver._set_suspend. keeps_auto. Qed.

(** Ensuring the suspend resource neither suspends nor unplugs. *)
Lemma ensure_suspend_resource_before zone :
  keeps (calls_only before_suspend) (driver.ensure_suspend_resource zone).
Proof.
  unfold driver.ensure_suspend_resource.
  repeat first [ apply set_suspend_before | keeps_step | keeps_leaf
               | progress unfold_driver ].
Qed.

Lemma get_zone_by_name_run name w r w' :
  driver._get_zone_by_name name w = (r, w') →
  w' = set_trace (trace w ++ [RadGetZone name]) w
  ∧ ∀ zone, r = Ok (Some zone) → zone = name.
Proof.
  unfold driver._get_zone_by_name. unfold_driver. unfold_zonemgr. unfold_monad.
  intros H. run_cases; split; try done; by intros ? [= <-].
Qed.

Lemma zone_brand_pure zone : keeps eq (zonemgr.brand zone).
Proof. keeps_auto. Qed.

Lemma get_state_pure zone : keeps eq (driver._get_state zone).
Proof. keeps_auto. Qed.

(** C9 (as amended): in every run of [suspend], whatever is issued before
    the zone is suspended (the lookups and the edit session that ensure
    the suspend resource) contains neither a suspend nor an unplug; the
    suspend is issued to zonemgr next; the interfaces are unplugged after
    it, and only when it succeeded. *)
Theorem suspend_is_issued_before_unplug (w : World) (r : Res unit) (w' : World) :
  driver.suspend w = (r, w') →
  ∃ pre, Forall before_suspend pre
    ∧ ((trace w' = trace w ++ pre ∧ r ≠ Ok tt)
       ∨ (trace w' = trace w ++ pre ++ [ZSuspend (i_name (inst w))]
          ∧ ∃ reason, r = Raise (InstanceSuspendFailure reason))
       ∨ (trace w' = trace w ++ pre ++ [ZSuspend (i_name (inst w)); UnplugVifs]
          ∧ r = Ok tt)).
Proof.
  unfold driver.suspend. unfold mbind at 1. unfold M_bind at 1.
  unfold get_instance at 1. cbv zeta.
  intros H. apply bind_run in H as [(oz & w1 & Hget & H) | [(e & Hget & ->) | [Hget ->]]];
    apply get_zone_by_name_run in Hget as [-> Hname].
  2: { exists [RadGetZone (i_name (inst w))]. split; [by repeat constructor |].
       left. done. }
  2: { exists [RadGetZone (i_name (inst w))]. split; [by repeat constructor |].
       left. done. }
  set (name := i_name (inst w)) in *.
  assert (∀ (r0 : Res unit) w0,
            trace w0 = trace w ++ [RadGetZone name] → r0 ≠ Ok tt →
            ∃ pre, Forall before_suspend pre
              ∧ ((trace w0 = trace w ++ pre ∧ r0 ≠ Ok tt)
                 ∨ (trace w0 = trace w ++ pre ++ [ZSuspend name]
                    ∧ ∃ reason, r0 = Raise (InstanceSuspendFailure reason))
                 ∨ (trace w0 = trace w ++ pre ++ [ZSuspend name; UnplugVifs]
                    ∧ r0 = Ok tt))) as Hearly.
  { intros r0 w0 Ht Hr. exists [RadGetZone name].
    split; [by repeat constructor | by left]. }
  destruct oz as [zone |]; [| injection H as <- <-; by apply Hearly].
  specialize (Hname zone eq_refl). subst zone.
  apply bind_run in H as [(b & w2 & Hb & H) | [(e & Hb & ->) | [Hb ->]]];
    apply zone_brand_pure in Hb; subst; [| by apply Hearly ..].
  destruct (bool_decide (b ≠ ZONE_BRAND_SOLARIS_KZ));
    [injection H as <- <-; by apply Hearly |].
  apply bind_run in H as [(st & w2 & Hst & H) | [(e & Hst & ->) | [Hst ->]]];
    apply get_state_pure in Hst; subst; [| by apply Hearly ..].
  destruct (bool_decide (st ≠ RUNNING));
    [injection H as <- <-; by apply Hearly |].
  clear Hearly.
  set (w1 := set_trace (trace w ++ [RadGetZone name]) w) in *.
  (* the try block *)
  unfold try_except, driver.suspend_zone in H.
  destruct ((driver.ensure_suspend_resource name
             ≫= λ _, zonemgr.suspend name ≫= λ _, driver._unplug_vifs) w1)
    as [r2 w2] eqn:Htry.
  apply bind_run in Htry
    as [([] & wa & Hens & Htry) | [(e & Hens & ->) | [Hens ->]]];
    apply ensure_suspend_resource_before in Hens as (evs & Hevs & Hbefore).
  2: { injection H as <- <-.
       exists (RadGetZone name :: evs). split; [by constructor |].
       left. split; [| done]. rewrite Hevs. simpl. by rewrite <- app_assoc. }
  2: { injection H as <- <-.
       exists (RadGetZone name :: evs). split; [by constructor |].
       left. split; [| done]. rewrite Hevs. simpl. by rewrite <- app_assoc. }
  exists (RadGetZone name :: evs). split; [by constructor |].
  assert (trace wa = trace w ++ RadGetZone name :: evs) as Hwa.
  { rewrite Hevs. simpl. by rewrite <- app_assoc. }
  unfold zonemgr.suspend, zonemgr.verb, zonemgr.the_zone, zonemgr.put_zone,
    driver._unplug_vifs, probe, call in Htry.
  unfold mbind, M_bind in Htry.
  destruct (faults (env wa) (now wa) (ZSuspend name)).
  { injection Htry as <- <-. injection H as <- <-.
    right. left. simpl. rewrite Hwa. rewrite <- app_assoc. eauto. }
  simpl in Htry.
  destruct (zones wa !! name).
  - simpl in Htry. injection Htry as <- <-. injection H as <- <-.
    right. right. simpl. rewrite Hwa. rewrite <- !app_assoc. done.
  - injection Htry as <- <-. injection H as <- <-.
    right. left. simpl. rewrite Hwa. rewrite <- app_assoc. eauto.
Qed.

(** C9 as stated fails: on the example host, with a running kernel zone
    and every call succeeding, the zone is suspended at position 6 of the
    trace and the interfaces are unplugged after it, at position 7. *)
Lemma suspend_precedes_unplug_on_example :
  let run := driver.suspend Ex.world in
  run.1 = Ok tt
  ∧ trace run.2
    = [RadGetZone "instance-00000001";
       ZGetResources "instance-00000001" (Resource_ "suspend");
       RadGetZone "instance-00000001";
       ZEditConfig "instance-00000001";
       ZAddResource "instance-00000001"
         (mkResource "suspend"
            [Property_ "path" "/var/share/zones/SYSsuspend/%{zonename}"]);
       ZCommitConfig "instance-00000001";
       ZSuspend "instance-00000001";
       UnplugVifs]
  ∧ position (ZSuspend "instance-00000001") (trace run.2) = Some 6
  ∧ position UnplugVifs (trace run.2) = Some 7
  ∧ ¬ (∃ i j, position UnplugVifs (trace run.2) = Some i
              ∧ position (ZSuspend "instance-00000001") (trace run.2) = Some j
              ∧ i < j).
Proof.
  vm_compute. split_and!; try done.
  intros (i & j & [= <-] & [= <-] & Hlt). lia.
Qed.

Lemma suspend_is_issued_before_unplug_witness :
  ∃ pre, Forall before_suspend pre
    ∧ ((trace (driver.suspend Ex.world).2 = trace Ex.world ++ pre
        ∧ (driver.suspend Ex.world).1 ≠ Ok tt)
       ∨ (trace (driver.suspend Ex.world).2
          = trace Ex.world ++ pre ++ [ZSuspend (i_name (inst Ex.world))]
          ∧ ∃ reason,
              (driver.suspend Ex.world).1 = Raise (InstanceSuspendFailure reason))
       ∨ (trace (driver.suspend Ex.world).2
          = trace Ex.world ++ pre
            ++ [ZSuspend (i_name (inst Ex.world)); UnplugVifs]
          ∧ (driver.suspend Ex.world).1 = Ok tt)).
Proof.
  apply (suspend_is_issued_before_unplug Ex.world).
  by destruct (driver.suspend Ex.world).
Defined.

(** ** Spawn: the flavor is validated first *)

(** C5: a spawn of a kernel-zone instance whose memory is not a multiple
    of 256 MB raises [MemoryAlignmentIncorrect], and it does so before
    anything else happens: the world it leaves is the one it found, so no
    call was issued (the trace is the same) and no zone configuration was
    created (the zones are the same). *)
Theorem spawn_rejects_unaligned_kernel_zone (fuel : nat)
    (container_format : string) (network_info : list string)
    (block_device_info : option BlockDeviceInfo) (power_on : bool) (w : World) :
  driver.flavor_brand (i_flavor (inst w)) = ZONE_BRAND_SOLARIS_KZ →
  (i_memory_mb (inst w) `mod` 256 ≠ 0)%Z →
  driver.spawn fuel container_format network_info block_device_info power_on w
  = (Raise (MemoryAlignmentIncorrect (fl_name (i_flavor (inst w)))
              (pretty (i_memory_mb (inst w))) "256"),
     w).
Proof.
  intros Hbrand Hmem.
  unfold driver.spawn.
  unfold mbind at 1. unfold M_bind at 1. unfold get_instance at 1. cbv beta iota.
  unfold mbind at 1. unfold M_bind at 1.
  assert (driver._validate_flavor w
          = (Raise (MemoryAlignmentIncorrect (fl_name (i_flavor (inst w)))
                      (pretty (i_memory_mb (inst w))) "256"), w)) as ->; [| done].
  unfold driver._validate_flavor, driver._get_flavor.
  unfold_monad. rewrite Hbrand.
  rewrite bool_decide_eq_true_2 by done.
  by rewrite bool_decide_eq_true_2 by done.
Qed.

Lemma spawn_rejects_unaligned_kernel_zone_witness :
  driver.spawn 10 "ovf" [] (Some (mkBlockDeviceInfo (Some "c1d0") (Some [])))
    true Ex.unaligned
  = (Raise (MemoryAlignmentIncorrect "kz.medium" "2000" "256"), Ex.unaligned).
Proof.
  apply (spawn_rejects_unaligned_kernel_zone 10 "ovf" []
           (Some (mkBlockDeviceInfo (Some "c1d0") (Some []))) true Ex.unaligned).
  - reflexivity.
  - vm_compute. discriminate.
Defined.

(** ** Resize: a smaller root disk *)

(** C6 (as amended): a resize to a smaller root disk is always rejected,
    and before any call is issued: the trace and the zones are left as
    they were.  It is rejected with [ResizeError] when the two brand
    checks pass, and with [MigrationPreCheckError] when one of them
    fails, because the brand checks come first. *)
Theorem smaller_root_disk_is_rejected (fuel : nat) (dest : string)
    (flavor : Flavor) (block_device_info : option BlockDeviceInfo) (w : World) :
  (fl_root_gb flavor < i_root_gb (inst w))%Z →
  let brand := driver.flavor_brand (i_flavor (inst w)) in
  let samehost := dest = conf_my_ip (CONF (env w)) in
  let brand_checks_pass :=
    (brand = ZONE_BRAND_SOLARIS_KZ ∨ samehost)
    ∧ dict_get "zonecfg:brand" (fl_extra_specs flavor) = Some brand in
  let run :=
    driver.migrate_disk_and_power_off fuel dest flavor block_device_info w in
  trace run.2 = trace w
  ∧ zones run.2 = zones w
  ∧ (brand_checks_pass →
     run.1 = Raise (ResizeError "Unable to resize to a smaller boot volume."))
  ∧ (¬ brand_checks_pass →
     ∃ reason, run.1 = Raise (MigrationPreCheckError reason)).
Proof.
  intros Hsmaller brand samehost brand_checks_pass run.
  subst run brand_checks_pass samehost brand.
  unfold driver.migrate_disk_and_power_off, driver.get_host_ip_addr,
    driver.when, driver.set_system_metadata, driver._get_flavor.
  unfold_monad.
  destruct (decide (dest = conf_my_ip (CONF (env w)))) as [Hsame | Hother].
  - rewrite (bool_decide_eq_true_2 _ Hsame). simpl.
    rewrite andb_false_r.
    case_bool_decide as Hchange; simpl.
    + split_and!; try done.
      * intros [_ Hb]. by rewrite Hb in Hchange.
      * eauto.
    + rewrite bool_decide_eq_true_2 by lia. simpl.
      split_and!; try done. intros Hno. destruct Hno.
      split; [by right |]. first [done | by symmetry | apply dec_stable; congruence].
  - rewrite (bool_decide_eq_false_2 _ Hother). simpl.
    rewrite andb_true_r.
    case_bool_decide as Hkz; simpl.
    + split_and!; try done.
      * intros [[Hb | Hs] _]; done.
      * eauto.
    + case_bool_decide as Hchange; simpl.
      * split_and!; try done.
        -- intros [_ Hb]. by rewrite Hb in Hchange.
        -- eauto.
      * rewrite bool_decide_eq_true_2 by lia. simpl.
        split_and!; try done. intros Hno. destruct Hno.
        split; [by left |]. first [done | by symmetry | apply dec_stable; congruence].
Qed.

Lemma smaller_root_disk_is_rejected_witness :
  let run :=
    driver.migrate_disk_and_power_off 10 Ex.other_host Ex.kz_small
      (Some (mkBlockDeviceInfo (Some "c1d0") (Some []))) Ex.world in
  trace run.2 = [] ∧ zones run.2 = zones Ex.world
  ∧ run.1 = Raise (ResizeError "Unable to resize to a smaller boot volume.").
Proof.
  destruct (smaller_root_disk_is_rejected 10 Ex.other_host Ex.kz_small
              (Some (mkBlockDeviceInfo (Some "c1d0") (Some []))) Ex.world)
    as (Htrace & Hzones & Hresize & _).
  - vm_compute. reflexivity.
  - split_and!; [exact Htrace | exact Hzones |].
    apply Hresize. split; [by left | reflexivity].
Defined.

(** C6 as stated fails: a native zone resized to another host with a
    smaller root disk is rejected, before any call, but not with a resize
    error: the brand check comes first and raises
    [MigrationPreCheckError]. *)
Lemma smaller_root_disk_of_native_zone_is_a_precheck_error :
  let run :=
    driver.migrate_disk_and_power_off 10 Ex.other_host Ex.native_small
      (Some (mkBlockDeviceInfo (Some "c1d0") (Some []))) Ex.native_world in
  (fl_root_gb Ex.native_small < i_root_gb (inst Ex.native_world))%Z
  ∧ run.1 = Raise (MigrationPreCheckError
                     "'solaris' branded zones do not currently support resize to a different host.")
  ∧ (∀ reason, run.1 ≠ Raise (ResizeError reason))
  ∧ trace run.2 = [].
Proof. vm_compute. split_and!; done. Qed.

(** ** Resize: the cleanup of a failed finish *)

Lemma bind_ok {A B} (m : M A) (k : A → M B) w a w1 :
  m w = (Ok a, w1) → (m ≫= k) w = k a w1.
Proof. unfold mbind, M_bind. by intros ->. Qed.







(** * Further properties of the embedded code *)

(** ** utils.py and zone_config.py *)

Lemma single_line_app a b :
  single_line (a +:+ b) = single_line a && single_line b.
Proof.
  induction a as [| c a IH]; simpl; [done |].
  rewrite IH. by rewrite andb_assoc.
Qed.

Lemma single_line_replace_newline s :
  single_line (py.replace_newline s) = true.
Proof.
  induction s as [| c s IH]; simpl; [done |].
  case_bool_decide as Hc.
  - rewrite single_line_app. by rewrite IH.
  - simpl. rewrite IH. by rewrite bool_decide_eq_false_2.
Qed.

Lemma single_line_join sep l :
  single_line sep = true →
  Forall (λ s, single_line s = true) l →
  single_line (py.join sep l) = true.
Proof.
  intros Hsep. induction 1 as [| s l Hs Hl IH]; simpl; [done |].
  destruct l as [| s' l']; [done |].
  rewrite !single_line_app, Hs, Hsep. simpl. exact IH.
Qed.

(** [zonemgr_strerror] keeps its promise of a single line: for an
    [ObjectError] that carries an error code, the text it builds has no
    newline, whatever the standard error of the command was, as long as
    the code and the message of the payload have none. *)
Theorem zonemgr_strerror_is_a_single_line (text : string) (payload : Payload) :
  pl_code payload ≠ EC_NONE →
  single_line (str_ErrorCode (pl_code payload)) = true →
  (∀ s, pl_str payload = Some s → single_line s = true) →
  single_line (utils.zonemgr_strerror (ObjectError text payload)) = true.
Proof.
  intros Hcode Hc Hstr. unfold utils.zonemgr_strerror.
  rewrite bool_decide_eq_false_2 by done.
  apply single_line_join; [done |].
  destruct (pl_stderr payload) as [stderr |], (pl_str payload) as [s |] eqn:Hs;
    repeat case_match;
    repeat (apply Forall_app; split); repeat constructor;
    auto using single_line_replace_newline.
Qed.

Lemma zonemgr_strerror_is_a_single_line_witness :
  single_line Ex.two_lines = false
  ∧ utils.zonemgr_strerror
      (ObjectError "zonecfg failed"
         (mkPayload EC_RESOURCE_ALREADY_EXISTS (Some "device exists")
            (Some Ex.two_lines)))
    = "RESOURCE_ALREADY_EXISTS: device exists: zonecfg: invalid property: zonecfg: not committed"
  ∧ single_line
      (utils.zonemgr_strerror
         (ObjectError "zonecfg failed"
            (mkPayload EC_RESOURCE_ALREADY_EXISTS (Some "device exists")
               (Some Ex.two_lines))))
    = true.
Proof.
  split_and!; [reflexivity | reflexivity |].
  apply (zonemgr_strerror_is_a_single_line "zonecfg failed"
           (mkPayload EC_RESOURCE_ALREADY_EXISTS (Some "device exists")
              (Some Ex.two_lines))).
  - discriminate.
  - reflexivity.
  - intros s [= <-]. reflexivity.
Defined.

(** An edit session that zonemgr refuses to open runs nothing: the body
    is not run, nothing is committed or cancelled, and what the caller
    gets is not the error of [editConfig] but the [AttributeError] of
    the handler of [__enter__]. *)
Theorem unopened_session_runs_nothing {A} (zone : string)
    (body : ZoneConfig.t → M A) (w : World) (e : Exn) (w1 : World) :
  zonemgr.editConfig zone w = (Raise e, w1) →
  ZoneConfig.with_ zone body w
  = (Raise (AttributeError
              "module 'nova_solaris.solariszones.utils' has no attribute 'utils'"),
     w1)
  ∧ trace w1 = trace w ++ [ZEditConfig zone].
Proof.
  intros Hedit. split.
  - unfold ZoneConfig.with_, ZoneConfig.__enter__, ZoneConfig.__init__.
    unfold_monad. simpl. by rewrite Hedit.
  - revert Hedit. unfold_zonemgr. unfold_monad. intros H. run_cases; done.
Qed.

Lemma unopened_session_runs_nothing_witness :
  (ZoneConfig.with_ "instance-00000001" Ex.four_cpus Ex.edit_fails).1
  = Raise (AttributeError
             "module 'nova_solaris.solariszones.utils' has no attribute 'utils'")
  ∧ trace (ZoneConfig.with_ "instance-00000001" Ex.four_cpus Ex.edit_fails).2
    = [ZEditConfig "instance-00000001"].
Proof.
  destruct (unopened_session_runs_nothing "instance-00000001" Ex.four_cpus
              Ex.edit_fails
              (ObjectError "busy"
                 (mkPayload (EC_OTHER "CONFIG_IO_ERROR") None None))
              (zonemgr.editConfig "instance-00000001" Ex.edit_fails).2)
    as [Hrun Htrace].
  - vm_compute. reflexivity.
  - rewrite Hrun. split; [reflexivity |].
    change (trace (zonemgr.editConfig "instance-00000001" Ex.edit_fails).2
            = [ZEditConfig "instance-00000001"]).
    rewrite Htrace. reflexivity.
Defined.

(** When the body of an edit session returns and the commit fails,
    [__exit__] cancels the session: [cancelConfig] is the next and last
    call, and the error of the commit is what the caller gets once the
    cancel has returned. *)
Theorem failed_commit_is_cancelled {A} (zone : string)
    (body : ZoneConfig.t → M A) (w0 w1 w2 w3 : World) (zc : ZoneConfig.t)
    (a : A) (e : Exn) :
  ZoneConfig.__enter__ (ZoneConfig.__init__ zone) w0 = (Ok zc, w1) →
  body zc w1 = (Ok a, w2) →
  zonemgr.commitConfig zone w2 = (Raise e, w3) →
  ∃ r w4,
    ZoneConfig.with_ zone body w0 = (r, w4)
    ∧ trace w4 = trace w3 ++ [ZCancelConfig zone]
    ∧ ((zonemgr.cancelConfig zone w3).1 = Ok tt → r = Raise e).
Proof.
  intros Henter Hbody Hcommit.
  destruct (enter_run _ _ _ _ Henter) as (-> & _ & _).
  destruct (zonemgr.cancelConfig zone w3) as [rc w4] eqn:Hcancel.
  destruct (cancelConfig_run _ _ _ _ Hcancel) as [Htrace _].
  exists (match rc with Ok _ => Raise e | Raise e' => Raise e'
                   | Diverge => Diverge end), w4.
  split_and!; [| done | by simpl; intros ->].
  unfold ZoneConfig.with_. rewrite (bind_ok _ _ _ _ _ Henter).
  unfold with_statement. rewrite Hbody.
  unfold ZoneConfig.__exit__, try_except. simpl. rewrite Hcommit.
  unfold mbind, M_bind. rewrite Hcancel. by destruct rc.
Qed.

Lemma failed_commit_is_cancelled_witness :
  ∃ w4,
    ZoneConfig.with_ "instance-00000001" Ex.four_cpus Ex.commit_fails
    = (Raise (ObjectError "invalid"
                (mkPayload (EC_OTHER "COMMAND_ERROR") None None)), w4)
    ∧ trace w4
      = [ZEditConfig "instance-00000001";
         ZGetResourceProperties "instance-00000001"
           (Resource_ "virtual-cpu") ["ncpus"];
         ZSetResourceProperties "instance-00000001"
           (Resource_ "virtual-cpu") [Property_ "ncpus" "4"];
         ZCommitConfig "instance-00000001";
         ZCancelConfig "instance-00000001"].
Proof.
  destruct (failed_commit_is_cancelled "instance-00000001" Ex.four_cpus
              Ex.commit_fails
              (ZoneConfig.__enter__ (ZoneConfig.__init__ "instance-00000001")
                 Ex.commit_fails).2
              (Ex.four_cpus (ZoneConfig.mk "instance-00000001" true)
                 (ZoneConfig.__enter__
                    (ZoneConfig.__init__ "instance-00000001")
                    Ex.commit_fails).2).2
              (zonemgr.commitConfig "instance-00000001"
                 (Ex.four_cpus (ZoneConfig.mk "instance-00000001" true)
                    (ZoneConfig.__enter__
                       (ZoneConfig.__init__ "instance-00000001")
                       Ex.commit_fails).2).2).2
              (ZoneConfig.mk "instance-00000001" true) tt
              (ObjectError "invalid"
                 (mkPayload (EC_OTHER "COMMAND_ERROR") None None)))
    as (r & w4 & Hrun & Htrace & Hr).
  - vm_compute. reflexivity.
  - vm_compute. reflexivity.
  - vm_compute. reflexivity.
  - exists w4. rewrite Hrun, Htrace. split.
    + f_equal. apply Hr. vm_compute. reflexivity.
    + vm_compute. reflexivity.
Defined.

(** ** Storage: initiators and URI lookups *)

Lemma online_run field get hbas w r w' :
  driver.online field get hbas w = (r, w') →
  w' = w
  ∧ ∀ l, r = Ok l → Forall2 (λ v hba, get hba = Some v) l (filter hba_online hbas).
Proof.
  revert r w'. induction hbas as [| hba hbas IH]; intros r w'; simpl.
  - intros [= <- <-]. split; [done |]. intros l [= <-]. constructor.
  - unfold_monad.
    destruct (hba_port_state hba) as [state |] eqn:Hstate; simpl.
    2: { intros [= <- <-]. split; [done |]. intros l. discriminate. }
    case_bool_decide as Honline.
    + subst state.
      destruct (get hba) as [v |] eqn:Hget; simpl.
      2: { intros [= <- <-]. split; [done |]. intros l. discriminate. }
      destruct (driver.online field get hbas w) as [[rest | e |] w1] eqn:Hrest;
        destruct (IH _ _ eq_refl) as [-> Hl].
      * intros [= <- <-]. split; [done |]. intros l [= <-].
        rewrite filter_cons_True by done. constructor; [done |]. by apply Hl.
      * intros [= <- <-]. split; [done |]. intros l. discriminate.
      * intros [= <- <-]. split; [done |]. intros l. discriminate.
    + intros Hrun. destruct (IH _ _ Hrun) as [-> Hl]. split; [done |].
      intros l Hr. rewrite filter_cons_False; [by apply Hl |].
      unfold hba_online. rewrite Hstate. congruence.
Qed.

(** With the HBA ports cached, [_get_fc_wwnns] and [_get_fc_wwpns] run
    no command and change nothing, and what they return are the node
    names and the port names of the ports that are online, and of these
    only, in the order of the ports. *)
Theorem fc_names_are_those_of_online_ports (hbas : list Hba) (w : World) :
  _fc_hbas (drv w) = Some hbas →
  hbas ≠ [] →
  (∀ r w', driver._get_fc_wwnns w = (r, w') →
     w' = w
     ∧ ∀ l, r = Ok l →
         Forall2 (λ v hba, hba_node_name hba = Some v) l (filter hba_online hbas))
  ∧ (∀ r w', driver._get_fc_wwpns w = (r, w') →
       w' = w
       ∧ ∀ l, r = Ok l →
           Forall2 (λ v hba, hba_port_name hba = Some v) l
             (filter hba_online hbas)).
Proof.
  intros Hcached Hne.
  assert (driver._get_fc_hbas w = (Ok hbas, w)) as Hhbas.
  { unfold driver._get_fc_hbas. unfold_monad. rewrite Hcached.
    by destruct hbas. }
  split; intros r w'.
  - unfold driver._get_fc_wwnns. rewrite (bind_ok _ _ _ _ _ Hhbas).
    apply online_run.
  - unfold driver._get_fc_wwpns. rewrite (bind_ok _ _ _ _ _ Hhbas).
    apply online_run.
Qed.

Lemma fc_names_are_those_of_online_ports_witness :
  (driver._get_fc_wwpns Ex.two_hbas_world).2 = Ex.two_hbas_world
  ∧ ∀ l, (driver._get_fc_wwpns Ex.two_hbas_world).1 = Ok l →
      Forall2 (λ v hba, hba_port_name hba = Some v) l
        (filter hba_online Ex.two_hbas).
Proof.
  destruct (fc_names_are_those_of_online_ports Ex.two_hbas Ex.two_hbas_world)
    as [_ Hpn]; [reflexivity | discriminate |].
  destruct (driver._get_fc_wwpns Ex.two_hbas_world) as [r w'] eqn:Hrun.
  destruct (Hpn r w' eq_refl) as [Hw Hl]. split; [exact Hw | exact Hl].
Defined.

(** [_get_fc_hbas] caches what it finds: once it has returned a
    non-empty list of ports, the next call returns the same list
    without running any command or changing anything. *)
Theorem fc_hbas_are_enumerated_once (w w1 : World) (hbas : list Hba) :
  driver._get_fc_hbas w = (Ok hbas, w1) →
  hbas ≠ [] →
  driver._get_fc_hbas w1 = (Ok hbas, w1).
Proof.
  intros Hrun Hne.
  assert (_fc_hbas (drv w1) = Some hbas) as Hcached.
  { revert Hrun. unfold driver._get_fc_hbas, driver.set_fc_hbas, driver.execute.
    unfold mbind at 1. unfold M_bind at 1. unfold get_driver at 1.
    destruct (_fc_hbas (drv w)) as [[| hba hbas'] |] eqn:Hc.
    - unfold_monad. intros H. run_cases; try done;
        match goal with H : driver.parse_hba_ports _ _ _ _ = _ |- _ =>
          apply parse_hba_ports_pure in H; subst end; done.
    - by intros [= <- <-].
    - unfold_monad. intros H. run_cases; try done;
        match goal with H : driver.parse_hba_ports _ _ _ _ = _ |- _ =>
          apply parse_hba_ports_pure in H; subst end; done. }
  unfold driver._get_fc_hbas. unfold_monad. rewrite Hcached.
  by destruct hbas.
Qed.

Lemma fc_hbas_are_enumerated_once_witness :
  let first := driver._get_fc_hbas Ex.fc_online_world in
  first.1
  = Ok [mkHba (Some "10000000c9a1b2c4") (Some "online") (Some "20000000c9a1b2c4")]
  ∧ trace first.2 = [Exec ["/usr/sbin/fcinfo"; "hba-port"]]
  ∧ driver._get_fc_hbas first.2 = (first.1, first.2).
Proof.
  split_and!; [reflexivity | reflexivity |].
  apply (fc_hbas_are_enumerated_once Ex.fc_online_world).
  - vm_compute. reflexivity.
  - discriminate.
Defined.

Lemma call_quiet ev w :
  faults (env w) (now w) ev = None →
  call ev w = (Ok tt, set_trace (trace w ++ [ev]) w).
Proof. unfold call. by intros ->. Qed.

(** One pass over the WWNs when no lookup prints a logical unit name:
    every WWN is looked up, nothing is found. *)
Lemma lookup_fc_wwns_exhausted wwns target_lun w :
  no_luname_anywhere (env w) →
  driver.lookup_fc_wwns wwns target_lun w
  = (Ok None, set_trace (trace w ++ map (suriadm_lookup target_lun) wwns) w).
Proof.
  intros [Hout Hfaults]. revert w Hout Hfaults.
  induction wwns as [| wwn wwns IH]; intros w Hout Hfaults; simpl.
  - rewrite app_nil_r. by destruct w.
  - unfold driver.execute, try_except, ask, call.
    unfold mbind at 1. unfold M_bind at 1.
    unfold mbind at 1. unfold M_bind at 1.
    fold (suriadm_lookup target_lun wwn).
    destruct (faults (env w) (now w) (suriadm_lookup target_lun wwn))
      as [x |] eqn:Hf.
    + destruct (Hfaults _ _ _ Hf) as [_ [stderr ->]]. simpl.
      rewrite IH by done. simpl. by rewrite <- app_assoc.
    + simpl. rewrite Hout. rewrite IH by done. simpl. by rewrite <- app_assoc.
Qed.

Lemma lookup_fc_rounds_exhausted n wwns target_lun w :
  no_luname_anywhere (env w) →
  driver.lookup_fc_rounds n wwns target_lun w
  = (Raise (InvalidVolume
              ("Unable to lookup URI of Fibre Channel volume with lun '"
               +:+ target_lun +:+ "'.")),
     set_trace (trace w ++ repeated n (lookup_round target_lun wwns)) w).
Proof.
  revert w. induction n as [| n IH]; intros w Henv; simpl.
  - rewrite app_nil_r. by destruct w.
  - rewrite (bind_ok _ _ _ _ _ (lookup_fc_wwns_exhausted _ _ _ Henv)).
    rewrite (bind_ok _ _ _ tt
               (set_trace (trace w ++ lookup_round target_lun wwns) w)).
    + rewrite IH by done. simpl. by rewrite <- app_assoc.
    + rewrite call_quiet.
      * unfold lookup_round. simpl. by rewrite <- app_assoc.
      * destruct Henv as [_ Hfaults]. simpl.
        destruct (faults (env w) _ (Sleep 2)) as [x |] eqn:Hf; [| done].
        by destruct (Hfaults _ _ _ Hf) as [[] _].
Qed.

Lemma lookup_attempts_rounds t n target_lun wwns :
  lookup_attempts (t ++ repeated n (lookup_round target_lun wwns))
  = lookup_attempts t + n * length wwns.
Proof.
  unfold lookup_attempts. rewrite filter_app, length_app. f_equal.
  induction n as [| n IH]; [done |].
  cbn [repeated]. unfold lookup_round at 1.
  rewrite !filter_app, !length_app, IH.
  assert (length (filter (λ ev, is_suriadm_lookup ev = true)
                    (map (suriadm_lookup target_lun) wwns))
          = length wwns) as ->.
  { clear. induction wwns as [| wwn wwns IH]; [done |].
    cbn [map]. rewrite filter_cons_True by done. cbn [length]. by rewrite IH. }
  rewrite filter_cons_False by (simpl; discriminate).
  simpl. lia.
Qed.

(** When no lookup ever prints a logical unit name,
    [_lookup_fc_volume_suri] gives up after exactly three rounds: in each
    round every target WWN is looked up once, in order, and the round is
    followed by a pause of two seconds, the last round too; then
    [InvalidVolume] is raised. *)
Theorem fc_lookup_gives_up_after_three_rounds (target_wwn : TargetWwn)
    (target_lun : Z) (w : World) :
  no_luname_anywhere (env w) →
  let wwns := match target_wwn with
              | WwnList wwns => wwns
              | WwnOne wwn => [wwn]
              end in
  let run := driver._lookup_fc_volume_suri target_wwn target_lun w in
  run.1 = Raise (InvalidVolume
                   ("Unable to lookup URI of Fibre Channel volume with lun '"
                    +:+ pretty target_lun +:+ "'."))
  ∧ trace run.2
    = trace w ++ repeated 3 (lookup_round (pretty target_lun) wwns)
  ∧ lookup_attempts (trace run.2)
    = lookup_attempts (trace w) + 3 * length wwns.
Proof.
  intros Henv wwns run. subst run.
  unfold driver._lookup_fc_volume_suri. fold wwns.
  rewrite lookup_fc_rounds_exhausted by done.
  split_and!; [done | done |].
  change (trace (set_trace ?t w)) with t.
  apply lookup_attempts_rounds.
Qed.

Lemma fc_lookup_gives_up_after_three_rounds_witness :
  let run :=
    driver._lookup_fc_volume_suri
      (WwnList ["5000d31000a1b2c3"; "5000d31000a1b2c4"]) 1 Ex.no_command_works in
  run.1 = Raise (InvalidVolume
                   "Unable to lookup URI of Fibre Channel volume with lun '1'.")
  ∧ length (trace run.2) = 9
  ∧ lookup_attempts (trace run.2) = 6.
Proof.
  destruct (fc_lookup_gives_up_after_three_rounds
              (WwnList ["5000d31000a1b2c3"; "5000d31000a1b2c4"]) 1
              Ex.no_command_works) as (Hr & Ht & Hn).
  - split.
    + reflexivity.
    + intros n ev x. simpl. destruct ev; try discriminate.
      intros [= <-]. split; [exact I | by eexists].
  - split_and!.
    + exact Hr.
    + rewrite Ht. reflexivity.
    + rewrite Hn. reflexivity.
Defined.

(** ** Polling loops *)

(** The loop of [_waitfor_copydone] while every query fails: it goes on,
    with a pause of one second, until the count of failures has passed
    120. *)
Lemma waitfor_copydone_loop_commands_fail k fuel name failcount end_states w :
  commands_fail (env w) →
  failcount + k = 121 →
  k < fuel →
  driver.waitfor_copydone_loop fuel name failcount end_states None w
  = (Ok false,
     set_trace (trace w ++ repeated k [svcs_query name; Sleep 1]
                ++ [svcs_query name]) w).
Proof.
  intros [Hexec Hsleep]. revert fuel failcount w Hexec Hsleep.
  induction k as [| k IH]; intros fuel failcount w Hexec Hsleep Hcount Hfuel;
    (destruct fuel as [| fuel]; [lia |]); cbn [driver.waitfor_copydone_loop].
  - rewrite bool_decide_eq_false_2.
    2: { intros Hin. apply list_elem_of_fmap in Hin as (? & ? & ?). done. }
    unfold driver.execute_stripped, driver.execute, try_except, ask, call.
    unfold mbind at 1. unfold M_bind at 1.
    fold (svcs_query name).
    destruct (Hexec (now w) ["/usr/sbin/zlogin"; "-S"; name; "/usr/bin/svcs";
                             "-H"; "-o"; "state"; driver.cbi_service])
      as [stderr Hf].
    unfold mbind at 1. unfold M_bind at 1.
    unfold mbind at 1. unfold M_bind at 1.
    unfold svcs_query at 1. rewrite Hf. simpl.
    rewrite bool_decide_eq_true_2 by lia. done.
  - rewrite bool_decide_eq_false_2.
    2: { intros Hin. apply list_elem_of_fmap in Hin as (? & ? & ?). done. }
    unfold driver.execute_stripped, driver.execute, try_except, ask, call.
    unfold mbind at 1. unfold M_bind at 1.
    destruct (Hexec (now w) ["/usr/sbin/zlogin"; "-S"; name; "/usr/bin/svcs";
                             "-H"; "-o"; "state"; driver.cbi_service])
      as [stderr Hf].
    unfold mbind at 1. unfold M_bind at 1.
    unfold mbind at 1. unfold M_bind at 1.
    rewrite Hf. simpl.
    rewrite bool_decide_eq_false_2 by lia.
    unfold mbind at 1. unfold M_bind at 1. rewrite Hsleep.
    rewrite IH; [| done | done | lia | lia].
    unfold set_trace. simpl. f_equal. f_equal. unfold svcs_query.
    by repeat (rewrite <- app_assoc; simpl).
Qed.

(** [_waitfor_copydone] gives up on a zone whose service state cannot be
    read: when every [zlogin] fails it returns [False] after 122 queries
    with a pause of one second between them, two minutes in all, and
    with nothing else done. *)
Theorem waitfor_copydone_gives_up (fuel : nat) (name : string) (w : World) :
  commands_fail (env w) →
  121 < fuel →
  driver._waitfor_copydone fuel name w
  = (Ok false,
     set_trace (trace w ++ repeated 121 [svcs_query name; Sleep 1]
                ++ [svcs_query name]) w).
Proof.
  intros Henv Hfuel. unfold driver._waitfor_copydone.
  by apply waitfor_copydone_loop_commands_fail.
Qed.

Lemma waitfor_copydone_gives_up_witness :
  let run := driver._waitfor_copydone 200 "instance-00000001" Ex.no_command_works in
  run.1 = Ok false ∧ length (trace run.2) = 243.
Proof.
  rewrite (waitfor_copydone_gives_up 200 "instance-00000001" Ex.no_command_works).
  - split; reflexivity.
  - split.
    + intros n argv. by eexists.
    + reflexivity.
  - lia.
Defined.

(** The loop of [migrate_disk_and_power_off] that waits for the new
    volume: when Cinder reports it as being created [k] times and then
    as anything else, the loop has polled [k + 1] times, paused one
    second after each of the first [k] polls, and returned. *)
Theorem new_volume_is_polled_until_created (k fuel : nat) (volume_id : string)
    (w : World) :
  created_after k volume_id w →
  k < fuel →
  driver.wait_while_creating fuel volume_id w
  = (Ok tt,
     set_trace (trace w ++ repeated k [VolGet volume_id; Sleep 1]
                ++ [VolGet volume_id]) w).
Proof.
  revert fuel w. induction k as [| k IH];
    intros fuel w (Hcreating & Hdone & Hget & Hsleep) Hfuel;
    (destruct fuel as [| fuel]; [lia |]); cbn [driver.wait_while_creating];
    unfold ask, call; unfold mbind at 1; unfold M_bind at 1; rewrite Hget.
  - replace (now w + 2 * 0) with (now w) in Hdone by lia.
    rewrite bool_decide_eq_true_2 by done. done.
  - rewrite bool_decide_eq_false_2.
    2: { intros Hne. apply Hne. specialize (Hcreating 0).
         replace (now w + 2 * 0) with (now w) in Hcreating by lia.
         apply Hcreating. lia. }
    unfold mbind at 1. unfold M_bind at 1. rewrite Hsleep.
    rewrite IH; [| | lia].
    + unfold set_trace. simpl. f_equal. f_equal.
      by repeat (rewrite <- app_assoc; simpl).
    + unfold created_after, now in *. simpl. rewrite !length_app. simpl.
      split_and!; [| | done | done].
      * intros i Hi. etrans; [| apply (Hcreating (S i)); lia].
        do 2 f_equal. lia.
      * intros Heq. apply Hdone. etrans; [| exact Heq].
        do 2 f_equal. lia.
Qed.

Lemma new_volume_is_polled_until_created_witness :
  driver.wait_while_creating 10 "vol-new" Ex.slow_cinder
  = (Ok tt,
     set_trace [VolGet "vol-new"; Sleep 1; VolGet "vol-new"; Sleep 1;
                VolGet "vol-new"] Ex.slow_cinder).
Proof.
  apply (new_volume_is_polled_until_created 2 10 "vol-new" Ex.slow_cinder).
  - split_and!.
    + intros i Hi. destruct i as [| [| i]]; [reflexivity | reflexivity | lia].
    + vm_compute. discriminate.
    + reflexivity.
    + reflexivity.
  - lia.
Defined.

(** ** Lifecycle: power off and destroy *)

Lemma set_instance_metahostid_terminates :
  terminates driver._set_instance_metahostid.
Proof. unfold driver._set_instance_metahostid. terminates_auto. Qed.

Lemma power_off_terminates halt_type : terminates (driver._power_off halt_type).
Proof.
  unfold driver._power_off.
  repeat first [ apply set_instance_metahostid_terminates
               | terminates_step | progress unfold_driver ].
Qed.

Lemma uninstall_terminates : terminates driver._uninstall.
Proof. unfold driver._uninstall. terminates_auto. Qed.

Lemma delete_config_terminates : terminates driver._delete_config.
Proof. unfold driver._delete_config. terminates_auto. Qed.

Lemma delete_instance_dir_terminates : terminates driver.delete_instance_dir.
Proof. unfold driver.delete_instance_dir. terminates_auto. Qed.

Lemma ignore_errors_returns (m : M unit) w :
  terminates m → ∃ w', driver.ignore_errors m w = (Ok tt, w').
Proof.
  intros Ht. unfold driver.ignore_errors, try_except.
  destruct (m w) as [[[] | e |] w1] eqn:Hw; eauto.
  by apply Ht in Hw.
Qed.

Lemma delete_leftover_volumes_returns tags w :
  ∃ w', driver.delete_leftover_volumes tags w = (Ok tt, w').
Proof.
  revert w. induction tags as [| tag tags IH]; intros w; simpl; [by eexists |].
  unfold mbind at 1. unfold M_bind at 1.
  unfold get_instance at 1. unfold mbind at 1. unfold M_bind at 1.
  destruct (i_system_metadata (inst w) !! tag) as [volid |];
    [destruct (truthy volid) |]; try apply IH.
  match goal with |- context [driver.ignore_errors ?m w] =>
    destruct (ignore_errors_returns m w) as [w1 ->] end; [| apply IH].
  terminates_auto.
Qed.

Lemma get_zone_by_name_present name z w :
  zones w !! name = Some z →
  faults (env w) (now w) (RadGetZone name) = None →
  driver._get_zone_by_name name w
  = (Ok (Some name), set_trace (trace w ++ [RadGetZone name]) w).
Proof.
  intros Hz Hf. unfold driver._get_zone_by_name. unfold_driver.
  unfold_zonemgr. unfold_monad. simpl. rewrite Hf. simpl. by rewrite Hz.
Qed.

(** [destroy] of an instance whose zone exists returns normally whatever
    fails while the zone is torn down: the console service, the halt,
    the uninstall, the deletion of the configuration, the removal of the
    files and the deletion of the volumes a resize left behind are
    attempts whose errors are dropped.  What is needed is that the zone
    can be looked up, that the Instance can be saved when an evacuated
    instance is handed back, and that the system metadata records
    [old_vm_state] while a resize is being reverted. *)
Theorem destroy_drops_teardown_errors (w : World) (z : Zone) :
  zones w !! i_name (inst w) = Some z →
  (∀ n, faults (env w) n (RadGetZone (i_name (inst w))) = None) →
  (∀ n, faults (env w) n InstanceSave = None) →
  (i_task_state (inst w) = Some RESIZE_REVERTING →
   is_Some (i_system_metadata (inst w) !! "old_vm_state")) →
  ∃ w', driver.destroy w = (Ok tt, w').
Proof.
  intros Hz Hlookup Hsave Hmeta. unfold driver.destroy.
  unfold mbind at 1. unfold M_bind at 1. unfold get_instance at 1.
  unfold mbind at 1. unfold M_bind at 1.
  (* what happens past the two guards *)
  match goal with
  | |- context [driver.ignore_errors
                  (driver._has_vnc_console_service ≫= ?k) ≫= ?rest] =>
      assert (∃ w', (driver.ignore_errors
                       (driver._has_vnc_console_service ≫= k) ≫= rest) w
                    = (Ok tt, w')) as Hmain
  end.
  { match goal with |- context [driver.ignore_errors ?m ≫= _] =>
      destruct (ignore_errors_run console_frame m w)
        as (w1 & Hconsole & He & Hzs & Hi & Hc) end.
    - repeat first [ apply console_has_terminates
                   | apply console_disable_terminates
                   | apply console_delete_terminates
                   | progress unfold driver.when | terminates_step ].
    - repeat first [ apply console_has | apply console_disable
                   | apply console_delete
                   | progress unfold driver.when | keeps_step ].
    - rewrite (bind_ok _ _ _ _ _ Hconsole).
      rewrite (bind_ok _ _ _ _ _
                 (get_zone_by_name_present _ z _ ltac:(by rewrite Hzs)
                    ltac:(rewrite He; apply Hlookup))).
      match goal with |- context [driver.ignore_errors ?m ≫= _] =>
        destruct (ignore_errors_returns m
                    (set_trace (trace w1 ++ [RadGetZone (i_name (inst w))]) w1))
          as [w2 Hblock] end.
      { repeat first [ apply power_off_terminates | apply uninstall_terminates
                     | apply delete_config_terminates
                     | apply delete_instance_dir_terminates
                     | progress unfold driver.when, driver.ignore_oserror,
                         driver._get_state, zonemgr.state
                     | terminates_step ]. }
      rewrite (bind_ok _ _ _ _ _ Hblock).
      unfold mbind at 1. unfold M_bind at 1. unfold get_instance at 1.
      case_bool_decide; [by eexists |].
      apply delete_leftover_volumes_returns. }
  (* the revert-resize guard *)
  destruct (bool_decide (i_task_state (inst w) = Some RESIZE_REVERTING)) eqn:Hts.
  - apply bool_decide_eq_true_1 in Hts.
    destruct (Hmeta Hts) as [old Hold]. rewrite Hold.
    unfold subscript. unfold mbind at 1. unfold M_bind at 1.
    unfold mret at 1 2. unfold M_ret at 1 2.
    case_bool_decide; [by exists w |].
    rewrite Hts.
    destruct (i_system_metadata (inst w) !! "evac_from") as [evac |];
      exact Hmain.
  - unfold mret at 1. unfold M_ret at 1. cbv beta iota.
    destruct (i_system_metadata (inst w) !! "evac_from") as [evac |] eqn:Hevac;
      [| exact Hmain].
    destruct (i_task_state (inst w)) as [ts |] eqn:Hts'; [exact Hmain |].
    (* the evacuation hand-back *)
    clear Hmain.
    unfold driver.del_system_metadata, driver.instance_save.
    unfold mbind, M_bind, put_instance, get_instance, subscript, call,
      mret, M_ret.
    simpl. rewrite Hevac. simpl. rewrite Hsave. by eexists.
Qed.

Lemma destroy_drops_teardown_errors_witness :
  ∃ w', driver.destroy Ex.teardown_fails = (Ok tt, w').
Proof.
  apply (destroy_drops_teardown_errors Ex.teardown_fails Ex.kz_zone).
  - reflexivity.
  - reflexivity.
  - reflexivity.
  - discriminate.
Defined.

Lemma set_instance_metahostid_before_stop :
  keeps (calls_only before_stop) driver._set_instance_metahostid.
Proof. unfold driver._set_instance_metahostid. keeps_auto. Qed.

(** The stop of a zone and what its handler does to the trace: the stop
    is the only call, whether it fails or not. *)
Lemma stop_zone_run halt_type zone w r w' :
  try_except
    (driver._unplug_vifs;;
     if bool_decide (halt_type = "SOFT") then zonemgr.shutdown zone
     else zonemgr.halt zone)
    (λ ex,
       state ← driver._get_state zone;
       if bool_decide (state = SHUTDOWN) then mret tt
       else raise (InstancePowerOffFailure (utils.zonemgr_strerror ex))) w
  = (r, w') →
  trace w' = trace w ++ [UnplugVifs; stop_call halt_type zone].
Proof.
  unfold try_except, stop_call, driver._unplug_vifs, probe.
  unfold mbind at 1. unfold M_bind at 1.
  set (w1 := set_trace (trace w ++ [UnplugVifs]) w).
  assert (∀ r1 w2,
            (if bool_decide (halt_type = "SOFT") then zonemgr.shutdown zone
             else zonemgr.halt zone) w1 = (r1, w2) →
            trace w2 = trace w ++ [UnplugVifs;
                                   if bool_decide (halt_type = "SOFT")
                                   then ZShutdown zone else ZHalt zone])
    as Hstop.
  { intros r1 w2. subst w1.
    case_bool_decide; unfold zonemgr.shutdown, zonemgr.halt;
      unfold_zonemgr; unfold_zonemgr; unfold_monad; intros Hverb; run_cases;
      first [done | by rewrite <- app_assoc]. }
  destruct ((if bool_decide (halt_type = "SOFT") then zonemgr.shutdown zone
             else zonemgr.halt zone) w1) as [[[] | e |] w2] eqn:Hrun;
    specialize (Hstop _ _ eq_refl).
  - by intros [= <- <-].
  - unfold mbind at 1. unfold M_bind at 1.
    destruct (driver._get_state zone w2) as [[state | e' |] w3] eqn:Hstate;
      apply get_state_pure in Hstate; subst w3.
    + destruct (bool_decide (state = SHUTDOWN)); by intros [= <- <-].
    + by intros [= <- <-].
    + by intros [= <- <-].
  - by intros [= <- <-].
Qed.

(** [_power_off] unplugs the interfaces before it stops the zone, the
    other way round from [suspend]: in every run, what is issued first
    (the lookups that resolve the zone and its host id) neither unplugs
    nor stops; then either the run has ended there, with an error, or
    the interfaces are unplugged and the stop (a shutdown for ['SOFT'],
    a halt otherwise) is the next and last call. *)
Theorem power_off_unplugs_before_it_stops (halt_type : string) (w : World)
    (r : Res unit) (w' : World) :
  driver._power_off halt_type w = (r, w') →
  ∃ pre, Forall before_stop pre
    ∧ ((trace w' = trace w ++ pre ∧ r ≠ Ok tt)
       ∨ trace w' = trace w ++ pre
                    ++ [UnplugVifs; stop_call halt_type (i_name (inst w))]).
Proof.
  unfold driver._power_off. unfold mbind at 1. unfold M_bind at 1.
  unfold get_instance at 1. cbv zeta.
  set (name := i_name (inst w)).
  intros H.
  apply bind_run in H as [(oz & w1 & Hget & H) | [(e & Hget & ->) | [Hget ->]]];
    apply get_zone_by_name_run in Hget as [-> Hname].
  2, 3: exists [RadGetZone name]; split; [by repeat constructor | by left].
  destruct oz as [zone |].
  2: { injection H as <- <-. exists [RadGetZone name].
       split; [by repeat constructor | by left]. }
  specialize (Hname zone eq_refl). subst zone.
  apply bind_run in H as [(h & w2 & Hid & H) | [(e & Hid & ->) | [Hid ->]]];
    apply set_instance_metahostid_before_stop in Hid as (evs & Hevs & Hbefore);
    simpl in Hevs.
  2, 3: exists (RadGetZone name :: evs); split; [by constructor |]; left;
        split; [by rewrite Hevs, <- app_assoc | done].
  exists (RadGetZone name :: evs). split; [by constructor |]. right.
  apply stop_zone_run in H. rewrite H, Hevs.
  by repeat (rewrite <- app_assoc; simpl).
Qed.

Lemma power_off_unplugs_before_it_stops_witness :
  ∃ pre, Forall before_stop pre
    ∧ ((trace (driver._power_off "HARD" Ex.stop_fails).2
        = trace Ex.stop_fails ++ pre
        ∧ (driver._power_off "HARD" Ex.stop_fails).1 ≠ Ok tt)
       ∨ trace (driver._power_off "HARD" Ex.stop_fails).2
         = trace Ex.stop_fails ++ pre
           ++ [UnplugVifs; stop_call "HARD" (i_name (inst Ex.stop_fails))]).
Proof.
  apply (power_off_unplugs_before_it_stops "HARD" Ex.stop_fails).
  by destruct (driver._power_off "HARD" Ex.stop_fails).
Defined.

(** ** Spawn *)

Lemma keeps_pure {A} (R : World → World → Prop) `{!Reflexive R} (m : M A) :
  keeps eq m → keeps R m.
Proof. intros Hm w r w' Hrun. apply Hm in Hrun. by subst. Qed.

Lemma validate_flavor_pure : keeps eq driver._validate_flavor.
Proof. unfold driver._validate_flavor. keeps_auto. Qed.

Lemma create_instance_dir_before_config :
  keeps (calls_only before_config) driver.create_instance_dir.
Proof. unfold driver.create_instance_dir. keeps_auto. Qed.

Lemma prepare_image_before_config brand container_format block_device_info :
  keeps (calls_only before_config)
    (driver.prepare_image brand container_format block_device_info).
Proof.
  unfold driver.prepare_image, driver.copy_file, none_attribute.
  repeat first [ apply create_instance_dir_before_config
               | keeps_step | keeps_leaf | progress unfold_driver ].
Qed.

Lemma before_config_ask {A} ev (answer : Env → nat → A) :
  before_config ev → keeps (calls_only before_config) (ask ev answer).
Proof. intros Hev. keeps_leaf. Qed.

Lemma before_config_call ev :
  before_config ev → keeps (calls_only before_config) (call ev).
Proof. intros Hev. keeps_leaf. Qed.

Lemma before_config_drive (required : bool) (cd_path : string) :
  keeps (calls_only before_config)
    (driver.when required
       (call (External "configdrive.ConfigDriveBuilder");;
        driver.ignore_errors (call (External ("make_drive " +:+ cd_path))))).
Proof. unfold driver.when, driver.ignore_errors. keeps_tac. Qed.

(** [spawn] does not leave its temporary directory behind: once it has
    started to configure the zone, whatever happens then, its last call
    removes the directory of the system configuration profiles.  A run
    that does not end that way has failed before, having called only the
    image cache, the file system and the config drive builder. *)
Theorem spawn_removes_its_temporary_directory (fuel : nat)
    (container_format : string) (network_info : list string)
    (block_device_info : option BlockDeviceInfo) (power_on : bool)
    (w : World) (r : Res unit) (w' : World) :
  driver.spawn fuel container_format network_info block_device_info power_on w
  = (r, w') →
  r = Diverge
  ∨ (∃ sc_dir, last (trace w') = Some (Rmtree sc_dir))
  ∨ (calls_only before_config w w' ∧ r ≠ Ok tt).
Proof.
  unfold driver.spawn. unfold mbind at 1. unfold M_bind at 1.
  unfold get_instance at 1. cbv zeta. intros H.
  apply bind_run in H as [(brand & w1 & Hv & H) | [(e & Hv & ->) | [Hv ->]]];
    apply validate_flavor_pure in Hv; subst.
  2: { right. right. split; [reflexivity | done]. }
  2: by left.
  apply bind_run in H as [(ib & w2 & Hi & H) | [(e & Hi & ->) | [Hi ->]]];
    apply prepare_image_before_config in Hi.
  2: { right. right. by split. }
  2: by left.
  destruct ib as [image bdi].
  apply bind_run in H as [(sc_dir & w3 & Hd & H) | [(e & Hd & ->) | [Hd ->]]];
    apply before_config_ask in Hd; [| done | | done | | done].
  2: { right. right. split; [by etrans | done]. }
  2: by left.
  apply bind_run in H as [([] & w4 & Hc & H) | [(e & Hc & ->) | [Hc ->]]];
    apply before_config_call in Hc; [| done | | done | | done].
  2: { right. right. split; [by do 2 (etrans; [eassumption |]) | done]. }
  2: by left.
  apply bind_run in H as [([] & w5 & Hb & H) | [(e & Hb & ->) | [Hb ->]]];
    apply before_config_drive in Hb.
  2: { right. right.
       split; [by do 3 (etrans; [eassumption |]) | done]. }
  2: by left.
  unfold try_finally in H.
  match type of H with
  | (match ?body with _ => _ end) = _ =>
      destruct body as [[[] | e |] w6]
  end.
  3: { left. by injection H as <- <-. }
  all: unfold call in H; right; left; exists sc_dir;
    destruct (faults (env w6) (now w6) (Rmtree sc_dir));
    injection H as <- <-; simpl; by rewrite last_snoc.
Qed.

Lemma spawn_removes_its_temporary_directory_witness :
  let run :=
    driver.spawn 10 "ovf" []
      (Some (mkBlockDeviceInfo (Some "c1d0") (Some []))) true Ex.create_fails in
  (∃ reason, run.1 = Raise (ObjectError "create failed" reason))
  ∧ last (trace run.2) = Some (Rmtree "/var/lib/nova/nova-sysconfig-x1")
  ∧ (run.1 = Diverge
     ∨ (∃ sc_dir, last (trace run.2) = Some (Rmtree sc_dir))
     ∨ (calls_only before_config Ex.create_fails run.2 ∧ run.1 ≠ Ok tt)).
Proof.
  split_and!.
  - eexists. vm_compute. reflexivity.
  - vm_compute. reflexivity.
  - apply (spawn_removes_its_temporary_directory 10 "ovf" []
             (Some (mkBlockDeviceInfo (Some "c1d0") (Some []))) true
             Ex.create_fails).
    by destruct (driver.spawn _ _ _ _ _ _).
Defined.

(** ** Resize *)

(** A resize never changes the brand: whatever the sizes of the root
    disks, a request whose flavor does not name the brand the instance
    has is rejected with [MigrationPreCheckError] before any call is
    issued.  A flavor without the key ['zonecfg:brand'] names no brand:
    it is rejected even when the flavor of the instance has no such key
    either and both zones would get the default brand. *)
Theorem resize_needs_the_brand_of_the_instance (fuel : nat) (dest : string)
    (flavor : Flavor) (block_device_info : option BlockDeviceInfo) (w : World) :
  dict_get "zonecfg:brand" (fl_extra_specs flavor)
  ≠ Some (driver.flavor_brand (i_flavor (inst w))) →
  let run :=
    driver.migrate_disk_and_power_off fuel dest flavor block_device_info w in
  (∃ reason, run.1 = Raise (MigrationPreCheckError reason))
  ∧ trace run.2 = trace w
  ∧ zones run.2 = zones w.
Proof.
  intros Hbrand run. subst run.
  unfold driver.migrate_disk_and_power_off, driver.get_host_ip_addr,
    driver.when, driver.set_system_metadata, driver._get_flavor.
  unfold_monad.
  destruct (bool_decide (dest = conf_my_ip (CONF (env w)))); simpl;
    (destruct (bool_decide (driver.flavor_brand (i_flavor (inst w))
                            ≠ ZONE_BRAND_SOLARIS_KZ)); simpl;
     [try (split_and!; [by eexists | done | done]) |]);
    (rewrite bool_decide_eq_true_2 by congruence);
    (split_and!; [by eexists | done | done]).
Qed.

Lemma resize_needs_the_brand_of_the_instance_witness :
  let run :=
    driver.migrate_disk_and_power_off 10 "192.0.2.10" Ex.plain_large
      (Some (mkBlockDeviceInfo (Some "c1d0") (Some []))) Ex.plain_world in
  driver.flavor_brand (i_flavor (inst Ex.plain_world)) = "solaris"
  ∧ driver.flavor_brand Ex.plain_large = "solaris"
  ∧ run.1 = Raise (MigrationPreCheckError
                     "Unable to change brand of zone during resize.")
  ∧ trace run.2 = [].
Proof.
  destruct (resize_needs_the_brand_of_the_instance 10 "192.0.2.10"
              Ex.plain_large
              (Some (mkBlockDeviceInfo (Some "c1d0") (Some []))) Ex.plain_world)
    as (_ & Htrace & _); [discriminate |].
  split_and!; [reflexivity | reflexivity | reflexivity | exact Htrace].
Defined.

Lemma set_instance_metahostid_no_volume_call :
  keeps (calls_only no_volume_call) driver._set_instance_metahostid.
Proof. unfold driver._set_instance_metahostid. keeps_auto. Qed.

Lemma power_off_no_volume_call :
  keeps (calls_only no_volume_call) driver.power_off.
Proof.
  unfold driver.power_off, driver._power_off.
  repeat first [ apply set_instance_metahostid_no_volume_call
               | keeps_step | keeps_leaf | progress unfold_driver ].
Qed.

(** A resize on the same host that keeps the size of the root disk
    touches no volume: the zone is powered off and that is all.  No call
    is addressed to Cinder or to the block device mapping, and no new
    disk is handed to the destination side. *)
Theorem resize_without_a_new_disk_touches_no_volume (fuel : nat)
    (flavor : Flavor) (block_device_info : option BlockDeviceInfo) (w : World)
    (r : Res (option Volume)) (w' : World) :
  dict_get "zonecfg:brand" (fl_extra_specs flavor)
  = Some (driver.flavor_brand (i_flavor (inst w))) →
  fl_root_gb flavor = i_root_gb (inst w) →
  driver.migrate_disk_and_power_off fuel (conf_my_ip (CONF (env w))) flavor
    block_device_info w
  = (r, w') →
  calls_only no_volume_call w w'
  ∧ (∀ disk_info, r ≠ Ok (Some disk_info)).
Proof.
  intros Hbrand Hsize.
  unfold driver.migrate_disk_and_power_off, driver.get_host_ip_addr,
    driver.when, driver.set_system_metadata, driver._get_flavor.
  unfold_monad.
  rewrite bool_decide_eq_true_2 by done. simpl.
  rewrite andb_false_r.
  rewrite bool_decide_eq_false_2 by (intros Hne; apply Hne; congruence).
  change (i_root_gb (inst (set_inst (driver.with_system_metadata ?m ?i) ?w0)))
    with (i_root_gb i).
  rewrite bool_decide_eq_false_2 by lia.
  match goal with |- context [driver.power_off ?w0] =>
    destruct (driver.power_off w0) as [[[] | e |] w1] eqn:Hoff;
    apply power_off_no_volume_call in Hoff;
    assert (calls_only no_volume_call w w0) as H0
      by (exists []; split; [simpl; by rewrite app_nil_r | constructor])
  end.
  - rewrite bool_decide_eq_false_2 by lia. simpl.
    intros [= <- <-]. split; [by etrans | done].
  - intros [= <- <-]. split; [by etrans | done].
  - intros [= <- <-]. split; [by etrans | done].
Qed.

Lemma resize_without_a_new_disk_touches_no_volume_witness :
  let run :=
    driver.migrate_disk_and_power_off 10 "192.0.2.10" Ex.kz_same_disk
      (Some (mkBlockDeviceInfo (Some "c1d0") (Some []))) Ex.world in
  run.1 = Ok None
  ∧ calls_only no_volume_call Ex.world run.2
  ∧ (∀ disk_info, run.1 ≠ Ok (Some disk_info)).
Proof.
  split; [reflexivity |].
  apply (resize_without_a_new_disk_touches_no_volume 10 Ex.kz_same_disk
           (Some (mkBlockDeviceInfo (Some "c1d0") (Some []))) Ex.world).
  - reflexivity.
  - reflexivity.
  - by destruct (driver.migrate_disk_and_power_off _ _ _ _ _).
Defined.

(** *** Frames of the storage helpers *)

Section storage_frames.
Context (R : World → World → Prop) `{!PreOrder R}.
Hypothesis Hexecute : ∀ argv, keeps R (driver.execute argv).
Hypothesis Hsleep : ∀ seconds, keeps R (call (Sleep seconds)).
Hypothesis Hdriver : ∀ d, keeps R (put_driver d).

Lemma storage_parse_hba_ports lines hbas hba :
  keeps R (driver.parse_hba_ports lines hbas hba).
Proof. apply keeps_pure; [apply _ | apply parse_hba_ports_pure]. Qed.

Lemma storage_online field get hbas : keeps R (driver.online field get hbas).
Proof.
  apply keeps_pure; [apply _ |]. intros w r w' Hrun.
  by apply online_run in Hrun as [-> _].
Qed.

Lemma storage_get_fc_hbas : keeps R driver._get_fc_hbas.
Proof.
  unfold driver._get_fc_hbas, driver.set_fc_hbas.
  repeat first [ apply Hexecute | apply Hdriver | apply storage_parse_hba_ports
               | keeps_step ].
Qed.

Lemma storage_lookup_fc_wwns wwns target_lun :
  keeps R (driver.lookup_fc_wwns wwns target_lun).
Proof.
  induction wwns as [| wwn wwns IH]; simpl;
    repeat first [ apply Hexecute | apply IH | keeps_step ].
Qed.

Lemma storage_lookup_fc_rounds n wwns target_lun :
  keeps R (driver.lookup_fc_rounds n wwns target_lun).
Proof.
  induction n as [| n IH]; simpl;
    repeat first [ apply storage_lookup_fc_wwns | apply Hsleep | apply IH
                 | keeps_step ].
Qed.

Lemma storage_rescan_remote_ports wwpns :
  keeps R (driver.rescan_remote_ports wwpns).
Proof.
  induction wwpns as [| wwpn wwpns IH]; simpl;
    repeat first [ apply Hexecute | apply IH | keeps_step ].
Qed.

Lemma storage_suri_from_volume_info connection_info :
  keeps R (driver._suri_from_volume_info connection_info).
Proof.
  unfold driver._suri_from_volume_info, driver._lookup_fc_volume_suri,
    driver._get_fc_wwpns, driver.index.
  repeat first [ apply Hexecute | apply storage_get_fc_hbas
               | apply storage_online | apply storage_rescan_remote_ports
               | apply storage_lookup_fc_rounds | keeps_step ].
Qed.

Lemma storage_get_volume_connector : keeps R driver.get_volume_connector.
Proof.
  unfold driver.get_volume_connector, driver.get_host_ip_addr, driver.when,
    driver._get_iscsi_initiator, driver._get_fc_wwnns, driver._get_fc_wwpns,
    driver.set_initiator, driver.set_fc_wwnns, driver.set_fc_wwpns,
    driver.index.
  repeat first [ apply Hexecute | apply Hdriver | apply storage_get_fc_hbas
               | apply storage_online | keeps_step ].
Qed.
End storage_frames.

(** The frame of what precedes the swap of the root volume: the zonemgr
    store and the Instance are as they were, and no call moves a
    volume. *)
#[local] Instance no_swap_frame_preorder :
  PreOrder (both same_zones (both same_inst (calls_only no_swap_call))).
Proof. apply _. Qed.

Lemma no_swap_execute argv :
  keeps (both same_zones (both same_inst (calls_only no_swap_call)))
    (driver.execute argv).
Proof. unfold driver.execute. keeps_leaf. Qed.

Lemma no_swap_sleep seconds :
  keeps (both same_zones (both same_inst (calls_only no_swap_call)))
    (call (Sleep seconds)).
Proof. keeps_leaf. Qed.

Lemma no_swap_put_driver d :
  keeps (both same_zones (both same_inst (calls_only no_swap_call)))
    (put_driver d).
Proof. keeps_leaf. Qed.

Lemma initialize_volume_connection_no_swap volume_id connector :
  keeps (both same_zones (both same_inst (calls_only no_swap_call)))
    (driver._initialize_volume_connection volume_id connector).
Proof. unfold driver._initialize_volume_connection. keeps_tac. Qed.

Lemma set_boot_device_no_swap name connection_info brand mountpoint :
  keeps (calls_only no_swap_call)
    (driver._set_boot_device name connection_info brand mountpoint).
Proof.
  unfold driver._set_boot_device.
  repeat first
    [ apply (storage_suri_from_volume_info (calls_only no_swap_call));
      [ intros argv; unfold driver.execute; keeps_leaf
      | intros seconds; keeps_leaf
      | intros d; keeps_leaf ]
    | keeps_step | keeps_leaf | progress unfold_driver ].
Qed.

(** Without a mount point there is no boot device for a kernel zone:
    the edit session ends with [NotImplementedError] at the latest. *)
Lemma set_boot_device_needs_a_mount_point name connection_info w r w' :
  driver._set_boot_device name connection_info ZONE_BRAND_SOLARIS_KZ None w
  = (r, w') →
  r ≠ Ok tt.
Proof.
  unfold driver._set_boot_device. intros H.
  apply bind_run in H as [(oz & w1 & _ & H) | [(e & _ & ->) | [_ ->]]];
    [| done | done].
  destruct oz as [zone |]; [| by injection H as <- <-].
  apply bind_run in H as [(suri & w2 & _ & H) | [(e & _ & ->) | [_ ->]]];
    [| done | done].
  unfold ZoneConfig.with_ in H.
  apply bind_run in H as [(zc & w3 & _ & H) | [(e & _ & ->) | [_ ->]]];
    [| done | done].
  unfold with_statement in H.
  rewrite bool_decide_eq_true_2 in H by done.
  unfold raise at 1 in H.
  destruct (ZoneConfig.__exit__ zc _ w3) as [[[] | e |] w4];
    by injection H as <- <-.
Qed.

(** The destination side of a resize on the same host cannot give a
    kernel zone its new root disk: [_resize_disk_migration] asks
    [_set_boot_device] for a boot device without naming a mount point,
    which a kernel zone needs.  Every run ends with an error, and before
    the root volume is touched: nothing is detached or attached, and the
    block device mapping is not updated. *)
Theorem samehost_resize_cannot_swap_the_disk_of_a_kernel_zone
    (configured replacement : string) (newvolumesz : Z) (mountdev : string)
    (w : World) (z : Zone) (r : Res (option ConnInfo)) (w' : World) :
  zones w !! i_name (inst w) = Some z →
  z_brand z = ZONE_BRAND_SOLARIS_KZ →
  driver._resize_disk_migration configured replacement newvolumesz mountdev
    true w
  = (r, w') →
  (∀ connection_info, r ≠ Ok connection_info)
  ∧ calls_only no_swap_call w w'.
Proof.
  intros Hz Hbrand. unfold driver._resize_disk_migration. intros H.
  apply bind_run in H as [(c & w1 & Hc & H) | [(e & Hc & ->) | [Hc ->]]];
    apply (storage_get_volume_connector _ no_swap_execute no_swap_put_driver)
      in Hc as (Hz1 & Hi1 & Hc1).
  2, 3: by split.
  apply bind_run in H as [(ci & w2 & Hci & H) | [(e & Hci & ->) | [Hci ->]]];
    apply initialize_volume_connection_no_swap in Hci as (Hz2 & Hi2 & Hc2).
  2, 3: split; [done | by etrans].
  unfold mbind at 1 in H. unfold M_bind at 1 in H.
  unfold get_instance at 1 in H. cbv beta iota zeta in H.
  assert (inst w2 = inst w) as Hinst by congruence.
  assert (zones w2 = zones w) as Hzones by congruence.
  assert (calls_only no_swap_call w w2) as Hcalls by (by etrans).
  rewrite Hinst in H.
  set (name := i_name (inst w)) in *.
  (* the update of the zone never returns *)
  apply bind_run in H as [([] & w3 & Hup & H) | [(e & Hup & ->) | [Hup ->]]].
  - exfalso. clear H. unfold driver.when in Hup.
    apply bind_run in Hup
      as [(oz & w4 & Hget & Hup) | [(e & Hget & [=]) | [Hget [=]]]].
    apply get_zone_by_name_run in Hget as [-> Hname].
    destruct oz as [zone |]; [| by injection Hup].
    specialize (Hname zone eq_refl). subst zone.
    assert (∀ w0, zones w0 = zones w →
              zonemgr.brand name w0 = (Ok ZONE_BRAND_SOLARIS_KZ, w0)) as Hkz.
    { intros w0 Hw0. unfold zonemgr.brand, zonemgr.the_zone. unfold_monad.
      rewrite Hw0. fold name. rewrite Hz. by rewrite Hbrand. }
    set (w4 := set_trace (trace w2 ++ [RadGetZone name]) w2) in Hup.
    assert (zones w4 = zones w) as Hzones4 by done.
    rewrite (bind_ok _ _ _ _ _ (Hkz _ Hzones4)) in Hup.
    rewrite bool_decide_eq_false_2 in Hup by done.
    unfold mbind at 1 in Hup. unfold M_bind at 1 in Hup.
    unfold mret at 1 in Hup. unfold M_ret at 1 in Hup.
    unfold try_finally in Hup.
    rewrite (bind_ok _ _ _ _ _ (Hkz _ Hzones4)) in Hup.
    match type of Hup with
    | context [driver._set_boot_device ?n ?c ?b ?m ?w0] =>
        destruct (driver._set_boot_device n c b m w0) as [[[] | e |] w5] eqn:Hset
    end.
    + by apply set_boot_device_needs_a_mount_point in Hset.
    + match type of Hup with
      | (let (_, _) := ?f in _) = _ => destruct f as [[[] | e' |] w6]
      end; by injection Hup.
    + by injection Hup.
  - split; [done |]. etrans; [exact Hcalls |].
    refine ((_ : keeps (calls_only no_swap_call) _) _ _ _ Hup).
    unfold driver.when.
    repeat first [ apply set_boot_device_no_swap | keeps_step | keeps_leaf
                 | progress unfold_driver ].
  - split; [done |]. etrans; [exact Hcalls |].
    refine ((_ : keeps (calls_only no_swap_call) _) _ _ _ Hup).
    unfold driver.when.
    repeat first [ apply set_boot_device_no_swap | keeps_step | keeps_leaf
                 | progress unfold_driver ].
Qed.

Lemma samehost_resize_cannot_swap_the_disk_of_a_kernel_zone_witness :
  let run :=
    driver._resize_disk_migration "vol-old" "vol-new" 20 "c1d0" true
      Ex.kz_resize_world in
  run.1 = Raise (NotImplementedError "must set mountpoint")
  ∧ (∀ connection_info, run.1 ≠ Ok connection_info)
  ∧ calls_only no_swap_call Ex.kz_resize_world run.2.
Proof.
  split; [reflexivity |].
  apply (samehost_resize_cannot_swap_the_disk_of_a_kernel_zone "vol-old"
           "vol-new" 20 "c1d0" Ex.kz_resize_world Ex.kz_zone).
  - reflexivity.
  - reflexivity.
  - by destruct (driver._resize_disk_migration _ _ _ _ _ _).
Defined.

(** ** Storage when the commands fail *)

Lemma get_iscsi_initiator_commands_fail w :
  commands_fail (env w) →
  driver._get_iscsi_initiator w
  = (Ok None,
     set_trace (trace w ++ [Exec ["/usr/sbin/iscsiadm"; "list"; "initiator-node"]])
       w).
Proof.
  intros [Hexec _].
  unfold driver._get_iscsi_initiator, driver.execute. unfold_monad.
  by destruct (Hexec (now w) ["/usr/sbin/iscsiadm"; "list"; "initiator-node"])
    as [stderr ->].
Qed.

Lemma get_fc_hbas_commands_fail w :
  commands_fail (env w) →
  _fc_hbas (drv w) = None →
  driver._get_fc_hbas w
  = (Ok [], set_trace (trace w ++ [Exec ["/usr/sbin/fcinfo"; "hba-port"]]) w).
Proof.
  intros [Hexec _] Hhbas.
  unfold driver._get_fc_hbas, driver.execute. unfold_monad.
  rewrite Hhbas.
  by destruct (Hexec (now w) ["/usr/sbin/fcinfo"; "hba-port"]) as [stderr ->].
Qed.

(** A host whose iSCSI and Fibre Channel tools all fail still gets a
    connector: [get_volume_connector] drops the [ProcessExecutionError]
    of each tool and returns the connector with the address and the name
    of the host and nothing else.  No port is cached, so the next call
    runs [fcinfo] again. *)
Theorem connector_without_initiators (w : World) :
  commands_fail (env w) →
  drv w = mkDriver None None None None →
  driver.get_volume_connector w
  = (Ok (mkConnector (conf_my_ip (CONF (env w))) (conf_host (CONF (env w)))
           None None None),
     set_drv (mkDriver None (Some []) (Some []) None)
       (set_trace
          (trace w ++ [Exec ["/usr/sbin/iscsiadm"; "list"; "initiator-node"];
                       Exec ["/usr/sbin/fcinfo"; "hba-port"];
                       Exec ["/usr/sbin/fcinfo"; "hba-port"]]) w)).
Proof.
  intros Hfail Hdrv.
  unfold driver.get_volume_connector.
  rewrite (bind_ok _ _ w (conf_my_ip (CONF (env w))) w) by done.
  rewrite (bind_ok _ _ w (CONF (env w)) w) by done.
  rewrite (bind_ok _ _ w (drv w) w) by done.
  rewrite Hdrv. simpl driver.when.
  set (w1 := set_drv (mkDriver None None None None)
               (set_trace
                  (trace w ++ [Exec ["/usr/sbin/iscsiadm"; "list";
                                     "initiator-node"]]) w)).
  rewrite (bind_ok _ _ w tt w1).
  2: { rewrite (bind_ok _ _ w None _ (get_iscsi_initiator_commands_fail w Hfail)).
       unfold driver.set_initiator, get_driver, put_driver. unfold_monad.
       simpl. by rewrite Hdrv. }
  rewrite (bind_ok _ _ w1 (drv w1) w1) by done.
  simpl driver.when.
  set (w2 := set_drv (mkDriver None (Some []) None None)
               (set_trace (trace w1 ++ [Exec ["/usr/sbin/fcinfo"; "hba-port"]])
                  w1)).
  rewrite (bind_ok _ _ w1 tt w2).
  2: { unfold driver._get_fc_wwnns.
       rewrite (bind_ok _ _ w1 [] _
                  (bind_ok _ _ w1 [] _
                     (get_fc_hbas_commands_fail w1 Hfail eq_refl))).
       done. }
  rewrite (bind_ok _ _ w2 (drv w2) w2) by done.
  simpl driver.when.
  set (w3 := set_drv (mkDriver None (Some []) (Some []) None)
               (set_trace (trace w2 ++ [Exec ["/usr/sbin/fcinfo"; "hba-port"]])
                  w2)).
  rewrite (bind_ok _ _ w2 tt w3).
  2: { unfold driver._get_fc_wwpns.
       rewrite (bind_ok _ _ w2 [] _
                  (bind_ok _ _ w2 [] _
                     (get_fc_hbas_commands_fail w2 Hfail eq_refl))).
       done. }
  rewrite (bind_ok _ _ w3 (drv w3) w3) by done.
  unfold w3, w2, w1, set_drv, set_trace. simpl.
  by repeat (rewrite <- app_assoc; simpl).
Qed.

Lemma connector_without_initiators_witness :
  (driver.get_volume_connector Ex.no_command_works).1
  = Ok (mkConnector "192.0.2.10" "compute-1" None None None)
  ∧ length (trace (driver.get_volume_connector Ex.no_command_works).2) = 3.
Proof.
  rewrite (connector_without_initiators Ex.no_command_works).
  - split; reflexivity.
  - split; [intros n argv; by eexists | reflexivity].
  - reflexivity.
Defined.

(** An iSCSI volume keeps a storage URI when the lookup tools fail: with
    several target IQNs in the connection, [_suri_from_volume_info]
    first asks [iscsiadm] and [suriadm]; when the first command fails
    with [ProcessExecutionError] the second is not run, and the URI is
    the static one, built from the portal, the target IQN and the LUN
    of the connection. *)
Theorem iscsi_falls_back_to_the_static_uri (connection_info : ConnInfo)
    (data : ConnData) (target : string) (targets luns : list string)
    (lun0 portal iqn : string) (lun : Z) (w : World) :
  commands_fail (env w) →
  ci_driver_volume_type connection_info = "iscsi" →
  ci_data connection_info = Some data →
  cd_target_iqns data = Some (target :: targets) →
  cd_target_luns data = Some (lun0 :: luns) →
  cd_target_portal data = Some portal →
  cd_target_iqn data = Some iqn →
  cd_target_lun data = Some lun →
  driver._suri_from_volume_info connection_info w
  = (Ok ("iscsi://" +:+ portal +:+ "/target." +:+ iqn +:+ ",lun." +:+ pretty lun),
     set_trace
       (trace w ++ [Exec ["/usr/sbin/iscsiadm"; "list"; "target"; "-vS"; target]])
       w).
Proof.
  intros [Hexec _] Htype Hdata Hiqns Hluns Hportal Hiqn Hlun.
  unfold driver._suri_from_volume_info, driver.index, driver.execute.
  rewrite Htype. simpl.
  unfold_monad. rewrite Hdata. simpl. rewrite Hiqns. simpl.
  rewrite Hluns. simpl.
  destruct (Hexec (now w) ["/usr/sbin/iscsiadm"; "list"; "target"; "-vS"; target])
    as [stderr ->]. simpl.
  rewrite Hportal. simpl. rewrite Hiqn. simpl. rewrite Hlun. simpl. done.
Qed.

Lemma iscsi_falls_back_to_the_static_uri_witness :
  driver._suri_from_volume_info Ex.iscsi_volume Ex.no_command_works
  = (Ok "iscsi://192.0.2.20:3260/target.iqn.2010-10.org.openstack:vol-2,lun.1",
     set_trace
       [Exec ["/usr/sbin/iscsiadm"; "list"; "target"; "-vS";
              "iqn.2010-10.org.openstack:vol-2"]]
       Ex.no_command_works).
Proof.
  apply (iscsi_falls_back_to_the_static_uri Ex.iscsi_volume
           (mkConnData
              (Some ["iqn.2010-10.org.openstack:vol-2";
                     "iqn.2010-10.org.openstack:vol-2b"])
              (Some ["1"; "1"]) (Some "192.0.2.20:3260")
              (Some "iqn.2010-10.org.openstack:vol-2") (Some 1%Z)
              (Some "vol-2") None None None)
           "iqn.2010-10.org.openstack:vol-2"
           ["iqn.2010-10.org.openstack:vol-2b"] ["1"] "1" "192.0.2.20:3260"
           "iqn.2010-10.org.openstack:vol-2" 1 Ex.no_command_works).
  - split; [intros n argv; by eexists | reflexivity].
  - reflexivity.
  - reflexivity.
  - reflexivity.
  - reflexivity.
  - reflexivity.
  - reflexivity.
  - reflexivity.
Defined.

(** ** What a run leaves of the Instance *)

#[local] Instance unchanged_preorder {A} (view : Instance → A) :
  PreOrder (unchanged view).
Proof.
  split; [by intros w | intros w1 w2 w3; unfold unchanged; congruence].
Qed.

(** The primitives that do not write the Instance. *)
Ltac unchanged_leaf :=
  lazymatch goal with
  | |- keeps _ (call _) => idtac
  | |- keeps _ (ask _ _) => idtac
  | |- keeps _ (probe _ _) => idtac
  | |- keeps _ (put_driver _) => idtac
  | |- keeps _ (zonemgr.put_zone _ _) => idtac
  | |- keeps _ (zonemgr.drop_zone _) => idtac
  end;
  let H := fresh in
  intros ? ? ? H;
  unfold ask in H;
  unfold call, probe, put_driver, zonemgr.put_zone, zonemgr.drop_zone in H;
  repeat (simpl in *; simplify_eq; try case_match; simplify_eq);
  done.

(** A write to [instance.system_metadata] is seen by a view only
    through the metadata. *)
Lemma unchanged_set_system_metadata {A} (view : Instance → A) key value :
  (∀ i, view (driver.with_system_metadata
                 (<[key := value]> (i_system_metadata i)) i) = view i) →
  keeps (unchanged view) (driver.set_system_metadata key value).
Proof.
  intros Hview w r w'. unfold driver.set_system_metadata. unfold_monad.
  intros [= <- <-]. apply Hview.
Qed.

Lemma unchanged_set_instance_metahostid {A} (view : Instance → A) :
  (∀ i value, view (driver.with_system_metadata
                       (<["hostid" := value]> (i_system_metadata i)) i)
              = view i) →
  keeps (unchanged view) driver._set_instance_metahostid.
Proof.
  intros Hview. unfold driver._set_instance_metahostid.
  repeat first [ apply unchanged_set_system_metadata; intros i; apply Hview
               | keeps_step | unchanged_leaf
               | progress unfold driver._get_zone_by_name,
                   utils.lookup_resource_property,
                   zonemgr.getResourceProperties, zonemgr.get_object ].
Qed.

(** A view of the Instance that sees neither its host id nor its
    [metadata] is left unchanged by the power operations, by the edits of
    the zone configuration and by the swap of a volume. *)
Section unchanged_frames.
Context {A} (view : Instance → A).
Hypothesis Hhostid :
  ∀ i value, view (driver.with_system_metadata
                      (<["hostid" := value]> (i_system_metadata i)) i)
             = view i.
Hypothesis Hmetadata : ∀ i m, view (driver.with_metadata m i) = view i.

Lemma unchanged_execute argv : keeps (unchanged view) (driver.execute argv).
Proof. unfold driver.execute. unchanged_leaf. Qed.

Lemma unchanged_sleep seconds : keeps (unchanged view) (call (Sleep seconds)).
Proof. unchanged_leaf. Qed.

Lemma unchanged_put_driver d : keeps (unchanged view) (put_driver d).
Proof. unchanged_leaf. Qed.

Lemma unchanged_pop_metadata key :
  keeps (unchanged view) (driver.pop_metadata key).
Proof.
  intros w r w'. unfold driver.pop_metadata. unfold_monad.
  intros [= <- <-]. apply Hmetadata.
Qed.

Lemma unchanged_get_volume_connector :
  keeps (unchanged view) driver.get_volume_connector.
Proof.
  apply (storage_get_volume_connector (unchanged view));
    first [ apply unchanged_execute | apply unchanged_sleep
          | apply unchanged_put_driver ].
Qed.

Lemma unchanged_suri_from_volume_info connection_info :
  keeps (unchanged view) (driver._suri_from_volume_info connection_info).
Proof.
  apply (storage_suri_from_volume_info (unchanged view));
    first [ apply unchanged_execute | apply unchanged_sleep
          | apply unchanged_put_driver ].
Qed.

Ltac unchanged_tac :=
  repeat first
    [ apply unchanged_set_instance_metahostid; apply Hhostid
    | apply unchanged_pop_metadata
    | apply unchanged_get_volume_connector
    | apply unchanged_suri_from_volume_info
    | keeps_step | unchanged_leaf | progress unfold_driver ].

Lemma unchanged_power_off : keeps (unchanged view) driver.power_off.
Proof. unfold driver.power_off, driver._power_off. unchanged_tac. Qed.

Lemma unchanged_power_on : keeps (unchanged view) driver._power_on.
Proof. unfold driver._power_on. unchanged_tac. Qed.

Lemma unchanged_set_num_cpu name vcpus brand :
  keeps (unchanged view) (driver._set_num_cpu name vcpus brand).
Proof. unfold driver._set_num_cpu. unchanged_tac. Qed.

Lemma unchanged_set_memory_cap name memory_mb brand :
  keeps (unchanged view) (driver._set_memory_cap name memory_mb brand).
Proof. unfold driver._set_memory_cap. unchanged_tac. Qed.

Lemma unchanged_initialize_volume_connection volume_id connector :
  keeps (unchanged view)
    (driver._initialize_volume_connection volume_id connector).
Proof. unfold driver._initialize_volume_connection. unchanged_tac. Qed.

Lemma unchanged_resize_disk_migration configured replacement newvolumesz
    mountdev samehost :
  keeps (unchanged view)
    (driver._resize_disk_migration configured replacement newvolumesz mountdev
       samehost).
Proof.
  unfold driver._resize_disk_migration, driver._set_boot_device.
  repeat first
    [ apply unchanged_initialize_volume_connection
    | apply unchanged_get_volume_connector
    | apply unchanged_suri_from_volume_info
    | keeps_step | unchanged_leaf | progress unfold_driver ].
Qed.
End unchanged_frames.

(** ** The revert of a resize *)

#[local] Instance kept_or_deleted_preorder key : PreOrder (kept_or_deleted key).
Proof.
  split; [by left |].
  intros w1 w2 w3 [H12 | H12] [H23 | H23]; unfold kept_or_deleted;
    [left; congruence | by right | right; congruence | by right].
Qed.

Lemma keeps_weaken {A} (R R' : World → World → Prop) (m : M A) :
  (∀ w w', R w w' → R' w w') → keeps R m → keeps R' m.
Proof. intros HR Hm w r w' Hrun. apply HR. by apply (Hm w r w'). Qed.

Lemma unchanged_kept key w w' :
  unchanged (λ i, i_system_metadata i !! key) w w' → kept_or_deleted key w w'.
Proof. by left. Qed.

Lemma del_system_metadata_run key w r w' :
  driver.del_system_metadata key w = (r, w') →
  (r = Ok tt
   ∧ w' = set_inst (driver.with_system_metadata
                      (delete key (i_system_metadata (inst w))) (inst w)) w)
  ∨ (r ≠ Ok tt ∧ w' = w).
Proof.
  unfold driver.del_system_metadata. unfold_monad.
  destruct (i_system_metadata (inst w) !! key); intros [= <- <-];
    [by left | by right].
Qed.

Lemma del_system_metadata_kept_or_deleted key key' :
  keeps (kept_or_deleted key) (driver.del_system_metadata key').
Proof.
  intros w r w' [[_ ->] | [_ ->]]%del_system_metadata_run; [| reflexivity].
  unfold kept_or_deleted. simpl.
  destruct (decide (key = key')) as [<- | Hne].
  - right. apply lookup_delete_eq.
  - left. by apply lookup_delete_ne.
Qed.

(** What the steps of a revert do to an entry other than the host id:
    they keep it or delete it. *)
Ltac kept_leaf :=
  lazymatch goal with
  | |- keeps _ (call _) => idtac
  | |- keeps _ get_instance => idtac
  end;
  let H := fresh in
  intros ? ? ? H;
  unfold call, get_instance in H;
  repeat (simpl in *; simplify_eq; try case_match; simplify_eq);
  by left.

Ltac kept_tac :=
  repeat first
    [ apply del_system_metadata_kept_or_deleted
    | apply (keeps_weaken _ _ _ (unchanged_kept _));
      first [ apply unchanged_power_off | apply unchanged_power_on
            | apply unchanged_set_num_cpu | apply unchanged_set_memory_cap
            | apply unchanged_get_volume_connector
            | apply unchanged_initialize_volume_connection
            | apply unchanged_resize_disk_migration ];
      first [ intros i value; simpl; by apply lookup_insert_ne | done ]
    | keeps_step | kept_leaf
    | progress unfold driver.when, driver._get_flavor ].

Lemma samehost_revert_resize_kept_or_deleted key :
  key ≠ "hostid" →
  keeps (kept_or_deleted key) driver._samehost_revert_resize.
Proof. intros Hkey. unfold driver._samehost_revert_resize. kept_tac. Qed.

Lemma resize_marks_power_on : keeps (unchanged resize_marks) driver._power_on.
Proof.
  apply unchanged_power_on; [| done].
  intros i value. unfold resize_marks. simpl.
  by rewrite !lookup_insert_ne.
Qed.

(** No bookkeeping of the resize outlives a revert that succeeds: when
    [finish_revert_migration] returns, [resize_samehost],
    [old_instance_volid] and [new_instance_volid] are absent from the
    system metadata of the instance, or empty as they were.  A later
    [destroy] therefore finds no leftover volume to delete. *)
Theorem revert_leaves_no_resize_mark (w w' : World) :
  driver.finish_revert_migration w = (Ok tt, w') →
  no_resize_mark (inst w').
Proof.
  unfold driver.finish_revert_migration. intros H.
  apply bind_run in H as [(i & w0 & [= <- <-] & H) | [(? & _ & [=]) | [_ [=]]]].
  cbv zeta in H.
  apply bind_run in H as [([] & w1 & H1 & H) | [(? & _ & [=]) | [_ [=]]]].
  assert (driver.truthy_opt
            (i_system_metadata (inst w1) !! "resize_samehost") = false) as Hs1.
  { destruct (driver.truthy_opt
                (i_system_metadata (inst w) !! "resize_samehost")) eqn:Hs;
      simpl in H1.
    - apply bind_run in H1
        as [([] & w0 & _ & Hdel) | [(? & _ & [=]) | [_ [=]]]].
      apply del_system_metadata_run in Hdel as [[_ ->] | [? _]]; [| done].
      simpl. by rewrite lookup_delete_eq.
    - injection H1 as <-. done. }
  clear H1.
  apply bind_run in H as [(i & w0 & [= <- <-] & H) | [(? & _ & [=]) | [_ [=]]]].
  cbv zeta in H.
  apply bind_run in H as [([] & w2 & H2 & Hon) | [(? & _ & [=]) | [_ [=]]]].
  apply resize_marks_power_on in Hon.
  unfold no_resize_mark. rewrite Hon. clear Hon w'.
  assert (kept_or_deleted "resize_samehost" w1 w2) as Hs2.
  { refine ((_ : keeps (kept_or_deleted "resize_samehost") _) _ _ _ H2).
    kept_tac. }
  assert (driver.truthy_opt
            (i_system_metadata (inst w2) !! "resize_samehost") = false) as Hs.
  { destruct Hs2 as [-> | ->]; done. }
  clear Hs1 Hs2.
  assert (driver.truthy_opt
            (i_system_metadata (inst w2) !! "old_instance_volid") = false
          ∧ driver.truthy_opt
              (i_system_metadata (inst w2) !! "new_instance_volid") = false)
    as [Hold Hnew]; [| by repeat constructor].
  clear Hs.
  destruct (driver.truthy_opt
              (i_system_metadata (inst w1) !! "old_instance_volid")) eqn:Ho.
  - do 11 (apply bind_run in H2
             as [(? & ? & ? & H2) | [(? & _ & [=]) | [_ [=]]]]).
    apply del_system_metadata_run in H2 as [[_ ->] | [? _]]; [| done].
    match goal with
    | Hdel : driver.del_system_metadata "new_instance_volid" _ = (Ok ?u, _)
      |- _ =>
        destruct u;
        apply del_system_metadata_run in Hdel as [[_ ->] | [? _]]; [| done]
    end.
    simpl. rewrite lookup_delete_eq.
    rewrite lookup_delete_ne by done. by rewrite lookup_delete_eq.
  - destruct (driver.truthy_opt
                (i_system_metadata (inst w1) !! "new_instance_volid")) eqn:Hn;
      simpl in H2.
    + apply bind_run in H2
        as [([] & w0 & Hdel & Hcall) | [(? & _ & [=]) | [_ [=]]]].
      apply del_system_metadata_run in Hdel as [[_ ->] | [? _]]; [| done].
      unfold call in Hcall. simpl in Hcall.
      case_match; simplify_eq. simpl.
      rewrite lookup_delete_eq. rewrite lookup_delete_ne by done. done.
    + injection H2 as <-. done.
Qed.

Lemma revert_leaves_no_resize_mark_witness :
  ¬ no_resize_mark (inst Ex.resized_elsewhere)
  ∧ no_resize_mark (inst (driver.finish_revert_migration Ex.resized_elsewhere).2).
Proof.
  split.
  - intros Hmarks. apply Forall_cons in Hmarks as [_ Hmarks].
    by apply Forall_cons in Hmarks as [Hold _].
  - apply (revert_leaves_no_resize_mark Ex.resized_elsewhere).
    by destruct (driver.finish_revert_migration Ex.resized_elsewhere)
      as [r w'] eqn:Hrun; vm_compute in Hrun; injection Hrun as <- <-.
Defined.

(** ** Boot arguments *)

#[local] Instance boot_prelude_preorder : PreOrder boot_prelude.
Proof. unfold boot_prelude. apply _. Qed.

#[local] Instance boot_epilogue_preorder : PreOrder boot_epilogue.
Proof. unfold boot_epilogue. apply _. Qed.

Lemma same_inst_unchanged {A} (view : Instance → A) w w' :
  same_inst w w' → unchanged view w w'.
Proof. unfold same_inst, unchanged. by intros ->. Qed.

(** Code that does not write the Instance and boots no zone. *)
Lemma boot_prelude_of {A} (m : M A) :
  keeps (both same_env (both same_inst (calls_only before_boot))) m →
  keeps boot_prelude m.
Proof.
  apply keeps_weaken. intros w w' (Henv & Hinst & Hcalls).
  split; [done | split; [by apply same_inst_unchanged | done]].
Qed.

Lemma boot_epilogue_of {A} (m : M A) :
  keeps (both same_inst (calls_only (λ _, True))) m →
  keeps boot_epilogue m.
Proof.
  apply keeps_weaken. intros w w' (Hinst & Hcalls).
  split; [by apply same_inst_unchanged | done].
Qed.

Lemma get_zone_by_name_boot_prelude name :
  keeps boot_prelude (driver._get_zone_by_name name).
Proof. apply boot_prelude_of. keeps_auto. Qed.

Lemma set_instance_metahostid_boot_prelude :
  keeps boot_prelude driver._set_instance_metahostid.
Proof.
  repeat apply keeps_both.
  - unfold driver._set_instance_metahostid. keeps_auto.
  - by apply unchanged_set_instance_metahostid.
  - unfold driver._set_instance_metahostid. keeps_auto.
Qed.

Lemma lookup_resource_property_boot_prelude zone resource prop flt :
  keeps boot_prelude (utils.lookup_resource_property zone resource prop flt).
Proof. apply boot_prelude_of. keeps_auto. Qed.

Lemma clear_bootargs_boot_prelude zone :
  keeps boot_prelude
    (ZoneConfig.with_ zone
       (λ zc, ZoneConfig.clear_resource_props zc "global" ["bootargs"])).
Proof. apply boot_prelude_of. keeps_auto. Qed.

Lemma restore_bootargs_boot_epilogue zone value :
  keeps boot_epilogue
    (ZoneConfig.with_ zone
       (λ zc, ZoneConfig.setprop zc "global" "bootargs" value)).
Proof. apply boot_epilogue_of. keeps_auto. Qed.

(** The boot of a zone: the call is issued whatever comes of it, and the
    Instance is not written. *)
Lemma boot_run zone args w r w' :
  try_except (zonemgr.boot zone args;; driver._plug_vifs)
    (λ ex, raise (InstancePowerOnFailure (utils.zonemgr_strerror ex))) w
  = (r, w') →
  r ≠ Diverge ∧ inst w' = inst w
  ∧ ∃ evs, trace w' = trace w ++ ZBoot zone args :: evs.
Proof.
  unfold try_except, zonemgr.boot, zonemgr.verb, driver._plug_vifs, probe.
  unfold_zonemgr. unfold_monad. intros H.
  run_cases; split_and!; try done;
    first [ by exists [] | eexists; by rewrite <- app_assoc ].
Qed.

Lemma pop_metadata_twice key1 key2 w r w' :
  (driver.pop_metadata key1;; driver.pop_metadata key2) w = (r, w') →
  r = Ok tt
  ∧ trace w' = trace w
  ∧ i_metadata (inst w') = delete key2 (delete key1 (i_metadata (inst w))).
Proof.
  unfold driver.pop_metadata. unfold_monad. by intros [= <- <-].
Qed.

(** Boot arguments given in the metadata of the instance are used for
    one boot: when they are not marked persistent, [_power_on] boots the
    zone with them and removes [bootargs] and [bootargs_persist] from
    [instance.metadata], whether the boot succeeds or fails.  A run that
    does not get to the boot has failed, and has booted nothing. *)
Theorem transient_bootargs_are_used_once (b : string) (w : World)
    (r : Res unit) (w' : World) :
  conf_solariszones_boot_options (CONF (env w)) = true →
  i_metadata (inst w) !! "bootargs" = Some b →
  b ≠ "" →
  py.lower (default "False" (i_metadata (inst w) !! "bootargs_persist"))
  = "false" →
  driver._power_on w = (r, w') →
  (calls_only before_boot w w' ∧ r ≠ Ok tt)
  ∨ (ZBoot (i_name (inst w)) ["--"; b] ∈ trace w'
     ∧ i_metadata (inst w') !! "bootargs" = None
     ∧ i_metadata (inst w') !! "bootargs_persist" = None).
Proof.
  intros Hopt Hb Hne Hpers Hrun. unfold driver._power_on in Hrun.
  apply bind_run in Hrun
    as [(i & w0 & [= <- <-] & H) | [(? & [=] & _) | [[=] _]]].
  cbv zeta in H.
  apply bind_run in H as [(oz & w1 & Hz & H) | [(e & Hz & ->) | [Hz ->]]].
  2, 3: left; apply get_zone_by_name_boot_prelude in Hz as (_ & _ & Hz);
    by split.
  pose proof Hz as [_ Hname]%get_zone_by_name_run.
  apply get_zone_by_name_boot_prelude in Hz.
  destruct oz as [zone |].
  2: { injection H as <- <-. left. destruct Hz as (_ & _ & Hz). by split. }
  specialize (Hname zone eq_refl) as ->.
  apply bind_run in H as [(h & w2 & Hh & H) | [(e & Hh & ->) | [Hh ->]]];
    apply set_instance_metahostid_boot_prelude in Hh.
  2, 3: left; assert (boot_prelude w w') as (_ & _ & Hcalls) by (by etrans);
    by split.
  assert (boot_prelude w w2) as H2 by (by etrans). clear Hz Hh w1.
  apply bind_run in H
    as [(conf & w0 & [= <- <-] & H) | [(? & [=] & _) | [[=] _]]].
  cbv zeta in H.
  pose proof H2 as (Henv & _ & _). unfold same_env in Henv.
  rewrite Henv, Hopt in H.
  apply bind_run in H as [(args & w4 & Hargs & H) | [(e & Hargs & ->) | [Hargs ->]]].
  2, 3: left;
    assert (boot_prelude w2 w') as H4
      by (refine ((_ : keeps boot_prelude _) _ _ _ Hargs);
          repeat first [ apply lookup_resource_property_boot_prelude
                       | apply clear_bootargs_boot_prelude | keeps_step ]);
    assert (boot_prelude w w') as (_ & _ & Hcalls) by (by etrans);
    by split.
  assert (boot_prelude w2 w4) as H4
    by (refine ((_ : keeps boot_prelude _) _ _ _ Hargs);
        repeat first [ apply lookup_resource_property_boot_prelude
                     | apply clear_bootargs_boot_prelude | keeps_step ]).
  assert (boot_prelude w w4) as (_ & Hmeta4 & evs4 & Htrace4 & _) by (by etrans).
  unfold unchanged in Hmeta4.
  assert (driver.bootargs args = ["--"; b] ∧ driver.meta_bootargs args = Some b
          ∧ driver.persistent args
            = default "False" (i_metadata (inst w) !! "bootargs_persist"))
    as (Hba & Hmb & Hp).
  { apply bind_run in Hargs
      as [(cur & w3 & Hcur & Hargs) | [(? & _ & [=]) | [_ [=]]]].
    apply lookup_resource_property_boot_prelude in Hcur.
    assert (boot_prelude w w3) as (_ & Hmeta3 & _) by (by etrans).
    unfold unchanged in Hmeta3.
    apply bind_run in Hargs
      as [(i & w0 & [= <- <-] & Hargs) | [(? & [=] & _) | [[=] _]]].
    cbv zeta in Hargs. rewrite Hmeta3, Hb in Hargs. simpl in Hargs.
    unfold truthy in Hargs.
    rewrite bool_decide_eq_false_2 in Hargs by done. simpl in Hargs.
    destruct (bool_decide (cur ≠ None) && bool_decide (Some b ≠ cur)).
    - apply bind_run in Hargs
        as [([] & w0 & _ & [= <- <-]) | [(? & _ & [=]) | [_ [=]]]].
      done.
    - by injection Hargs as <- <-. }
  clear Hargs H2 H4 Henv w2.
  unfold try_finally in H.
  destruct (try_except _ _ w4) as [rb w5] eqn:Hbody.
  apply boot_run in Hbody as (Hnd & Hinst5 & evs5 & Htrace5).
  rewrite Hba in Htrace5.
  unfold driver.when at 1 in H.
  rewrite Hmb, Hp, Hpers in H. simpl in H. unfold truthy in H.
  rewrite bool_decide_eq_false_2 in H by done. simpl in H.
  match type of H with
  | context [ (?pops ≫= ?rest) w5 ] =>
      destruct ((pops ≫= rest) w5) as [rf w6] eqn:Hfin
  end.
  assert (w' = w6) as ->.
  { destruct rb as [[] | e |]; [| | done]; destruct rf as [[] | e' |];
      by injection H as <- <-. }
  clear H.
  apply bind_run in Hfin
    as [([] & w7 & Hpop & Hrest) | [(e & Hpop & ->) | [Hpop ->]]];
    apply pop_metadata_twice in Hpop as (Hok & Htrace7 & Hmeta7); [| done | done].
  assert (boot_epilogue w7 w6) as (Hmeta6 & evs6 & Htrace6 & _).
  { refine ((_ : keeps boot_epilogue _) _ _ _ Hrest).
    unfold driver.when.
    repeat first [ apply restore_bootargs_boot_epilogue | keeps_step ]. }
  unfold unchanged in Hmeta6. right. split_and!.
  - rewrite Htrace6, Htrace7, Htrace5. set_solver.
  - rewrite Hmeta6, Hmeta7. rewrite lookup_delete_ne by done.
    by rewrite lookup_delete_eq.
  - rewrite Hmeta6, Hmeta7. by rewrite lookup_delete_eq.
Qed.

Lemma transient_bootargs_are_used_once_witness :
  let run := driver._power_on Ex.boot_with_arguments_fails in
  (∃ reason, run.1 = Raise (InstancePowerOnFailure reason))
  ∧ ((calls_only before_boot Ex.boot_with_arguments_fails run.2 ∧ run.1 ≠ Ok tt)
     ∨ (ZBoot "instance-00000001" ["--"; "-v"] ∈ trace run.2
        ∧ i_metadata (inst run.2) !! "bootargs" = None
        ∧ i_metadata (inst run.2) !! "bootargs_persist" = None)).
Proof.
  cbv zeta. split; [by eexists |].
  apply (transient_bootargs_are_used_once "-v" Ex.boot_with_arguments_fails).
  - reflexivity.
  - reflexivity.
  - discriminate.
  - reflexivity.
  - by destruct (driver._power_on Ex.boot_with_arguments_fails).
Defined.

(** ** Attaching a volume *)

#[local] Instance same_states_preorder : PreOrder same_states.
Proof.
  split; [by intros w zone |].
  intros w1 w2 w3 H12 H23 zone. by rewrite H23, H12.
Qed.

Lemma same_states_call ev : keeps same_states (call ev).
Proof. apply keeps_call; try apply _; done. Qed.

(** A write of a zone that keeps its state. *)
Lemma same_states_insert zone z z' w w' :
  zones w !! zone = Some z → z_state z' = z_state z →
  zones w' = <[zone := z']> (zones w) →
  same_states w w'.
Proof.
  intros Hz Hstate Hw' zone'. rewrite Hw'.
  destruct (decide (zone = zone')) as [<- | Hne].
  - rewrite lookup_insert_eq, Hz. simpl. by rewrite Hstate.
  - by rewrite lookup_insert_ne.
Qed.

Ltac same_states_leaf :=
  let H := fresh in
  intros ? ? ? H; unfold_zonemgr; unfold_monad; run_cases;
  first [ reflexivity | by intros ?
        | eapply same_states_insert; [eassumption | | reflexivity]; done ].

(** The edit session acts on the configuration of a zone, never on its
    state. *)
Lemma same_states_edit zone f : keeps same_states (zonemgr.edit zone f).
Proof. same_states_leaf. Qed.

Lemma same_states_editConfig zone :
  keeps same_states (zonemgr.editConfig zone).
Proof. same_states_leaf. Qed.

Lemma same_states_commitConfig zone :
  keeps same_states (zonemgr.commitConfig zone).
Proof. same_states_leaf. Qed.

Lemma same_states_cancelConfig zone :
  keeps same_states (zonemgr.cancelConfig zone).
Proof. same_states_leaf. Qed.

Ltac same_states_tac :=
  repeat first
    [ apply same_states_call
    | apply same_states_edit
    | apply same_states_editConfig
    | apply same_states_commitConfig
    | apply same_states_cancelConfig
    | keeps_step
    | progress unfold ZoneConfig.with_, ZoneConfig.__enter__,
        ZoneConfig.__exit__, ZoneConfig.__init__, ZoneConfig.addresource,
        ZoneConfig.removeresources, zonemgr.addResource,
        zonemgr.setResourceProperties, zonemgr.removeResources ].

Lemma same_states_add_device zone props :
  keeps same_states
    (ZoneConfig.with_ zone
       (λ zc, ZoneConfig.addresource zc "device" props false)).
Proof. same_states_tac. Qed.

Lemma add_device_terminates zone props :
  terminates
    (ZoneConfig.with_ zone
       (λ zc, ZoneConfig.addresource zc "device" props false)).
Proof. terminates_auto. Qed.

(** [attach_volume] reports success for a kernel zone that is not
    running even when the device could not be added: whatever the edit
    of the zone configuration raises is logged and dropped, and with no
    running zone to apply the change to the method returns. *)
Theorem attach_volume_hides_a_failed_edit (connection_info : ConnInfo)
    (volume_path mountpoint : string) (z : Zone) (w : World) (r : Res unit)
    (w' : World) :
  zones w !! i_name (inst w) = Some z →
  z_state z ≠ ZONE_STATE_RUNNING →
  faults (env w) (now w) (RadGetZone (i_name (inst w))) = None →
  driver.flavor_brand (i_flavor (inst w)) = ZONE_BRAND_SOLARIS_KZ →
  ci_driver_volume_type connection_info = "local" →
  ci_volume_path connection_info = Some volume_path →
  driver.attach_volume (Some connection_info) (Some mountpoint) w = (r, w') →
  r = Ok tt.
Proof.
  intros Hz Hstate Hfault Hbrand Htype Hpath.
  unfold driver.attach_volume.
  rewrite (bind_ok _ _ w (inst w) w) by done. cbv zeta.
  rewrite (bind_ok _ _ _ _ _ (get_zone_by_name_present _ z w Hz Hfault)).
  set (w1 := set_trace _ w).
  rewrite (bind_ok _ _ w1 (i_flavor (inst w)) w1) by done.
  rewrite Hbrand. rewrite bool_decide_eq_false_2 by (by intros []).
  rewrite (bind_ok _ _ w1 connection_info w1) by done.
  rewrite (bind_ok _ _ w1 ("dev:/dev/zvol/dsk/" +:+ volume_path) w1).
  2: { unfold driver._suri_from_volume_info. rewrite Htype, Hpath. done. }
  rewrite (bind_ok _ _ w1 mountpoint w1) by done. cbv zeta.
  match goal with
  | |- context [driver.ignore_errors ?m] =>
      destruct (ignore_errors_run same_states m w1) as (w2 & Hignore & Hsame);
        [apply add_device_terminates | apply same_states_add_device |]
  end.
  rewrite (bind_ok _ _ _ _ _ Hignore).
  specialize (Hsame (i_name (inst w))). simpl in Hsame. rewrite Hz in Hsame.
  unfold zonemgr.state, zonemgr.the_zone. unfold_monad.
  destruct (zones w2 !! i_name (inst w)) as [z2 |]; [| done].
  injection Hsame as Hsame. rewrite Hsame.
  rewrite bool_decide_eq_false_2 by done. by intros [= <- _].
Qed.

Lemma attach_volume_hides_a_failed_edit_witness :
  let run :=
    driver.attach_volume (Some Ex.local_volume) (Some "c1d1")
      Ex.halted_edit_fails in
  run.1 = Ok tt ∧ zones run.2 = zones Ex.halted_edit_fails.
Proof.
  cbv zeta. split; [| reflexivity].
  apply (attach_volume_hides_a_failed_edit Ex.local_volume
           "rpool/cinder/vol-3" "c1d1"
           (mkZone "solaris-kz" ZONE_STATE_INSTALLED Ex.kz_config None)
           Ex.halted_edit_fails _
           (driver.attach_volume (Some Ex.local_volume) (Some "c1d1")
              Ex.halted_edit_fails).2).
  - reflexivity.
  - discriminate.
  - reflexivity.
  - reflexivity.
  - reflexivity.
  - reflexivity.
  - by destruct (driver.attach_volume _ _ _).
Defined.

Lemma no_fault_edits_succeed e : no_fault e → edits_succeed e.
Proof. intros Hquiet n ev _. apply Hquiet. Qed.

(** An edit session on a host where the calls that edit succeed: the
    change is committed. *)
Lemma add_device_commits zone z props w :
  edits_succeed (env w) →
  zones w !! zone = Some z →
  z_edit z = None →
  ∃ w',
    ZoneConfig.with_ zone
      (λ zc, ZoneConfig.addresource zc "device" props false) w
    = (Ok tt, w')
    ∧ env w' = env w ∧ inst w' = inst w
    ∧ zones w'
      = <[zone := mkZone (z_brand z) (z_state z)
                    (z_config z ++ [mkResource "device" props]) None]>
          (zones w).
Proof.
  intros Hquiet Hz Hedit.
  unfold ZoneConfig.with_, ZoneConfig.__enter__, ZoneConfig.__exit__,
    ZoneConfig.__init__, ZoneConfig.addresource, with_statement.
  unfold_zonemgr. unfold_monad. unfold edits_succeed in Hquiet. simpl.
  repeat (first [ rewrite Hquiet by done | rewrite lookup_insert_eq
                | rewrite Hz | rewrite Hedit ]; simpl).
  eexists. split; [reflexivity |]. simpl.
  split_and!; [done | done |].
  by rewrite !insert_insert_eq.
Qed.

Lemma remove_device_commits zone z props w :
  edits_succeed (env w) →
  zones w !! zone = Some z →
  z_edit z = None →
  ∃ w',
    ZoneConfig.with_ zone
      (λ zc, ZoneConfig.removeresources zc "device" props) w
    = (Ok tt, w')
    ∧ env w' = env w ∧ inst w' = inst w
    ∧ zones w'
      = <[zone := mkZone (z_brand z) (z_state z)
                    (filter (λ r, zonemgr.res_matches
                                    (mkResource "device" props) r = false)
                       (z_config z)) None]>
          (zones w).
Proof.
  intros Hquiet Hz Hedit.
  unfold ZoneConfig.with_, ZoneConfig.__enter__, ZoneConfig.__exit__,
    ZoneConfig.__init__, ZoneConfig.removeresources, with_statement.
  unfold_zonemgr. unfold_monad. unfold edits_succeed in Hquiet. simpl.
  repeat (first [ rewrite Hquiet by done | rewrite lookup_insert_eq
                | rewrite Hz | rewrite Hedit ]; simpl).
  eexists. split; [reflexivity |]. simpl.
  split_and!; [done | done |].
  by rewrite !insert_insert_eq.
Qed.

Lemma apply_when_running_quiet zone z (state : ZoneState) (h : Exn → M unit) w :
  no_fault (env w) →
  zones w !! zone = Some z →
  ∃ w',
    (if bool_decide (state = ZONE_STATE_RUNNING)
     then try_except (zonemgr.apply zone) h else mret tt) w
    = (Ok tt, w')
    ∧ env w' = env w ∧ inst w' = inst w ∧ zones w' = zones w.
Proof.
  intros Hquiet Hz. unfold no_fault in Hquiet.
  destruct (bool_decide (state = ZONE_STATE_RUNNING)); [| by eexists].
  unfold zonemgr.apply. unfold_zonemgr. unfold_monad. simpl.
  rewrite Hquiet. simpl. rewrite Hz. by eexists.
Qed.

Lemma suri_of_local_volume connection_info volume_path w :
  ci_driver_volume_type connection_info = "local" →
  ci_volume_path connection_info = Some volume_path →
  driver._suri_from_volume_info connection_info w
  = (Ok ("dev:/dev/zvol/dsk/" +:+ volume_path), w).
Proof.
  intros Htype Hpath. unfold driver._suri_from_volume_info.
  by rewrite Htype, Hpath.
Qed.

(** On a host where every call succeeds, [attach_volume] adds the device
    of the volume to the configuration of the kernel zone. *)
Lemma attach_volume_quiet connection_info volume_path mountpoint z w :
  no_fault (env w) →
  zones w !! i_name (inst w) = Some z →
  z_edit z = None →
  driver.flavor_brand (i_flavor (inst w)) = ZONE_BRAND_SOLARIS_KZ →
  ci_driver_volume_type connection_info = "local" →
  ci_volume_path connection_info = Some volume_path →
  ∃ w',
    driver.attach_volume (Some connection_info) (Some mountpoint) w
    = (Ok tt, w')
    ∧ env w' = env w ∧ inst w' = inst w
    ∧ zones w'
      = <[i_name (inst w) :=
            mkZone (z_brand z) (z_state z)
              (z_config z
               ++ [attached_device ("dev:/dev/zvol/dsk/" +:+ volume_path)
                     mountpoint]) None]>
          (zones w).
Proof.
  intros Hquiet Hz Hedit Hbrand Htype Hpath.
  unfold driver.attach_volume.
  rewrite (bind_ok _ _ w (inst w) w) by done. cbv zeta.
  rewrite (bind_ok _ _ _ _ _ (get_zone_by_name_present _ z w Hz (Hquiet _ _))).
  set (w1 := set_trace _ w).
  rewrite (bind_ok _ _ w1 (i_flavor (inst w)) w1) by done.
  rewrite Hbrand. rewrite bool_decide_eq_false_2 by (by intros []).
  rewrite (bind_ok _ _ w1 connection_info w1) by done.
  rewrite (bind_ok _ _ _ _ _ (suri_of_local_volume _ _ w1 Htype Hpath)).
  rewrite (bind_ok _ _ w1 mountpoint w1) by done. cbv zeta.
  destruct (add_device_commits (i_name (inst w)) z
              [Property_ "storage" ("dev:/dev/zvol/dsk/" +:+ volume_path);
               Property_ "id" (pretty (driver._get_device_index mountpoint))]
              w1 (no_fault_edits_succeed _ Hquiet) Hz Hedit)
    as (w2 & Hadd & Henv2 & Hinst2 & Hzones2).
  rewrite (bind_ok _ _ w1 tt w2)
    by (unfold driver.ignore_errors, try_except; by rewrite Hadd).
  assert (zones w2 !! i_name (inst w)
          = Some (mkZone (z_brand z) (z_state z)
                    (z_config z
                     ++ [attached_device
                           ("dev:/dev/zvol/dsk/" +:+ volume_path) mountpoint])
                    None)) as Hz2
    by (by rewrite Hzones2, lookup_insert_eq).
  rewrite (bind_ok _ _ w2 (z_state z) w2)
    by (unfold zonemgr.state, zonemgr.the_zone; unfold_monad; by rewrite Hz2).
  match goal with
  | |- context [try_except _ ?h] =>
      assert (no_fault (env w2)) as Hquiet2 by (by rewrite Henv2);
      destruct (apply_when_running_quiet (i_name (inst w)) _ (z_state z) h w2
                  Hquiet2 Hz2)
        as (w3 & -> & Henv3 & Hinst3 & Hzones3)
  end.
  exists w3. split_and!; [done | | |].
  - by rewrite Henv3, Henv2.
  - by rewrite Hinst3, Hinst2.
  - by rewrite Hzones3, Hzones2.
Qed.

(** The lookup of [detach_volume] finds a device that is configured. *)
Lemma lookup_device_quiet zone z suri r w :
  no_fault (env w) →
  zones w !! zone = Some z →
  z_edit z = None →
  r ∈ z_config z →
  has_storage suri r = true →
  ∃ found,
    utils.lookup_resource_property_value zone "device" "storage" suri w
    = (Ok (Some found),
       set_trace (trace w ++ [ZGetResources zone (Resource_ "device")]) w).
Proof.
  intros Hquiet Hz Hedit Hr [Htype Hstorage]%andb_prop.
  apply bool_decide_eq_true in Htype.
  unfold utils.lookup_resource_property_value, zonemgr.getResources.
  unfold_zonemgr. unfold_monad. simpl.
  rewrite Hquiet. simpl. rewrite Hz. simpl.
  unfold zonemgr.view. rewrite Hedit. simpl.
  match goal with
  | |- context [List.find ?P ?l] => destruct (List.find P l) as [found |] eqn:Hfind
  end; [by eexists |].
  exfalso. rewrite (find_none _ _ Hfind r) in Hstorage; [done |].
  apply list_elem_of_In, list_elem_of_filter. split; [| done].
  unfold zonemgr.res_matches. simpl. rewrite Htype.
  by rewrite bool_decide_eq_true_2.
Qed.

(** On a host where every call succeeds, [detach_volume] removes from the
    configuration of the kernel zone the devices of the volume. *)
Lemma detach_volume_quiet connection_info volume_path mountpoint z r w :
  no_fault (env w) →
  zones w !! i_name (inst w) = Some z →
  z_edit z = None →
  driver.flavor_brand (i_flavor (inst w)) = ZONE_BRAND_SOLARIS_KZ →
  ci_driver_volume_type connection_info = "local" →
  ci_volume_path connection_info = Some volume_path →
  r ∈ z_config z →
  has_storage ("dev:/dev/zvol/dsk/" +:+ volume_path) r = true →
  ∃ w',
    driver.detach_volume connection_info mountpoint w = (Ok tt, w')
    ∧ env w' = env w ∧ inst w' = inst w
    ∧ zones w'
      = <[i_name (inst w) :=
            mkZone (z_brand z) (z_state z)
              (filter (λ r, zonemgr.res_matches
                              (device_of ("dev:/dev/zvol/dsk/" +:+ volume_path))
                              r = false)
                 (z_config z)) None]>
          (zones w).
Proof.
  intros Hquiet Hz Hedit Hbrand Htype Hpath Hr Hstorage.
  unfold driver.detach_volume.
  rewrite (bind_ok _ _ w (inst w) w) by done. cbv zeta.
  rewrite (bind_ok _ _ _ _ _ (get_zone_by_name_present _ z w Hz (Hquiet _ _))).
  set (w1 := set_trace _ w).
  rewrite (bind_ok _ _ w1 (i_flavor (inst w)) w1) by done.
  rewrite Hbrand. rewrite bool_decide_eq_false_2 by (by intros []).
  rewrite (bind_ok _ _ _ _ _ (suri_of_local_volume _ _ w1 Htype Hpath)).
  destruct (lookup_device_quiet (i_name (inst w)) z
              ("dev:/dev/zvol/dsk/" +:+ volume_path) r w1 Hquiet Hz Hedit Hr
              Hstorage) as (found & Hfound).
  rewrite (bind_ok _ _ _ _ _ Hfound).
  set (w2 := set_trace _ w1).
  destruct (remove_device_commits (i_name (inst w)) z
              [Property_ "storage" ("dev:/dev/zvol/dsk/" +:+ volume_path)]
              w2 (no_fault_edits_succeed _ Hquiet) Hz Hedit)
    as (w3 & Hremove & Henv3 & Hinst3 & Hzones3).
  rewrite (bind_ok _ _ _ _ _ Hremove).
  assert (zones w3 !! i_name (inst w)
          = Some (mkZone (z_brand z) (z_state z)
                    (filter (λ r, zonemgr.res_matches
                                    (device_of
                                       ("dev:/dev/zvol/dsk/" +:+ volume_path))
                                    r = false)
                       (z_config z)) None)) as Hz3
    by (by rewrite Hzones3, lookup_insert_eq).
  rewrite (bind_ok _ _ w3 (z_state z) w3)
    by (unfold zonemgr.state, zonemgr.the_zone; unfold_monad; by rewrite Hz3).
  match goal with
  | |- context [try_except _ ?h] =>
      assert (no_fault (env w3)) as Hquiet3 by (by rewrite Henv3);
      destruct (apply_when_running_quiet (i_name (inst w)) _ (z_state z) h w3
                  Hquiet3 Hz3)
        as (w4 & -> & Henv4 & Hinst4 & Hzones4)
  end.
  exists w4. split_and!; [done | | |].
  - by rewrite Henv4, Henv3.
  - by rewrite Hinst4, Hinst3.
  - by rewrite Hzones4, Hzones3.
Qed.

Lemma filter_keeps_all {A} (P : A → Prop) `{!∀ x, Decision (P x)} (l : list A) :
  Forall P l → filter P l = l.
Proof.
  induction 1 as [| x l Hx _ IH]; [done |].
  by rewrite filter_cons_True, IH.
Qed.

(** Detaching a volume undoes its attachment: on a host where every call
    succeeds, [attach_volume] followed by [detach_volume] of the same
    local volume leaves every zone as it was, provided no device of the
    kernel zone used that storage before.  In between, the configuration
    of the zone ends with the device of the volume. *)
Theorem detach_undoes_attach (connection_info : ConnInfo)
    (volume_path mountpoint : string) (z : Zone) (w : World) :
  no_fault (env w) →
  zones w !! i_name (inst w) = Some z →
  z_edit z = None →
  driver.flavor_brand (i_flavor (inst w)) = ZONE_BRAND_SOLARIS_KZ →
  ci_driver_volume_type connection_info = "local" →
  ci_volume_path connection_info = Some volume_path →
  Forall (λ r, zonemgr.res_matches
                 (device_of ("dev:/dev/zvol/dsk/" +:+ volume_path)) r = false)
    (z_config z) →
  ∃ w1 w2,
    driver.attach_volume (Some connection_info) (Some mountpoint) w
    = (Ok tt, w1)
    ∧ committed (i_name (inst w)) w1
      = Some (z_config z
              ++ [attached_device ("dev:/dev/zvol/dsk/" +:+ volume_path)
                    mountpoint])
    ∧ driver.detach_volume connection_info mountpoint w1 = (Ok tt, w2)
    ∧ zones w2 = zones w.
Proof.
  intros Hquiet Hz Hedit Hbrand Htype Hpath Hfresh.
  destruct (attach_volume_quiet connection_info volume_path mountpoint z w
              Hquiet Hz Hedit Hbrand Htype Hpath)
    as (w1 & Hattach & Henv1 & Hinst1 & Hzones1).
  set (suri := "dev:/dev/zvol/dsk/" +:+ volume_path) in *.
  set (device := attached_device suri mountpoint) in *.
  set (z1 := mkZone (z_brand z) (z_state z) (z_config z ++ [device]) None) in *.
  assert (zones w1 !! i_name (inst w1) = Some z1) as Hz1
    by (rewrite Hinst1, Hzones1; apply lookup_insert_eq).
  assert (no_fault (env w1)) as Hquiet1 by (rewrite Henv1; exact Hquiet).
  assert (driver.flavor_brand (i_flavor (inst w1)) = ZONE_BRAND_SOLARIS_KZ)
    as Hbrand1 by (rewrite Hinst1; exact Hbrand).
  assert (device ∈ z_config z1) as Hdevice
    by (apply elem_of_app; right; apply list_elem_of_singleton;
        reflexivity).
  assert (has_storage suri device = true) as Hstorage.
  { unfold has_storage, device, attached_device. cbn [res_type res_props existsb].
    rewrite bool_decide_eq_true_2 by reflexivity.
    unfold Property_. cbn [prop_name prop_value].
    rewrite bool_decide_eq_true_2 by (split; reflexivity). reflexivity. }
  destruct (detach_volume_quiet connection_info volume_path mountpoint z1
              device w1 Hquiet1 Hz1 eq_refl Hbrand1 Htype Hpath Hdevice
              Hstorage)
    as (w2 & Hdetach & Henv2 & Hinst2 & Hzones2).
  exists w1, w2. split; [exact Hattach |]. split.
  { unfold committed. rewrite <- Hinst1, Hz1. reflexivity. }
  split; [exact Hdetach |].
  rewrite Hzones2, Hinst1, Hzones1, insert_insert_eq.
  change (z_config z1) with (z_config z ++ [device]).
  rewrite filter_app, (filter_keeps_all _ _ Hfresh).
  rewrite filter_cons_False, filter_nil, app_nil_r.
  - apply insert_id. rewrite Hz. destruct z as [zb zs zc ze].
    simpl in Hedit. rewrite Hedit. reflexivity.
  - unfold device, attached_device, device_of, zonemgr.res_matches,
      zonemgr.prop_matches, Property_.
    cbn [res_type res_props prop_name prop_value prop_listvalue forallb existsb].
    rewrite !bool_decide_eq_true_2 by (repeat split; reflexivity).
    intros [=].
Qed.

Lemma detach_undoes_attach_witness :
  ∃ w1 w2,
    driver.attach_volume (Some Ex.local_volume) (Some "c1d1") Ex.world
    = (Ok tt, w1)
    ∧ committed "instance-00000001" w1
      = Some (Ex.kz_config
              ++ [attached_device "dev:/dev/zvol/dsk/rpool/cinder/vol-3" "c1d1"])
    ∧ driver.detach_volume Ex.local_volume "c1d1" w1 = (Ok tt, w2)
    ∧ zones w2 = zones Ex.world.
Proof.
  apply (detach_undoes_attach Ex.local_volume "rpool/cinder/vol-3" "c1d1"
           Ex.kz_zone Ex.world).
  - intros n ev. reflexivity.
  - reflexivity.
  - reflexivity.
  - reflexivity.
  - reflexivity.
  - reflexivity.
  - repeat (constructor; [reflexivity |]). constructor.
Defined.

(** *** A detach that the running zone refuses *)

Lemma has_storage_not_matched suri r :
  has_storage suri r = false →
  zonemgr.res_matches (device_of suri) r = false.
Proof.
  unfold has_storage, zonemgr.res_matches, device_of.
  cbn [res_type res_props forallb].
  destruct (decide (res_type r = "device")) as [Htype | Htype].
  - rewrite !bool_decide_eq_true_2 by done. cbn [andb]. rewrite andb_true_r.
    induction (res_props r) as [| p props IH]; [done |].
    cbn [existsb]. intros [Hp Hprops]%orb_false_elim.
    rewrite IH, orb_false_r by done.
    apply bool_decide_eq_false in Hp. apply bool_decide_eq_false_2.
    unfold Property_. cbn [prop_name prop_value prop_listvalue].
    intros (Hname & Hvalue & _). apply Hp. by split.
  - intros _. by rewrite bool_decide_eq_false_2.
Qed.

(** The lookup of [detach_volume] finds the device [attach_volume]
    added, when no device before it carries the storage URI. *)
Lemma find_attached_device suri mountpoint cfg :
  Forall (λ r, has_storage suri r = false) cfg →
  List.find
    (λ r, existsb (λ p, bool_decide (prop_name p = "storage"
                                    ∧ prop_value p = Some suri))
            (res_props r))
    (filter (λ r, zonemgr.res_matches (Resource_ "device") r = true)
       (cfg ++ [attached_device suri mountpoint]))
  = Some (attached_device suri mountpoint).
Proof.
  induction 1 as [| r cfg Hr _ IH]; cbn [app].
  - rewrite filter_cons_True by reflexivity. cbn [List.find].
    unfold attached_device, Property_.
    cbn [res_props existsb prop_name prop_value].
    by rewrite bool_decide_eq_true_2.
  - destruct (decide (zonemgr.res_matches (Resource_ "device") r = true))
      as [Hdevice | Hother].
    + rewrite filter_cons_True by done. cbn [List.find].
      unfold has_storage in Hr. unfold zonemgr.res_matches in Hdevice.
      cbn [res_type res_props forallb] in Hdevice.
      rewrite andb_true_r in Hdevice. apply bool_decide_eq_true in Hdevice.
      rewrite bool_decide_eq_true_2 in Hr by done. cbn [andb] in Hr.
      by rewrite Hr.
    + by rewrite filter_cons_False.
Qed.

Lemma lookup_attached_device zone z suri mountpoint cfg w :
  edits_succeed (env w) →
  zones w !! zone = Some z →
  z_edit z = None →
  z_config z = cfg ++ [attached_device suri mountpoint] →
  Forall (λ r, has_storage suri r = false) cfg →
  utils.lookup_resource_property_value zone "device" "storage" suri w
  = (Ok (Some (attached_device suri mountpoint)),
     set_trace (trace w ++ [ZGetResources zone (Resource_ "device")]) w).
Proof.
  intros Hquiet Hz Hedit Hconfig Hfresh.
  unfold utils.lookup_resource_property_value, zonemgr.getResources.
  unfold_zonemgr. unfold_monad. simpl.
  rewrite Hquiet by done. simpl. rewrite Hz. simpl.
  unfold zonemgr.view. rewrite Hedit. simpl. rewrite Hconfig.
  by rewrite find_attached_device.
Qed.

(** A detach that the running zone refuses puts the device back, but
    not as it was: when [apply] fails, [detach_volume] raises its error
    after it has added the device again with its [storage] property
    only.  The [id] that [attach_volume] gave the device is lost. *)
Theorem refused_detach_restores_the_storage_only (connection_info : ConnInfo)
    (volume_path mountpoint : string) (cfg : list Resource) (z : Zone)
    (ex : Exn) (w : World) :
  edits_succeed (env w) →
  apply_fails ex (env w) →
  zones w !! i_name (inst w) = Some z →
  z_edit z = None →
  z_state z = ZONE_STATE_RUNNING →
  driver.flavor_brand (i_flavor (inst w)) = ZONE_BRAND_SOLARIS_KZ →
  ci_driver_volume_type connection_info = "local" →
  ci_volume_path connection_info = Some volume_path →
  z_config z
  = cfg ++ [attached_device ("dev:/dev/zvol/dsk/" +:+ volume_path) mountpoint] →
  Forall (λ r, has_storage ("dev:/dev/zvol/dsk/" +:+ volume_path) r = false)
    cfg →
  ∃ w',
    driver.detach_volume connection_info mountpoint w = (Raise ex, w')
    ∧ committed (i_name (inst w)) w'
      = Some (cfg ++ [device_of ("dev:/dev/zvol/dsk/" +:+ volume_path)]).
Proof.
  intros Hquiet Happly Hz Hedit Hstate Hbrand Htype Hpath Hconfig Hfresh.
  set (suri := "dev:/dev/zvol/dsk/" +:+ volume_path) in *.
  set (device := attached_device suri mountpoint) in *.
  unfold driver.detach_volume.
  rewrite (bind_ok _ _ w (inst w) w) by done. cbv zeta.
  rewrite (bind_ok _ _ _ _ _
             (get_zone_by_name_present _ z w Hz
                (Hquiet (now w) (RadGetZone (i_name (inst w))) eq_refl))).
  set (w1 := set_trace _ w).
  rewrite (bind_ok _ _ w1 (i_flavor (inst w)) w1) by done.
  rewrite Hbrand. rewrite bool_decide_eq_false_2 by (by intros []).
  rewrite (bind_ok _ _ _ _ _ (suri_of_local_volume _ _ w1 Htype Hpath)).
  fold suri.
  rewrite (bind_ok _ _ _ _ _
             (lookup_attached_device (i_name (inst w)) z suri mountpoint cfg
                w1 Hquiet Hz Hedit Hconfig Hfresh)).
  set (w2 := set_trace _ w1).
  destruct (remove_device_commits (i_name (inst w)) z
              [Property_ "storage" suri] w2 Hquiet Hz Hedit)
    as (w3 & Hremove & Henv3 & Hinst3 & Hzones3).
  rewrite (bind_ok _ _ _ _ _ Hremove).
  rewrite Hconfig in Hzones3.
  rewrite filter_app, filter_cons_False, filter_nil, app_nil_r in Hzones3.
  2: { unfold device, attached_device, zonemgr.res_matches,
         zonemgr.prop_matches, Property_.
       cbn [res_type res_props prop_name prop_value prop_listvalue forallb
            existsb].
       rewrite !bool_decide_eq_true_2 by (repeat split; reflexivity).
       intros [=]. }
  rewrite filter_keeps_all in Hzones3
    by (eapply Forall_impl; [exact Hfresh | apply has_storage_not_matched]).
  set (z3 := mkZone (z_brand z) (z_state z) cfg None) in *.
  assert (zones w3 !! i_name (inst w) = Some z3) as Hz3
    by (rewrite Hzones3; apply lookup_insert_eq).
  rewrite (bind_ok _ _ w3 (z_state z) w3)
    by (unfold zonemgr.state, zonemgr.the_zone; unfold_monad; by rewrite Hz3).
  rewrite Hstate. rewrite bool_decide_eq_true_2 by done.
  set (w4 := set_trace (trace w3 ++ [ZApply (i_name (inst w))]) w3).
  assert (apply_fails ex (env w3)) as Happly3 by (by rewrite Henv3).
  assert (zonemgr.apply (i_name (inst w)) w3 = (Raise ex, w4)) as Hrefused.
  { unfold zonemgr.apply, call, mbind, M_bind.
    by rewrite (Happly3 (now w3) (i_name (inst w))). }
  unfold try_except at 1. rewrite Hrefused. cbv zeta.
  unfold device, attached_device. cbn [res_props].
  rewrite filter_cons_True by (by apply (bool_decide_unpack _)).
  rewrite filter_cons_False by (by apply (bool_decide_unpack _)).
  rewrite filter_nil.
  destruct (add_device_commits (i_name (inst w)) z3 [Property_ "storage" suri]
              w4) as (w5 & Hadd & Henv5 & Hinst5 & Hzones5);
    [change (env w4) with (env w3); by rewrite Henv3 | exact Hz3
    | reflexivity |].
  rewrite (bind_ok _ _ _ _ _ Hadd).
  exists w5. split; [reflexivity |].
  unfold committed. rewrite Hzones5, lookup_insert_eq. reflexivity.
Qed.

Lemma refused_detach_restores_the_storage_only_witness :
  ∃ w',
    driver.detach_volume Ex.local_volume "c1d1" Ex.volume_in_use
    = (Raise Ex.apply_refused, w')
    ∧ committed "instance-00000001" w'
      = Some (Ex.kz_config
              ++ [device_of "dev:/dev/zvol/dsk/rpool/cinder/vol-3"]).
Proof.
  apply (refused_detach_restores_the_storage_only Ex.local_volume
           "rpool/cinder/vol-3" "c1d1" Ex.kz_config
           (mkZone "solaris-kz" ZONE_STATE_RUNNING
              (Ex.kz_config
               ++ [attached_device "dev:/dev/zvol/dsk/rpool/cinder/vol-3"
                     "c1d1"]) None)
           Ex.apply_refused Ex.volume_in_use).
  - intros n ev Hev. by destruct ev.
  - intros n zone. reflexivity.
  - reflexivity.
  - reflexivity.
  - reflexivity.
  - reflexivity.
  - reflexivity.
  - reflexivity.
  - reflexivity.
  - repeat (constructor; [reflexivity |]). constructor.
Defined.

(** ** Device numbers *)

Lemma device_index_weight letters i index :
  (1 ≤ i)%nat →
  driver.device_index i letters index
  = (index + 26 ^ Z.of_nat i * weight letters)%Z.
Proof.
  revert i index. induction letters as [| l letters IH]; intros i index Hi;
    simpl; [lia |].
  rewrite IH by lia. destruct i as [| i]; [lia |].
  change (driver.val "z" + 1)%Z with 26%Z.
  rewrite (Nat2Z.inj_succ (S i)), Z.pow_succ_r by lia. lia.
Qed.

Lemma device_index_first l letters :
  driver.device_index 0 (l :: letters) 0 = (weight (l :: letters) - 1)%Z.
Proof.
  simpl. rewrite device_index_weight by lia.
  change (26 ^ Z.of_nat 1)%Z with 26%Z. lia.
Qed.

Lemma weight_nonnegative letters : Forall lowercase letters → (0 ≤ weight letters)%Z.
Proof.
  induction 1 as [| l letters Hl _ IH]; simpl; [done |].
  unfold lowercase in Hl. lia.
Qed.

Lemma val_inj c1 c2 : driver.val c1 = driver.val c2 → c1 = c2.
Proof.
  unfold driver.val. intros H.
  rewrite <- (ascii_nat_embedding c1), <- (ascii_nat_embedding c2).
  f_equal. lia.
Qed.

Lemma weight_inj letters1 letters2 :
  Forall lowercase letters1 → Forall lowercase letters2 →
  weight letters1 = weight letters2 → letters1 = letters2.
Proof.
  intros H1. revert letters2.
  induction H1 as [| l1 letters1 Hl1 H1 IH]; intros letters2 H2 Hw;
    destruct H2 as [| l2 letters2 Hl2 H2]; simpl in Hw.
  - done.
  - apply weight_nonnegative in H2. unfold lowercase in Hl2. lia.
  - apply weight_nonnegative in H1. unfold lowercase in Hl1. lia.
  - pose proof (weight_nonnegative _ H1). pose proof (weight_nonnegative _ H2).
    unfold lowercase in Hl1, Hl2.
    assert (weight letters1 = weight letters2) as Hrest by lia.
    f_equal; [apply val_inj; lia | by apply IH].
Qed.

Lemma substring_all s : String.substring 0 (String.length s) s = s.
Proof. induction s as [| c s IH]; simpl; [done | by rewrite IH]. Qed.

Lemma remove_digits_letters s : letters_only s → py.remove_digits s = s.
Proof.
  unfold letters_only. induction s as [| c s IH]; simpl; [done |].
  intros [Hc Hs]%Forall_cons. rewrite IH by done.
  unfold py.is_digit. unfold lowercase, driver.val in Hc.
  change (nat_of_ascii "a") with 97 in Hc.
  destruct (Nat.leb_spec 48 (nat_of_ascii c)); [| done].
  destruct (Nat.leb_spec (nat_of_ascii c) 57); [lia | done].
Qed.

Lemma get_device_letter_sd s :
  letters_only s → block_device.get_device_letter ("sd" +:+ s) = s.
Proof.
  intros Hs. unfold block_device.get_device_letter, block_device.strip_prefix,
    block_device.strip_dev, py.removeprefix, py.startswith.
  change ("sd" +:+ s) with (String "s" (String "d" s)).
  cbn. rewrite Nat.sub_0_r, substring_all.
  assert (String.prefix "" s = true) as -> by (by destruct s).
  by apply remove_digits_letters.
Qed.

(** Disks get distinct device numbers: the names [sda], [sdb], ...,
    [sdz], [sdaa], ... are numbered by their letters, and two different
    names never get the same number. *)
Theorem disk_names_get_distinct_indexes (s1 s2 : string) :
  letters_only s1 → letters_only s2 →
  s1 ≠ "" → s2 ≠ "" →
  s1 ≠ s2 →
  driver._get_device_index ("sd" +:+ s1) ≠ driver._get_device_index ("sd" +:+ s2).
Proof.
  intros H1 H2 Hne1 Hne2 Hne Hindex. apply Hne. clear Hne.
  unfold driver._get_device_index in Hindex.
  rewrite !get_device_letter_sd in Hindex by done.
  unfold letters_only in H1, H2.
  apply Forall_reverse in H1, H2.
  rewrite <- (String.string_of_list_ascii_of_string s1),
    <- (String.string_of_list_ascii_of_string s2).
  f_equal. apply (inj reverse).
  destruct (reverse (String.list_ascii_of_string s1)) as [| l1 letters1] eqn:E1.
  { apply (f_equal reverse) in E1. rewrite reverse_involutive in E1.
    destruct s1; [done | discriminate]. }
  destruct (reverse (String.list_ascii_of_string s2)) as [| l2 letters2] eqn:E2.
  { apply (f_equal reverse) in E2. rewrite reverse_involutive in E2.
    destruct s2; [done | discriminate]. }
  rewrite !device_index_first in Hindex.
  apply weight_inj; [done | done | lia].
Qed.

Lemma disk_names_get_distinct_indexes_witness :
  driver._get_device_index "sdz" = 25%Z
  ∧ driver._get_device_index "sdaa" = 26%Z
  ∧ driver._get_device_index "sdz" ≠ driver._get_device_index "sdaa".
Proof.
  split; [reflexivity |]. split; [reflexivity |].
  apply (disk_names_get_distinct_indexes "z" "aa").
  - repeat constructor; vm_compute; discriminate.
  - repeat constructor; vm_compute; discriminate.
  - discriminate.
  - discriminate.
  - discriminate.
Defined.

Lemma get_device_letter_c s :
  block_device.get_device_letter ("c" +:+ s) = String "c" (py.remove_digits s).
Proof.
  unfold block_device.get_device_letter, block_device.strip_prefix,
    block_device.strip_dev, py.removeprefix, py.startswith.
  change ("c" +:+ s) with (String "c" s). reflexivity.
Qed.

(** The device number of a Solaris disk name is read from its letters
    alone: two names that start with [c] and differ only in their
    digits, such as [c1d0] and [c1d1], get the same number. *)
Theorem solaris_disk_names_are_numbered_by_their_letters (s1 s2 : string) :
  py.remove_digits s1 = py.remove_digits s2 →
  driver._get_device_index ("c" +:+ s1) = driver._get_device_index ("c" +:+ s2).
Proof.
  intros Hletters. unfold driver._get_device_index.
  by rewrite !get_device_letter_c, Hletters.
Qed.

Lemma solaris_disk_names_are_numbered_by_their_letters_witness :
  driver._get_device_index "c1d0" = 81%Z
  ∧ driver._get_device_index "c1d0" = driver._get_device_index "c1d1".
Proof.
  split; [reflexivity |].
  apply (solaris_disk_names_are_numbered_by_their_letters "1d0" "1d1").
  reflexivity.
Defined.
